(** * CallGuard: the real-time sensing-and-scoring pipeline and its session channel

    A shallow embedding of the parts of the browser extension that the
    specification makes claims about:

    - [EnhancedAudioProcessor] (the compiled audioProcessor.js): feature
      extraction, call-context detection, risk scoring, WAV encoding and
      the bulk recording entry point;
    - [updateRiskScore] of popup.js: the risk-level mapping;
    - [CommunicationService] (communicationService.ts): the WebSocket
      session channel with its reconnect logic.

    JavaScript numbers are IEEE 754 binary64 values; they are modelled by
    the Standard Library's binary64 specification [spec_float], so that
    [0/0] is NaN and every rounding is the one JavaScript performs.
    Counters and sums that only ever hold small integers (risk points,
    byte sums, sample counts) are modelled in [Z]: below 2^53 the binary64
    operations on them are exact.

    The development also covers the code around these parts: the
    real-time analysis loop with [RealTimePersuasionDetector] and the
    platform detection of audioProcessor.js, [SimpleAudioProcessor]
    (audioProcessor.ts), config.ts, and [CallGuardBackground]
    (background.ts), which drives the processor and the channel. *)

From Stdlib Require Import ZArith List Bool Lia String Floats.
From Stdlib Require Import QArith Qminmax Qabs Qround Lqa.
Import ListNotations.
Local Open Scope Z_scope.
#[local] Set Warnings "-inexact-float".

(* ================================================================== *)
(** * JavaScript numbers *)
(* ================================================================== *)

Module JS.

Definition number : Type := spec_float.

(** A numeric literal of the source: the binary64 value nearest to it. *)
Definition lit (f : float) : number := Prim2SF f.

(** An integer-valued number, e.g. an array length or a byte sum. *)
Definition of_Z (z : Z) : number := binary_normalize prec emax z 0 false.

Definition NaN : number := S754_nan.
Definition zero : number := S754_zero false.

Definition add : number -> number -> number := SF64add.
Definition mul : number -> number -> number := SF64mul.
Definition div : number -> number -> number := SF64div.

(** [x > y], [x < y] and [x == y] of JavaScript: false as soon as one side is NaN. *)
Definition gt (x y : number) : bool := SFltb y x.
Definition lt (x y : number) : bool := SFltb x y.
Definition eqb (x y : number) : bool := SFeqb x y.

Definition is_nan (x : number) : bool :=
  match x with S754_nan => true | _ => false end.

Definition is_neg_zero (x : number) : bool :=
  match x with S754_zero true => true | _ => false end.

(** [Math.min]: NaN if either argument is NaN; -0 is smaller than +0. *)
Definition Math_min (x y : number) : number :=
  if is_nan x || is_nan y then NaN
  else if lt x y then x
  else if lt y x then y
  else if is_neg_zero x then x else y.

(** [Math.max]: NaN if either argument is NaN; +0 is larger than -0. *)
Definition Math_max (x y : number) : number :=
  if is_nan x || is_nan y then NaN
  else if lt x y then y
  else if lt y x then x
  else if is_neg_zero x then y else x.

Definition Math_sqrt : number -> number := SF64sqrt.

(** [Math.floor]: zeros, infinities and NaN are returned unchanged; a
    finite [m * 2^e] is rounded towards minus infinity.  The only result
    that is not obtained by converting the integer back is -0, which
    cannot arise here: a negative finite value floors to at most -1. *)
Definition Math_floor (x : number) : number :=
  match x with
  | S754_finite s m e =>
      let v := if s then Z.neg m else Z.pos m in
      let n := if 0 <=? e then v * 2 ^ e else v / 2 ^ (- e) in
      of_Z n
  | _ => x
  end.

(** A call either returns a value or throws (an [async] function: its
    promise is fulfilled or rejected). *)
Inductive Outcome (A : Type) :=
| Returned (value : A)
| Thrown (error : string).
Arguments Returned {A} value.
Arguments Thrown {A} error.

End JS.

(* ================================================================== *)
(** * popup.js: the risk-level mapping *)
(* ================================================================== *)

Module Popup.

(** What [updateRiskScore] writes into the popup: the score text, the
    level label and the CSS class of the label. *)
Record RiskDisplay := {
  scoreText : Z;
  levelText : string;
  levelClass : string
}.

Definition updateRiskScore (score : Z) : RiskDisplay :=
  let level := "LOW"%string in
  let className := "risk-low"%string in
  let '(level, className) :=
    if score >=? 80 then ("CRITICAL", "risk-critical")%string
    else if score >=? 60 then ("HIGH", "risk-high")%string
    else if score >=? 30 then ("MEDIUM", "risk-medium")%string
    else (level, className) in
  {| scoreText := score;
     levelText := level;
     levelClass := ("risk-level " ++ className)%string |}.

(** The level mapping in the words of the specification:
    <30 low, 30-59 medium, 60-79 high, >=80 critical. *)
Inductive RiskLevel := low | medium | high | critical.

Definition level_label (l : RiskLevel) : string :=
  match l with
  | low => "LOW" | medium => "MEDIUM" | high => "HIGH" | critical => "CRITICAL"
  end%string.

Definition spec_level (score : Z) : RiskLevel :=
  if score <? 30 then low
  else if (30 <=? score) && (score <=? 59) then medium
  else if (60 <=? score) && (score <=? 79) then high
  else critical.

End Popup.

(* ================================================================== *)
(** * audioProcessor.js: EnhancedAudioProcessor *)
(* ================================================================== *)

Module AudioProcessor.

Import JS.

(** A [Uint8Array] as the analyser fills it: bytes in [0, 255]. *)
Definition Uint8Array : Type := list Z.

Definition sumBytes (data : Uint8Array) : Z :=
  fold_left (fun sum val => sum + val) data 0.

(** ** Feature extraction *)

Record Features := {
  spectralCentroid : number;
  spectralRolloff : number;
  spectralFlux : number;
  rms : number;
  zeroCrossingRate : number;
  energy : number;
  timestamp : Z
}.

Definition arrayLength (data : Uint8Array) : Z := Z.of_nat (List.length data).

(** [weightedSum += i * frequencyData[i]; sum += frequencyData[i]] *)
Fixpoint centroidLoop (data : Uint8Array) (i weightedSum sum : Z) : Z * Z :=
  match data with
  | [] => (weightedSum, sum)
  | x :: rest => centroidLoop rest (i + 1) (weightedSum + i * x) (sum + x)
  end.

Definition calculateSpectralCentroid (frequencyData : Uint8Array) : number :=
  let '(weightedSum, sum) := centroidLoop frequencyData 0 0 0 in
  if sum >? 0 then div (of_Z weightedSum) (of_Z sum) else zero.

Fixpoint rolloffLoop (data : Uint8Array) (i cumulativeSum : Z)
  (limit len : number) : number :=
  match data with
  | [] => lit 1.0%float
  | x :: rest =>
      let cumulativeSum := cumulativeSum + x in
      if SFleb limit (of_Z cumulativeSum) then div (of_Z i) len
      else rolloffLoop rest (i + 1) cumulativeSum limit len
  end.

Definition calculateSpectralRolloff (frequencyData : Uint8Array) : number :=
  let threshold := lit 0.85%float in
  let totalSum := sumBytes frequencyData in
  rolloffLoop frequencyData 0 0 (mul threshold (of_Z totalSum))
    (of_Z (arrayLength frequencyData)).

(** The loop of [calculateSpectralFlux].  [previousData[i]] is
    [undefined] past the end of the previous frame, which turns [flux]
    into NaN for good: [None] stands for that NaN. *)
Fixpoint fluxLoop (currentData previousData : Uint8Array) (flux : option Z)
  : option Z :=
  match currentData with
  | [] => flux
  | c :: cs =>
      match previousData with
      | [] => fluxLoop cs [] None
      | p :: ps =>
          let diff := c - p in
          fluxLoop cs ps (option_map (fun f => f + diff * diff) flux)
      end
  end.

Definition calculateSpectralFlux (currentData : Uint8Array)
  (previousData : option Uint8Array) : number :=
  match previousData with
  | None => zero
  | Some previous =>
      match fluxLoop currentData previous (Some 0) with
      | Some flux => Math_sqrt (of_Z flux)
      | None => Math_sqrt NaN
      end
  end.

Definition calculateRMS (timeData : Uint8Array) : number :=
  let sum :=
    fold_left
      (fun sum t =>
         let sample := div (of_Z (t - 128)) (lit 128%float) in
         add sum (mul sample sample))
      timeData zero in
  Math_sqrt (div sum (of_Z (arrayLength timeData))).

(** The loop of [calculateZeroCrossingRate], from [i = 1]: [previous]
    is [timeData[i - 1] - 128]. *)
Fixpoint crossingLoop (previous : Z) (rest : Uint8Array) (crossings : Z) : Z :=
  match rest with
  | [] => crossings
  | t :: rest' =>
      let current := t - 128 in
      let crossings :=
        if ((current >=? 0) && (previous <? 0)) || ((current <? 0) && (previous >=? 0))
        then crossings + 1 else crossings in
      crossingLoop current rest' crossings
  end.

Definition calculateZeroCrossingRate (timeData : Uint8Array) : number :=
  let crossings :=
    match timeData with
    | [] => 0
    | t0 :: rest => crossingLoop (t0 - 128) rest 0
    end in
  div (of_Z crossings) (of_Z (arrayLength timeData - 1)).

Definition calculateEnergy (frequencyData : Uint8Array) : number :=
  let energy := fold_left (fun energy f => energy + f * f) frequencyData 0 in
  div (of_Z energy) (of_Z (arrayLength frequencyData)).

(** [extractRealTimeFeatures]: reads [this.lastFrequencyData], stores the
    current frame in it, returns the feature vector.  [now] is [Date.now()]. *)
Definition extractRealTimeFeatures (lastFrequencyData : option Uint8Array)
  (frequencyData timeData : Uint8Array) (now : Z)
  : Features * option Uint8Array :=
  let spectralCentroid := calculateSpectralCentroid frequencyData in
  let spectralRolloff := calculateSpectralRolloff frequencyData in
  let spectralFlux := calculateSpectralFlux frequencyData lastFrequencyData in
  let rms := calculateRMS timeData in
  let zeroCrossingRate := calculateZeroCrossingRate timeData in
  let energy := calculateEnergy frequencyData in
  ({| spectralCentroid := spectralCentroid;
      spectralRolloff := spectralRolloff;
      spectralFlux := spectralFlux;
      rms := rms;
      zeroCrossingRate := zeroCrossingRate;
      energy := energy;
      timestamp := now |},
   Some frequencyData).

(** The constructor sets [this.lastFrequencyData = null]. *)
Definition initialLastFrequencyData : option Uint8Array := None.

(** Silence as the analyser reports it: every time-domain byte is at the
    midpoint 128 (a normalized sample of 0) and every frequency bin is 0. *)
Definition silentTime (timeData : Uint8Array) : Prop :=
  Forall (fun t => t = 128) timeData.
Definition silentFrequency (frequencyData : Uint8Array) : Prop :=
  Forall (fun f => f = 0) frequencyData.

(** ** Risk scoring *)

Record PersuasionCues := {
  detected : bool;
  urgency : bool;
  authority : bool;
  socialProof : bool;
  reciprocity : bool;
  commitment : bool;
  liking : bool;
  confidence : number;
  cueTimestamp : Z
}.

(** [riskScore] only ever holds an integer between 0 and 130. *)
Definition calculateRealTimeRisk (features : Features)
  (persuasionCues : PersuasionCues) : Z :=
  let riskScore := 0 in
  let riskScore :=
    if gt (spectralFlux features) (lit 50%float) then riskScore + 15 else riskScore in
  let riskScore :=
    if gt (rms features) (lit 0.8%float) then riskScore + 10 else riskScore in
  let riskScore :=
    if gt (zeroCrossingRate features) (lit 0.3%float) then riskScore + 10 else riskScore in
  let riskScore := if urgency persuasionCues then riskScore + 25 else riskScore in
  let riskScore := if authority persuasionCues then riskScore + 20 else riskScore in
  let riskScore := if socialProof persuasionCues then riskScore + 15 else riskScore in
  let riskScore := if reciprocity persuasionCues then riskScore + 15 else riskScore in
  let riskScore := if commitment persuasionCues then riskScore + 10 else riskScore in
  let riskScore := if liking persuasionCues then riskScore + 10 else riskScore in
  Z.min 100 riskScore.

(** The weighted-sum model in the words of the specification: every
    factor that holds contributes its weight, the others nothing. *)
Definition contribution (holds : bool) (weight : Z) : Z :=
  if holds then weight else 0.

Definition spec_risk (features : Features) (cues : PersuasionCues) : Z :=
  Z.min 100
    (contribution (gt (spectralFlux features) (lit 50%float)) 15
     + contribution (gt (rms features) (lit 0.8%float)) 10
     + contribution (gt (zeroCrossingRate features) (lit 0.3%float)) 10
     + contribution (urgency cues) 25
     + contribution (authority cues) 20
     + contribution (socialProof cues) 15
     + contribution (reciprocity cues) 15
     + contribution (commitment cues) 10
     + contribution (liking cues) 10).

(** ** Call-context detection *)

Record CallCharacteristics := {
  isCall : bool;
  callConfidence : number;
  participantCount : number
}.

(** The variables the interval callback of [analyzeCallCharacteristics]
    closes over. *)
Record Sampler := {
  samples : Z;
  totalEnergy : Z;
  varianceCount : Z;
  lastEnergy : Z
}.

Definition initialSampler : Sampler :=
  {| samples := 0; totalEnergy := 0; varianceCount := 0; lastEnergy := 0 |}.

(** What the callback resolves the promise with once [samples >= 30]. *)
Definition resolveCall (samples totalEnergy varianceCount : Z) : CallCharacteristics :=
  let avgEnergy := div (of_Z totalEnergy) (of_Z samples) in
  let varianceRatio := div (of_Z varianceCount) (of_Z samples) in
  let isCall := gt avgEnergy (lit 50%float) && gt varianceRatio (lit 0.3%float) in
  let confidence :=
    if isCall
    then Math_min (lit 0.9%float) (add (lit 0.5%float) (mul varianceRatio (lit 0.4%float)))
    else lit 0.1%float in
  let participantCount :=
    if isCall
    then Math_max (lit 2%float) (Math_floor (div avgEnergy (lit 30%float)))
    else lit 1%float in
  {| isCall := isCall; callConfidence := confidence; participantCount := participantCount |}.

(** One run of the interval callback on the frame the analyser delivers. *)
Definition sampleTick (st : Sampler) (dataArray : Uint8Array)
  : Sampler * option CallCharacteristics :=
  let energy := sumBytes dataArray in
  let totalEnergy := totalEnergy st + energy in
  let varianceCount :=
    if samples st >? 0
    then
      let variance := Z.abs (energy - lastEnergy st) in
      if variance >? 100 then varianceCount st + 1 else varianceCount st
    else varianceCount st in
  let lastEnergy := energy in
  let samples := samples st + 1 in
  let st' := {| samples := samples; totalEnergy := totalEnergy;
                varianceCount := varianceCount; lastEnergy := lastEnergy |} in
  if samples >=? 30
  then (st', Some (resolveCall samples totalEnergy varianceCount))
  else (st', None).

(** The interval runs every 100 ms until the promise is resolved (then
    [clearInterval]); [frames] are the successive analyser readings.
    [None]: the readings ran out before the promise was resolved. *)
Fixpoint sampleLoop (st : Sampler) (frames : list Uint8Array)
  : option CallCharacteristics :=
  match frames with
  | [] => None
  | dataArray :: rest =>
      match sampleTick st dataArray with
      | (_, Some result) => Some result
      | (st', None) => sampleLoop st' rest
      end
  end.

Definition analyzeCallCharacteristics (frames : list Uint8Array)
  : option CallCharacteristics :=
  sampleLoop initialSampler frames.

(** The observation window in the words of the specification: the
    average energy of its frames, and the fraction of frames whose
    energy jumped by more than the threshold from the frame before. *)
Definition windowEnergies (window : list Uint8Array) : list Z :=
  map sumBytes window.

Fixpoint countJumps (energies : list Z) : Z :=
  match energies with
  | e0 :: ((e1 :: _) as rest) =>
      (if Z.abs (e1 - e0) >? 100 then 1 else 0) + countJumps rest
  | _ => 0
  end.

Definition windowTotal (window : list Uint8Array) : Z :=
  fold_right Z.add 0 (windowEnergies window).

(** ** WAV encoding *)

(** An [ArrayBuffer] and the [DataView] on it: a fixed number of bytes,
    written in place.  A write that does not fit raises a RangeError:
    [None]. *)
Definition ArrayBuffer : Type := list Z.

Definition new_ArrayBuffer (byteLength : nat) : ArrayBuffer := repeat 0 byteLength.

Definition writeBytes (view : ArrayBuffer) (offset : nat) (bytes : list Z)
  : option ArrayBuffer :=
  if (offset + List.length bytes <=? List.length view)%nat
  then Some (firstn offset view ++ bytes ++ skipn (offset + List.length bytes) view)
  else None.

(** The [n] low bytes of [v], least significant first. *)
Fixpoint le_bytes (n : nat) (v : Z) : list Z :=
  match n with
  | O => []
  | S n' => v mod 256 :: le_bytes n' (v / 256)
  end.

Definition ordered (littleEndian : bool) (bytes : list Z) : list Z :=
  if littleEndian then bytes else rev bytes.

Definition setUint8 (view : ArrayBuffer) (offset : nat) (value : Z) :=
  writeBytes view offset (le_bytes 1 (value mod 2 ^ 8)).

Definition setUint16 (view : ArrayBuffer) (offset : nat) (value : Z) (littleEndian : bool) :=
  writeBytes view offset (ordered littleEndian (le_bytes 2 (value mod 2 ^ 16))).

Definition setUint32 (view : ArrayBuffer) (offset : nat) (value : Z) (littleEndian : bool) :=
  writeBytes view offset (ordered littleEndian (le_bytes 4 (value mod 2 ^ 32))).

(** Truncation towards zero, the integer conversion of [DataView] setters. *)
Definition Qtrunc (q : Q) : Z := Z.quot (Qnum q) (Z.pos (Qden q)).

(** [setInt16]: the value is truncated and reduced modulo 2^16; NaN
    ([None]) is written as 0. *)
Definition ToInt16 (value : option Q) : Z :=
  match value with
  | None => 0
  | Some q => Qtrunc q mod 2 ^ 16
  end.

Definition setInt16 (view : ArrayBuffer) (offset : nat) (value : option Q) (littleEndian : bool) :=
  writeBytes view offset (ordered littleEndian (le_bytes 2 (ToInt16 value))).

Definition bind {A B : Type} (a : option A) (f : A -> option B) : option B :=
  match a with
  | Some x => f x
  | None => None
  end.

Notation "x <- a ;; b" := (bind a (fun x => b))
  (at level 61, a at next level, right associativity).

(** An [AudioBuffer]: [buffer_length] sample frames of every channel.
    Samples are [Float32Array] elements, that is dyadic rationals with a
    24-bit significand; their products with [0x8000] and [0x7FFF] need
    at most 39 bits, so the binary64 multiplication is exact and the
    rationals compute what JavaScript computes.  The sample rate is an
    integer number of hertz. *)
Record AudioBuffer := {
  buffer_length : nat;
  sampleRate : Z;
  channelData : list (list Q)
}.

Definition numberOfChannels (buffer : AudioBuffer) : nat :=
  List.length (channelData buffer).

(** [buffer.getChannelData(channel)[i]]; reading past the end of a typed
    array gives [undefined], which the arithmetic turns into NaN. *)
Definition sampleAt (buffer : AudioBuffer) (channel i : nat) : option Q :=
  nth_error (nth channel (channelData buffer) []) i.

(** The platform guarantees that every channel holds [buffer_length] samples. *)
Definition wellFormed (buffer : AudioBuffer) : Prop :=
  Forall (fun samples => List.length samples = buffer_length buffer) (channelData buffer).

(** [Math.max(-1, Math.min(1, x))] followed by the scaling
    [sample < 0 ? sample * 0x8000 : sample * 0x7FFF]. *)
Definition clampSample (x : Q) : Q := Qmax (-1) (Qmin 1 x).

Definition scaleSample (sample : Q) : Q :=
  match sample ?= 0 with
  | Lt => sample * 32768
  | _ => sample * 32767
  end%Q.

Definition pcmValue (x : option Q) : option Q :=
  option_map (fun x => scaleSample (clampSample x)) x.

(** [writeString]: one [setUint8] per character code. *)
Fixpoint writeChars (view : ArrayBuffer) (offset : nat) (chars : list Ascii.ascii)
  : option ArrayBuffer :=
  match chars with
  | [] => Some view
  | c :: rest =>
      view <- setUint8 view offset (Z.of_N (Ascii.N_of_ascii c)) ;;
      writeChars view (offset + 1) rest
  end.

Definition writeString (view : ArrayBuffer) (offset : nat) (s : string) :=
  writeChars view offset (list_ascii_of_string s).

(** The inner loop over the channels of frame [i], and the outer loop
    over the frames; the state is the view and the running [offset]. *)
Fixpoint channelLoop (buffer : AudioBuffer) (i : nat) (channels : list nat)
  (view : ArrayBuffer) (offset : nat) : option (ArrayBuffer * nat) :=
  match channels with
  | [] => Some (view, offset)
  | channel :: rest =>
      view <- setInt16 view offset (pcmValue (sampleAt buffer channel i)) true ;;
      channelLoop buffer i rest view (offset + 2)
  end.

Fixpoint frameLoop (buffer : AudioBuffer) (frames : list nat)
  (view : ArrayBuffer) (offset : nat) : option (ArrayBuffer * nat) :=
  match frames with
  | [] => Some (view, offset)
  | i :: rest =>
      st <- channelLoop buffer i (seq 0 (numberOfChannels buffer)) view offset ;;
      frameLoop buffer rest (fst st) (snd st)
  end.

Definition audioBufferToWav (buffer : AudioBuffer) : option ArrayBuffer :=
  let length := buffer_length buffer in
  let numberOfChannels := numberOfChannels buffer in
  let sampleRate := sampleRate buffer in
  let dataBytes := Z.of_nat length * Z.of_nat numberOfChannels * 2 in
  let view := new_ArrayBuffer (44 + length * numberOfChannels * 2) in
  view <- writeString view 0 "RIFF" ;;
  view <- setUint32 view 4 (36 + dataBytes) true ;;
  view <- writeString view 8 "WAVE" ;;
  view <- writeString view 12 "fmt " ;;
  view <- setUint32 view 16 16 true ;;
  view <- setUint16 view 20 1 true ;;
  view <- setUint16 view 22 (Z.of_nat numberOfChannels) true ;;
  view <- setUint32 view 24 sampleRate true ;;
  view <- setUint32 view 28 (sampleRate * Z.of_nat numberOfChannels * 2) true ;;
  view <- setUint16 view 32 (Z.of_nat numberOfChannels * 2) true ;;
  view <- setUint16 view 34 16 true ;;
  view <- writeString view 36 "data" ;;
  view <- setUint32 view 40 dataBytes true ;;
  st <- frameLoop buffer (seq 0 length) view 44 ;;
  Some (fst st).

(** The 16-bit code the encoder stores for a sample. *)
Definition quantize (x : Q) : Z := Qtrunc (scaleSample (clampSample x)).

(** The container as the specification describes it: the 44-byte header
    with little-endian fields, then the interleaved little-endian codes. *)
Definition asciiBytes (s : string) : list Z :=
  map (fun c => Z.of_N (Ascii.N_of_ascii c)) (list_ascii_of_string s).

Definition wavHeader (buffer : AudioBuffer) : list Z :=
  let channels := Z.of_nat (numberOfChannels buffer) in
  let dataBytes := Z.of_nat (buffer_length buffer) * channels * 2 in
  asciiBytes "RIFF" ++ le_bytes 4 ((36 + dataBytes) mod 2 ^ 32)
  ++ asciiBytes "WAVE" ++ asciiBytes "fmt "
  ++ le_bytes 4 16 ++ le_bytes 2 1
  ++ le_bytes 2 (channels mod 2 ^ 16)
  ++ le_bytes 4 (sampleRate buffer mod 2 ^ 32)
  ++ le_bytes 4 ((sampleRate buffer * channels * 2) mod 2 ^ 32)
  ++ le_bytes 2 ((channels * 2) mod 2 ^ 16)
  ++ le_bytes 2 16
  ++ asciiBytes "data" ++ le_bytes 4 (dataBytes mod 2 ^ 32).

Definition frameBytes (buffer : AudioBuffer) (i : nat) : list Z :=
  flat_map
    (fun channel => le_bytes 2 (ToInt16 (pcmValue (sampleAt buffer channel i))))
    (seq 0 (numberOfChannels buffer)).

Definition wavData (buffer : AudioBuffer) : list Z :=
  flat_map (frameBytes buffer) (seq 0 (buffer_length buffer)).

(** Modelled from the spec: the decoder of the container, which the
    repository does not contain (the remote service decodes).  It reads
    the channel count, the sample rate and the data size from the header,
    little-endian, then the data as interleaved signed 16-bit codes, and
    returns the codes of every channel.  A code [c] stands for the sample
    [c / 0x8000] when negative and [c / 0x7FFF] otherwise, the inverse of
    the encoder's scaling. *)
Definition readLE (bytes : list Z) : Z :=
  fold_right (fun b acc => b + 256 * acc) 0 bytes.

Definition field (bytes : list Z) (offset size : nat) : Z :=
  readLE (firstn size (skipn offset bytes)).

Definition toSigned16 (u : Z) : Z := if u <? 2 ^ 15 then u else u - 2 ^ 16.

Fixpoint pcmCodes (data : list Z) : list Z :=
  match data with
  | lo :: hi :: rest => toSigned16 (readLE [lo; hi]) :: pcmCodes rest
  | _ => []
  end.

Definition deinterleave (channels : nat) (codes : list Z) : list (list Z) :=
  let frames := (List.length codes / channels)%nat in
  map (fun channel =>
         map (fun i => nth (i * channels + channel) codes 0) (seq 0 frames))
      (seq 0 channels).

Record DecodedWav := {
  decodedChannels : Z;
  decodedSampleRate : Z;
  decodedCodes : list (list Z)
}.

(** Modelled from the spec: the decoder proper.  [None]: shorter than a
    header. *)
Definition decodeWav (bytes : list Z) : option DecodedWav :=
  if (List.length bytes <? 44)%nat then None
  else
    let channels := field bytes 22 2 in
    let dataBytes := field bytes 40 4 in
    let data := firstn (Z.to_nat dataBytes) (skipn 44 bytes) in
    Some {| decodedChannels := channels;
            decodedSampleRate := field bytes 24 4;
            decodedCodes := deinterleave (Z.to_nat channels) (pcmCodes data) |}.

(** Modelled from the spec: the sample value a 16-bit code stands for. *)
Definition dequantize (code : Z) : Q :=
  if code <? 0 then code # 32768 else code # 32767.

(** ** Bulk capture *)

Inductive RecordingState := inactive | recording | paused.

(** The part of the processor that bulk capture touches: the
    [MediaRecorder] objects created so far, [this.mediaRecorder] as a
    reference to one of them, and the pending 60-second stop timers. *)
Record Recorder := {
  mediaRecorder : option nat;
  recorders : list RecordingState;
  isRecording : bool;
  stopTimers : nat
}.

(** The constructor: no recorder, not recording. *)
Definition newRecorder : Recorder :=
  {| mediaRecorder := None; recorders := []; isRecording := false; stopTimers := 0 |}.

(** [startCallRecording].  [getUserMedia] is the outcome of
    [navigator.mediaDevices.getUserMedia] and [newMediaRecorder] that of
    [new MediaRecorder(stream, ...)]: [inl] the error, [inr] the object.
    The function catches an error, logs it and throws it again;
    otherwise it stores the new recorder in [this.mediaRecorder], starts
    it, arms the 60-second timer and returns the recorder. *)
Definition startCallRecording (getUserMedia newMediaRecorder : string + unit)
  (p : Recorder) : Outcome nat * Recorder :=
  match getUserMedia, newMediaRecorder with
  | inl error, _ => (Thrown error, p)
  | inr _, inl error => (Thrown error, p)
  | inr _, inr _ =>
      let created := List.length (recorders p) in
      (Returned created,
       {| mediaRecorder := Some created;
          recorders := recorders p ++ [recording];
          isRecording := isRecording p;
          stopTimers := S (stopTimers p) |})
  end.

Definition recorderState (p : Recorder) (r : nat) : option RecordingState :=
  nth_error (recorders p) r.

Fixpoint setState (rs : list RecordingState) (r : nat) (st : RecordingState)
  : list RecordingState :=
  match rs, r with
  | [], _ => []
  | _ :: rest, O => st :: rest
  | x :: rest, S r' => x :: setState rest r' st
  end.

(** [if (this.mediaRecorder && this.mediaRecorder.state === 'recording')
    this.mediaRecorder.stop()], shared by the timer and by [stop]. *)
Definition stopCurrent (p : Recorder) : list RecordingState :=
  match mediaRecorder p with
  | Some r =>
      match recorderState p r with
      | Some recording => setState (recorders p) r inactive
      | _ => recorders p
      end
  | None => recorders p
  end.

(** One of the pending 60-second timers fires. *)
Definition stopTimerFires (p : Recorder) : Recorder :=
  {| mediaRecorder := mediaRecorder p;
     recorders := stopCurrent p;
     isRecording := isRecording p;
     stopTimers := pred (stopTimers p) |}.

(** [stop]. *)
Definition stop (p : Recorder) : Recorder :=
  {| mediaRecorder := mediaRecorder p;
     recorders := stopCurrent p;
     isRecording := false;
     stopTimers := stopTimers p |}.

(** The number of captures that are recording. *)
Definition activeCaptures (p : Recorder) : nat :=
  List.length (filter (fun st => match st with recording => true | _ => false end)
                 (recorders p)).

(** ** Auxiliary notions for the statements *)

(** The energy the next tick compares with, if any. *)
Definition previousEnergy (st : Sampler) : list Z :=
  if samples st >? 0 then [lastEnergy st] else [].

(** A window of 30 one-bin frames with total energy 1800 and 12 jumps. *)
Definition exampleWindow : list Uint8Array :=
  [[0]; [200]; [0]; [200]; [0]; [200]; [0]; [200]; [0]; [200]; [0]; [200]; [0]]
  ++ repeat [35] 16 ++ [[40]].

(** What the encoder stores for sample [i] of [channel], read back as a
    signed 16-bit code. *)
Definition storedCode (buffer : AudioBuffer) (channel i : nat) : Z :=
  toSigned16 (ToInt16 (pcmValue (sampleAt buffer channel i)) mod 2 ^ 16).

Definition samplesInRange (buffer : AudioBuffer) : Prop :=
  Forall (Forall (fun x => (-1 <= x <= 1)%Q)) (channelData buffer).

(** Two channels of three samples at 16 kHz. *)
Definition exampleBuffer : AudioBuffer :=
  {| buffer_length := 3;
     sampleRate := 16000;
     channelData := [[(1 # 2)%Q; (-1)%Q; 0%Q]; [(1 # 4)%Q; 1%Q; (-3 # 8)%Q]] |}.

(** Two bulk captures started one after the other on a new processor. *)
Definition firstCapture : Outcome nat * Recorder :=
  startCallRecording (inr tt) (inr tt) newRecorder.

Definition secondCapture : Outcome nat * Recorder :=
  startCallRecording (inr tt) (inr tt) (snd firstCapture).

End AudioProcessor.

(* ================================================================== *)
(** * communicationService.ts: CommunicationService *)
(* ================================================================== *)

Module Channel.

Import JS (Outcome, Returned, Thrown).

Inductive ReadyState := CONNECTING | OPEN | CLOSING | CLOSED.

Inductive MessageType := audio_chunk | risk_score | session_start | session_end.

(** The [data] of an outbound message; its shape is fixed by the tag. *)
Inductive Payload :=
| AudioChunkData (chunkId : string)
| RiskScoreData (score : Z)
| SessionStartData (startTime : Z)
| SessionEndData (endTime duration : Z).

Record BackendMessage := {
  type : MessageType;
  messageSessionId : option string;
  data : Payload;
  timestamp : Z
}.

(** An inbound message, by its [type] tag. *)
Record FrontendMessage := {
  incomingType : string;
  incomingData : string
}.

Inductive ConsoleEntry :=
| console_log (text : string)
| console_log_reconnect (attempt max : Z)
| console_log_unknown (messageType : string)
| console_warn (text : string) (messageType : MessageType)
| console_error (text : string).

(** A [WebSocket] object: its state and what was handed to [send]. *)
Record WebSocket := {
  readyState : ReadyState;
  sent : list BackendMessage
}.

(** A callback registered with [setTimeout]; every one in this class is
    [() => this.connect()].  Nothing in the class keeps the handle that
    [setTimeout] returns, and nothing calls [clearTimeout]. *)
Record Timer := {
  delay : Z;
  pending : bool
}.

(** The fields of the class.  [websocket] refers to one of the sockets
    of the runtime by its creation index. *)
Record CommunicationService := {
  websocket : option nat;
  sessionId : option string;
  isConnected : bool;
  reconnectAttempts : Z
}.

(** [private maxReconnectAttempts = 5] and [private reconnectDelay = 1000]
    are never assigned again. *)
Definition maxReconnectAttempts : Z := 5.
Definition reconnectDelay : Z := 1000.

(** The service together with what it acts on: the sockets it created,
    the timers it armed, the console, and the messages it forwarded to
    the extension runtime.  [connecting] counts the calls of [connect]
    that are suspended at their [await getConfig()]: such a call has
    not created its socket yet, and anything may happen to the service
    before it goes on. *)
Record Runtime := {
  this : CommunicationService;
  sockets : list WebSocket;
  timers : list Timer;
  console : list ConsoleEntry;
  forwarded : list FrontendMessage;
  connecting : nat
}.

Definition withThis (r : Runtime) (s : CommunicationService) : Runtime :=
  {| this := s; sockets := sockets r; timers := timers r;
     console := console r; forwarded := forwarded r; connecting := connecting r |}.

Definition withSockets (r : Runtime) (ws : list WebSocket) : Runtime :=
  {| this := this r; sockets := ws; timers := timers r;
     console := console r; forwarded := forwarded r; connecting := connecting r |}.

Definition withTimers (r : Runtime) (ts : list Timer) : Runtime :=
  {| this := this r; sockets := sockets r; timers := ts;
     console := console r; forwarded := forwarded r; connecting := connecting r |}.

Definition logged (r : Runtime) (entry : ConsoleEntry) : Runtime :=
  {| this := this r; sockets := sockets r; timers := timers r;
     console := console r ++ [entry]; forwarded := forwarded r;
     connecting := connecting r |}.

Definition forward (r : Runtime) (message : FrontendMessage) : Runtime :=
  {| this := this r; sockets := sockets r; timers := timers r;
     console := console r; forwarded := forwarded r ++ [message];
     connecting := connecting r |}.

Definition withConnecting (r : Runtime) (calls : nat) : Runtime :=
  {| this := this r; sockets := sockets r; timers := timers r;
     console := console r; forwarded := forwarded r; connecting := calls |}.

Fixpoint update {A : Type} (l : list A) (i : nat) (f : A -> A) : list A :=
  match l, i with
  | [], _ => []
  | x :: rest, O => f x :: rest
  | x :: rest, S i' => x :: update rest i' f
  end.

(** [ext_${Date.now()}_${Math.random().toString(36).substr(2, 9)}]; [now]
    and [random] are the two renderings. *)
Definition generateSessionId (now random : string) : string :=
  ("ext_" ++ now ++ "_" ++ random)%string.

Definition construct (now random : string) : Runtime :=
  {| this := {| websocket := None;
                sessionId := Some (generateSessionId now random);
                isConnected := false;
                reconnectAttempts := 0 |};
     sockets := []; timers := []; console := []; forwarded := []; connecting := 0 |}.

Definition socketState (r : Runtime) (id : nat) : option ReadyState :=
  option_map readyState (nth_error (sockets r) id).

(** [sendMessage]: sends on an open socket, warns otherwise. *)
Definition sendMessage (r : Runtime) (message : BackendMessage) : Runtime :=
  match websocket (this r) with
  | Some id =>
      match socketState r id with
      | Some OPEN =>
          withSockets r
            (update (sockets r) id
               (fun ws => {| readyState := readyState ws; sent := sent ws ++ [message] |}))
      | _ => logged r (console_warn "WebSocket not ready, message not sent:" (type message))
      end
  | None => logged r (console_warn "WebSocket not ready, message not sent:" (type message))
  end.

(** Whether [this.websocket] is a socket whose [readyState] is [OPEN]. *)
Definition channelOpen (r : Runtime) : bool :=
  match websocket (this r) with
  | Some id =>
      match socketState r id with
      | Some OPEN => true
      | _ => false
      end
  | None => false
  end.

(** The guard [!this.isConnected || !this.websocket]. *)
Definition notConnected (r : Runtime) : bool :=
  negb (isConnected (this r))
  || match websocket (this r) with Some _ => false | None => true end.

Definition sendAudioChunk (r : Runtime) (chunkId : string) (now : Z)
  : Outcome unit * Runtime :=
  if notConnected r then (Thrown "Not connected to backend", r)
  else
    let message := {| type := audio_chunk;
                      messageSessionId := sessionId (this r);
                      data := AudioChunkData chunkId;
                      timestamp := now |} in
    (Returned tt, sendMessage r message).

Definition sendRiskScore (r : Runtime) (score : Z) (now : Z)
  : Outcome unit * Runtime :=
  if notConnected r then (Thrown "Not connected to backend", r)
  else
    let message := {| type := risk_score;
                      messageSessionId := sessionId (this r);
                      data := RiskScoreData score;
                      timestamp := now |} in
    (Returned tt, sendMessage r message).

(** [sendSessionEnd]; [sessionStart] is [parseInt(this.sessionId.split('_')[1])]. *)
Definition sendSessionEnd (r : Runtime) (now sessionStart : Z) : Runtime :=
  if negb (notConnected r)
  then
    sendMessage r
      {| type := session_end;
         messageSessionId := sessionId (this r);
         data := SessionEndData now (now - sessionStart);
         timestamp := now |}
  else r.

(** [connect], up to its [await getConfig()]: the call has changed
    nothing when it is suspended there. *)
Definition connect (r : Runtime) : Runtime :=
  withConnecting r (S (connecting r)).

(** [connect], from the answer of [getConfig] on ([getConfig] itself
    never rejects); this is what settles the promise of the call.
    [newWebSocket] is the outcome of [new WebSocket(wsUrl)]: [inl] the
    error it throws, [inr] a socket.  The error is logged and thrown
    again. *)
Definition connectResumes (r : Runtime) (newWebSocket : string + unit)
  : Outcome unit * Runtime :=
  let r := withConnecting r (pred (connecting r)) in
  match newWebSocket with
  | inr _ =>
      let id := List.length (sockets r) in
      (Returned tt,
       withThis
         (withSockets r (sockets r ++ [{| readyState := CONNECTING; sent := [] |}]))
         {| websocket := Some id;
            sessionId := sessionId (this r);
            isConnected := isConnected (this r);
            reconnectAttempts := reconnectAttempts (this r) |})
  | inl error =>
      (Thrown error, logged r (console_error "Failed to connect to backend:"))
  end.

Definition attemptReconnect (r : Runtime) : Runtime :=
  if reconnectAttempts (this r) <? maxReconnectAttempts
  then
    let attempts := reconnectAttempts (this r) + 1 in
    let r := withThis r {| websocket := websocket (this r);
                           sessionId := sessionId (this r);
                           isConnected := isConnected (this r);
                           reconnectAttempts := attempts |} in
    let r := logged r (console_log_reconnect attempts maxReconnectAttempts) in
    withTimers r (timers r ++ [{| delay := reconnectDelay * attempts; pending := true |}])
  else logged r (console_error "Max reconnection attempts reached").

(** The four handlers that [connect] installs on the socket. *)
Definition onopen (r : Runtime) (now : Z) : Runtime :=
  let r := logged r (console_log "WebSocket connected to backend") in
  let r := withThis r {| websocket := websocket (this r);
                         sessionId := sessionId (this r);
                         isConnected := true;
                         reconnectAttempts := 0 |} in
  sendMessage r {| type := session_start;
                   messageSessionId := sessionId (this r);
                   data := SessionStartData now;
                   timestamp := now |}.

Definition handleIncomingMessage (r : Runtime) (message : FrontendMessage) : Runtime :=
  if String.eqb (incomingType message) "risk_alert" then forward r message
  else if String.eqb (incomingType message) "session_update" then forward r message
  else if String.eqb (incomingType message) "full_report_ready" then forward r message
  else logged r (console_log_unknown (incomingType message)).

(** [parsed] is [None] when [JSON.parse] throws. *)
Definition onmessage (r : Runtime) (parsed : option FrontendMessage) : Runtime :=
  match parsed with
  | Some message => handleIncomingMessage r message
  | None => logged r (console_error "Failed to parse incoming message:")
  end.

Definition onclose (r : Runtime) : Runtime :=
  let r := logged r (console_log "WebSocket disconnected") in
  let r := withThis r {| websocket := websocket (this r);
                         sessionId := sessionId (this r);
                         isConnected := false;
                         reconnectAttempts := reconnectAttempts (this r) |} in
  attemptReconnect r.

Definition onerror (r : Runtime) : Runtime :=
  let r := logged r (console_error "WebSocket error:") in
  withThis r {| websocket := websocket (this r);
                sessionId := sessionId (this r);
                isConnected := false;
                reconnectAttempts := reconnectAttempts (this r) |}.

(** [WebSocket.close()]: a connecting or open socket starts closing. *)
Definition closeSocket (ws : WebSocket) : WebSocket :=
  match readyState ws with
  | CONNECTING | OPEN => {| readyState := CLOSING; sent := sent ws |}
  | _ => ws
  end.

Definition disconnect (r : Runtime) : Runtime :=
  let r :=
    match websocket (this r) with
    | Some id =>
        withThis (withSockets r (update (sockets r) id closeSocket))
          {| websocket := None;
             sessionId := sessionId (this r);
             isConnected := isConnected (this r);
             reconnectAttempts := reconnectAttempts (this r) |}
    | None => r
    end in
  withThis r {| websocket := websocket (this r);
                sessionId := sessionId (this r);
                isConnected := false;
                reconnectAttempts := reconnectAttempts (this r) |}.

Definition getSessionId (r : Runtime) : option string := sessionId (this r).

Definition isBackendConnected (r : Runtime) : bool := isConnected (this r).

(** ** The event loop *)

(** What can happen to a service: a call by its owner, a suspended
    [connect] going on, an event of one of its sockets (the browser
    sets the socket's state, then runs the handler), or one of its
    timers firing. *)
Inductive Event :=
| CallConnect
| ConnectResumes (newWebSocket : string + unit)
| CallDisconnect
| CallSendAudioChunk (chunkId : string) (now : Z)
| CallSendRiskScore (score : Z) (now : Z)
| CallSendSessionEnd (now sessionStart : Z)
| SocketOpens (id : nat) (now : Z)
| SocketCloses (id : nat)
| SocketErrors (id : nat)
| SocketMessage (id : nat) (parsed : option FrontendMessage)
| TimerFires (k : nat).

Definition setReadyState (r : Runtime) (id : nat) (st : ReadyState) : Runtime :=
  withSockets r
    (update (sockets r) id (fun ws => {| readyState := st; sent := sent ws |})).

Definition timerPending (r : Runtime) (k : nat) : bool :=
  match nth_error (timers r) k with
  | Some t => pending t
  | None => false
  end.

(** A pending timer fires once: its callback calls [connect]. *)
Definition timerFires (r : Runtime) (k : nat) : Runtime :=
  if timerPending r k
  then
    let r := withTimers r
               (update (timers r) k (fun t => {| delay := delay t; pending := false |})) in
    connect r
  else r.

(** A suspended call of [connect] goes on, if there is one. *)
Definition resume (r : Runtime) (newWebSocket : string + unit) : Runtime :=
  match connecting r with
  | O => r
  | S _ => snd (connectResumes r newWebSocket)
  end.

Definition step (r : Runtime) (e : Event) : Runtime :=
  match e with
  | CallConnect => connect r
  | ConnectResumes newWebSocket => resume r newWebSocket
  | CallDisconnect => disconnect r
  | CallSendAudioChunk chunkId now => snd (sendAudioChunk r chunkId now)
  | CallSendRiskScore score now => snd (sendRiskScore r score now)
  | CallSendSessionEnd now sessionStart => sendSessionEnd r now sessionStart
  | SocketOpens id now => onopen (setReadyState r id OPEN) now
  | SocketCloses id => onclose (setReadyState r id CLOSED)
  | SocketErrors id => onerror r
  | SocketMessage id parsed => onmessage r parsed
  | TimerFires k => timerFires r k
  end.

Definition run (r : Runtime) (trace : list Event) : Runtime :=
  fold_left step trace r.

Definition isOpening (e : Event) : bool :=
  match e with SocketOpens _ _ => true | _ => false end.

Definition isClosing (e : Event) : bool :=
  match e with SocketCloses _ => true | _ => false end.

(** The closes of a trace, and whether it is free of successful opens. *)
Definition closes (trace : list Event) : nat :=
  List.length (filter isClosing trace).

Definition noReopen (trace : list Event) : bool :=
  forallb (fun e => negb (isOpening e)) trace.

(** The delays of the reconnects armed since [before]. *)
Definition armedSince (before after : Runtime) : list Z :=
  map delay (skipn (List.length (timers before)) (timers after)).

(** ** Auxiliary notions for the statements *)

Definition attemptsAndDelays (r : Runtime) : Z * list Z :=
  (reconnectAttempts (this r), map delay (timers r)).

(** The delays of [count] reconnects after [attempts] earlier ones. *)
Definition backoff (attempts count : nat) : list Z :=
  map (fun n => reconnectDelay * Z.of_nat n) (seq (S attempts) count).

Definition notReady (message : BackendMessage) : ConsoleEntry :=
  console_warn "WebSocket not ready, message not sent:" (type message).

(** A service that was constructed and never connected. *)
Definition freshService : Runtime := construct "1700000000000" "k3x9q2m1z".

(** A service whose socket is open. *)
Definition connectedRuntime : Runtime :=
  run freshService [CallConnect; ConnectResumes (inr tt); SocketOpens 0 1700000000100].

(** Six closes in a row: the open socket closes, and so does every
    socket that a reconnect creates. *)
Definition sixCloses : list Event :=
  [SocketCloses 0; TimerFires 0; ConnectResumes (inr tt);
   SocketCloses 1; TimerFires 1; ConnectResumes (inr tt);
   SocketCloses 2; TimerFires 2; ConnectResumes (inr tt);
   SocketCloses 3; TimerFires 3; ConnectResumes (inr tt);
   SocketCloses 4; TimerFires 4; ConnectResumes (inr tt);
   SocketCloses 5].

(** A service whose owner called [connect] again while the first socket
    was open: [isConnected] is still true, [this.websocket] is the new
    socket, which is still connecting. *)
Definition reconnecting : Runtime :=
  run connectedRuntime [CallConnect; ConnectResumes (inr tt)].

(** The open socket closed unexpectedly: a reconnect is armed. *)
Definition droppedConnection : Runtime :=
  run connectedRuntime [SocketCloses 0].

(** ... and the owner disconnected before the timer fired. *)
Definition droppedThenDisconnected : Runtime :=
  run droppedConnection [CallDisconnect].

(** ... the timer fires all the same, and its [connect] goes on. *)
Definition reconnectedAfterDisconnect : Runtime :=
  run droppedThenDisconnected [TimerFires 0; ConnectResumes (inr tt)].

(** The owner disconnects, then timer [k] fires and the [connect] it
    calls goes on. *)
Definition firedAfterDisconnect (r : Runtime) (k : nat) : Runtime :=
  run (disconnect r) [TimerFires k; ConnectResumes (inr tt)].

(** After the unexpected close the owner connected again and the new
    socket opened before the reconnect timer fired: the current socket
    is open and the timer is still pending. *)
Definition reopenedBeforeTimer : Runtime :=
  run droppedConnection [CallConnect; ConnectResumes (inr tt); SocketOpens 1 1700000000300].

End Channel.

(* ================================================================== *)
(** * audioProcessor.js: the real-time loop, the persuasion detector
      and platform detection *)
(* ================================================================== *)

Module Detector.

Import JS AudioProcessor.

(** ** RealTimePersuasionDetector.analyzeStream *)

Definition flagged (cues : PersuasionCues) (increment : number)
  (urgency' authority' socialProof' : bool) : PersuasionCues :=
  {| detected := true;
     urgency := urgency';
     authority := authority';
     socialProof := socialProof';
     reciprocity := reciprocity cues;
     commitment := commitment cues;
     liking := liking cues;
     confidence := add (confidence cues) increment;
     cueTimestamp := cueTimestamp cues |}.

(** [now] is the [Date.now()] of the [timestamp] property. *)
Definition analyzeStream (features : Features) (now : Z) : PersuasionCues :=
  let cues :=
    {| detected := false; urgency := false; authority := false;
       socialProof := false; reciprocity := false; commitment := false;
       liking := false; confidence := zero; cueTimestamp := now |} in
  let cues :=
    if gt (spectralFlux features) (lit 40%float) && gt (rms features) (lit 0.7%float)
    then flagged cues (lit 0.3%float) true (authority cues) (socialProof cues)
    else cues in
  let cues :=
    if lt (spectralCentroid features) (lit 0.3%float)
       && lt (spectralFlux features) (lit 20%float)
    then flagged cues (lit 0.4%float) (urgency cues) true (socialProof cues)
    else cues in
  let cues :=
    if gt (zeroCrossingRate features) (lit 0.25%float)
       && gt (spectralRolloff features) (lit 0.7%float)
    then flagged cues (lit 0.2%float) (urgency cues) (authority cues) true
    else cues in
  cues.

(** ** The analysis loop *)

(** What the loop hands to its two callbacks. *)
Inductive Callback :=
| onPersuasionDetected (cues : PersuasionCues)
| onRiskUpdate (riskScore : Z).

(** The fields the loop reads and writes, and [loops]: the number of
    [analyzeFrame] callbacks that wait for the next animation frame. *)
Record RealTime := {
  analyser : bool;
  isRecording : bool;
  lastFrequencyData : option Uint8Array;
  loops : nat
}.

(** The constructor. *)
Definition newRealTime : RealTime :=
  {| analyser := false; isRecording := false;
     lastFrequencyData := initialLastFrequencyData; loops := 0 |}.

(** What the analyser delivers to one run of [analyzeFrame], with the
    two readings of the clock. *)
Record Frame := {
  frequencyData : Uint8Array;
  timeData : Uint8Array;
  featuresNow : Z;
  cuesNow : Z
}.

(** [analyzeFrame]: nothing when [isRecording] is false (and no new
    animation frame is requested); otherwise the features, the cues,
    the callbacks, and a request for the next animation frame. *)
Definition analyzeFrame (st : RealTime) (frame : Frame) : list Callback * RealTime :=
  if negb (isRecording st) then ([], st)
  else
    let '(features, last) :=
      extractRealTimeFeatures (lastFrequencyData st)
        (frequencyData frame) (timeData frame) (featuresNow frame) in
    let persuasionCues := analyzeStream features (cuesNow frame) in
    let detectedCallbacks :=
      if detected persuasionCues then [onPersuasionDetected persuasionCues] else [] in
    let riskScore := calculateRealTimeRisk features persuasionCues in
    (detectedCallbacks ++ [onRiskUpdate riskScore],
     {| analyser := analyser st; isRecording := isRecording st;
        lastFrequencyData := last; loops := S (loops st) |}).

(** [analyzeRealTime]: the guard, then the first [analyzeFrame]. *)
Definition analyzeRealTime (st : RealTime) (frame : Frame) : list Callback * RealTime :=
  if negb (analyser st) || negb (isRecording st) then ([], st)
  else analyzeFrame st frame.

(** [startRealTimeAnalysis]: [getUserMedia] is [inl] the error the
    device request rejects with (logged and thrown again) or [inr] a
    stream; [frame] is what the new analyser delivers first. *)
Definition startRealTimeAnalysis (st : RealTime) (getUserMedia : string + unit)
  (frame : Frame) : Outcome unit * (list Callback * RealTime) :=
  match getUserMedia with
  | inl error => (Thrown error, ([], st))
  | inr _ =>
      let st := {| analyser := true; isRecording := true;
                   lastFrequencyData := lastFrequencyData st; loops := loops st |} in
      (Returned tt, analyzeRealTime st frame)
  end.

(** [stop], as far as the loop is concerned. *)
Definition stopRealTime (st : RealTime) : RealTime :=
  {| analyser := analyser st; isRecording := false;
     lastFrequencyData := lastFrequencyData st; loops := loops st |}.

(** What happens to a processor: its owner starts or stops it, or the
    browser runs one of the waiting [analyzeFrame] callbacks. *)
Inductive Input :=
| Start (getUserMedia : string + unit) (frame : Frame)
| Stop
| AnimationFrame (frame : Frame).

Definition animationFrame (st : RealTime) (frame : Frame) : list Callback * RealTime :=
  match loops st with
  | O => ([], st)
  | S waiting =>
      analyzeFrame {| analyser := analyser st; isRecording := isRecording st;
                      lastFrequencyData := lastFrequencyData st; loops := waiting |}
        frame
  end.

Definition react (st : RealTime) (input : Input) : list Callback * RealTime :=
  match input with
  | Start getUserMedia frame => snd (startRealTimeAnalysis st getUserMedia frame)
  | Stop => ([], stopRealTime st)
  | AnimationFrame frame => animationFrame st frame
  end.

(** All the callbacks of a sequence of inputs, in order, and the final state. *)
Fixpoint reactAll (st : RealTime) (inputs : list Input) : list Callback * RealTime :=
  match inputs with
  | [] => ([], st)
  | input :: rest =>
      let '(callbacks, st') := react st input in
      let '(later, final) := reactAll st' rest in
      (callbacks ++ later, final)
  end.

Definition riskUpdates (callbacks : list Callback) : list Z :=
  flat_map (fun c => match c with onRiskUpdate score => [score] | _ => [] end) callbacks.

Definition isStart (input : Input) : bool :=
  match input with Start (inr _) _ => true | _ => false end.

Definition isStop (input : Input) : bool :=
  match input with Stop => true | _ => false end.

(** The inputs that run [analyzeFrame]: a successful start and an
    animation frame. *)
Definition runsFrame (input : Input) : bool :=
  match input with
  | Start (inr _) _ | AnimationFrame _ => true
  | _ => false
  end.

(** Loud, fast, high-variability speech with a bright spectrum. *)
Definition loudFeatures : Features :=
  {| spectralCentroid := lit 1%float; spectralRolloff := lit 0.8%float;
     spectralFlux := lit 60%float; rms := lit 0.9%float;
     zeroCrossingRate := lit 0.35%float; energy := lit 1000%float; timestamp := 0 |}.

(** A processor with one analysis loop running. *)
Definition runningRealTime : RealTime :=
  {| analyser := true; isRecording := true;
     lastFrequencyData := Some [0; 0]; loops := 1 |}.

Definition someFrame : Frame :=
  {| frequencyData := [10; 200]; timeData := [128; 255; 0];
     featuresNow := 1; cuesNow := 2 |}.

(** Frames as the analyser delivers them: [fftSize] is 2048, so both
    arrays hold [frequencyBinCount] = 1024 bytes.  A loud frame, and a
    silent one (every bin 0, every time-domain byte at the midpoint). *)
Definition frequencyBinCount : nat := 1024.

Definition loudFrame : Frame :=
  {| frequencyData := repeat 255 frequencyBinCount;
     timeData := repeat 200 frequencyBinCount;
     featuresNow := 1700000000000; cuesNow := 1700000000000 |}.

Definition silentFrame : Frame :=
  {| frequencyData := repeat 0 frequencyBinCount;
     timeData := repeat 128 frequencyBinCount;
     featuresNow := 1700000060000; cuesNow := 1700000060000 |}.

(** One processor after a first session: started, one loud frame, stopped. *)
Definition afterFirstSession : RealTime :=
  snd (reactAll newRealTime [Start (inr tt) loudFrame; Stop]).

(** The features that the first [analyzeFrame] of a session started in
    state [st] extracts from [frame]. *)
Definition firstFrameFeatures (st : RealTime) (frame : Frame) : Features :=
  fst (extractRealTimeFeatures (lastFrequencyData st)
         (frequencyData frame) (timeData frame) (featuresNow frame)).

(** ** Platform detection *)

(** [String.prototype.includes]. *)
Definition includes (s sub : string) : bool :=
  match String.index 0 sub s with
  | Some _ => true
  | None => false
  end.

Definition detectCallPlatforms (url userAgent : string) : list string :=
  let platforms := [] in
  let platforms :=
    if includes url "zoom.us" || includes userAgent "Zoom"
    then platforms ++ ["Zoom"%string] else platforms in
  let platforms :=
    if includes url "teams.microsoft.com" || includes userAgent "Teams"
    then platforms ++ ["Teams"%string] else platforms in
  let platforms :=
    if includes url "meet.google.com" || includes userAgent "Meet"
    then platforms ++ ["Google Meet"%string] else platforms in
  let platforms :=
    if includes url "webex.com" || includes userAgent "Webex"
    then platforms ++ ["Webex"%string] else platforms in
  let platforms :=
    if includes url "discord.com" || includes userAgent "Discord"
    then platforms ++ ["Discord"%string] else platforms in
  let platforms :=
    if includes url "skype.com" || includes userAgent "Skype"
    then platforms ++ ["Skype"%string] else platforms in
  platforms.

Record CallContext := {
  platform : string;
  contextConfidence : number;
  participants : number;
  contextTimestamp : Z
}.

(** How a call of [detectActiveCall] ends: it returns a context or
    [null]; [Pending] when the sampling promise is never resolved.  It
    never throws: every error is caught, logged, and turned into [null]. *)
Inductive Detection :=
| Detected (context : CallContext)
| Null
| Pending.

(** [getUserMedia] is requested only when a platform was found;
    [frames] are the analyser readings of the sampling interval. *)
Definition detectActiveCall (url userAgent : string) (getUserMedia : string + unit)
  (frames : list Uint8Array) (now : Z) : Detection :=
  match detectCallPlatforms url userAgent with
  | [] => Null
  | first :: _ =>
      match getUserMedia with
      | inl _ => Null
      | inr _ =>
          match analyzeCallCharacteristics frames with
          | None => Pending
          | Some callCharacteristics =>
              if isCall callCharacteristics
              then Detected {| platform := first;
                               contextConfidence := callConfidence callCharacteristics;
                               participants := participantCount callCharacteristics;
                               contextTimestamp := now |}
              else Null
          end
      end
  end.

(** The platforms in the order the function tests them. *)
Definition knownPlatforms : list string :=
  ["Zoom"; "Teams"; "Google Meet"; "Webex"; "Discord"; "Skype"]%string.

(** [l] picks some of the elements of [all], in order. *)
Fixpoint subsequence (l all : list string) : bool :=
  match l, all with
  | [], _ => true
  | _ :: _, [] => false
  | x :: l', y :: all' =>
      if String.eqb x y then subsequence l' all' else subsequence l all'
  end.

(** The check behind the confidence range: with [jumps] jumps among 30
    readings, the variance ratio passes the 0.3 test exactly from 10
    jumps on, and the confidence formula then stays strictly between
    0.63 and the 0.9 cap. *)
Definition confidenceInRange (jumps : Z) : bool :=
  let varianceRatio := div (of_Z jumps) (of_Z 30) in
  let confidence :=
    Math_min (lit 0.9%float) (add (lit 0.5%float) (mul varianceRatio (lit 0.4%float))) in
  Bool.eqb (gt varianceRatio (lit 0.3%float)) (10 <=? jumps)
  && implb (gt varianceRatio (lit 0.3%float))
       (lt (lit 0.63%float) confidence && lt confidence (lit 0.9%float)).

End Detector.

(* ================================================================== *)
(** * audioProcessor.js: the life of the bulk captures *)
(* ================================================================== *)

Module Capture.

Import JS AudioProcessor.

(** What happens to the recorders of a processor: its owner calls
    [startCallRecording] or [stop], or a 60-second timer fires. *)
Inductive CaptureEvent :=
| CallStartCallRecording (getUserMedia newMediaRecorder : string + unit)
| StopTimerFires
| CallStop.

(** A timer fires only while one is pending. *)
Definition captureStep (p : Recorder) (e : CaptureEvent) : Recorder :=
  match e with
  | CallStartCallRecording getUserMedia newMediaRecorder =>
      snd (startCallRecording getUserMedia newMediaRecorder p)
  | StopTimerFires =>
      match stopTimers p with
      | O => p
      | S _ => stopTimerFires p
      end
  | CallStop => stop p
  end.

Definition captureRun (p : Recorder) (events : list CaptureEvent) : Recorder :=
  fold_left captureStep events p.

Definition startsRecorder (e : CaptureEvent) : bool :=
  match e with
  | CallStartCallRecording (inr _) (inr _) => true
  | _ => false
  end.

(** The recorders a sequence of events creates. *)
Definition started (events : list CaptureEvent) : nat :=
  List.length (filter startsRecorder events).

(** Two captures started one after the other. *)
Definition startedTwice (p : Recorder) : Recorder :=
  captureRun p [CallStartCallRecording (inr tt) (inr tt);
                CallStartCallRecording (inr tt) (inr tt)].

End Capture.

(* ================================================================== *)
(** * communicationService.ts: what reaches the sockets *)
(* ================================================================== *)

Module Session.

Import JS (Outcome, Returned, Thrown).
Import Channel.

(** What was handed to [send], socket by socket. *)
Definition sentLog (r : Runtime) : list (list BackendMessage) :=
  map sent (sockets r).

(** The events that call [connect], and the one by which a suspended
    call goes on and creates its socket. *)
Definition callsConnect (e : Event) : bool :=
  match e with
  | CallConnect | TimerFires _ => true
  | _ => false
  end.

Definition isResume (e : Event) : bool :=
  match e with
  | ConnectResumes _ => true
  | _ => false
  end.

Definition withoutConnect (trace : list Event) : bool :=
  forallb (fun e => negb (callsConnect e)) trace.

Definition withoutResume (trace : list Event) : bool :=
  forallb (fun e => negb (isResume e)) trace.

(** No call of [connect] goes on during [trace]: none is let go on, or
    none is suspended at the start and none is made. *)
Definition noConnectGoesOn (r : Runtime) (trace : list Event) : Prop :=
  withoutResume trace = true
  \/ (connecting r = 0%nat /\ withoutConnect trace = true).

(** The owner disconnects while a call of [connect] is suspended, and
    the call then goes on. *)
Definition resumedAfterDisconnect (r : Runtime) : Runtime :=
  step (disconnect r) (ConnectResumes (inr tt)).

(** A call of [connect] is suspended when the owner disconnects; it
    goes on afterwards and its socket opens. *)
Definition connectInFlight : Runtime := connect connectedRuntime.

Definition openedAfterDisconnect : Runtime :=
  run connectInFlight
    [CallDisconnect; ConnectResumes (inr tt); SocketOpens 1 1700000000400].

(** The reconnect that the next close arms. *)
Definition nextReconnect (r : Runtime) : Timer :=
  {| delay := reconnectDelay * (reconnectAttempts (this r) + 1); pending := true |}.

(** The owner disconnects, the socket reports its close, the timer
    that the close handler armed fires and the [connect] it calls goes
    on. *)
Definition disconnectThenClose (r : Runtime) (id : nat) : Runtime :=
  run r [CallDisconnect; SocketCloses id].

Definition reconnectAfterDisconnect (r : Runtime) (id : nat) : Runtime :=
  run (disconnectThenClose r id)
    [TimerFires (List.length (timers r)); ConnectResumes (inr tt)].

(** What one step does to a socket that exists: nothing to what it
    sent, or one more message; the message then carries the session id
    of the service and went to the socket that [this.websocket] refers
    to, which is open. *)
Definition sameOrOneMore (r r' : Runtime) (id : nat) (ws ws' : WebSocket) : Prop :=
  sent ws' = sent ws
  \/ exists m, sent ws' = sent ws ++ [m]
               /\ messageSessionId m = sessionId (this r)
               /\ readyState ws' = OPEN
               /\ websocket (this r') = Some id.

End Session.

(* ================================================================== *)
(** * audioProcessor.ts: SimpleAudioProcessor *)
(* ================================================================== *)

Module Simple.

Import JS.

(** The fields the class reads: [this.mediaRecorder] as a reference to
    one of the recorders created so far, [this.intensityInterval] as the
    handle of one of the intervals created so far ([true]: still
    running).  [microphoneRequests] counts the [getUserMedia] promises of
    [startVoiceIntensityMonitoring] that are not settled yet. *)
Record Processor := {
  mediaRecorder : option nat;
  recorders : list AudioProcessor.RecordingState;
  analyser : bool;
  isRecording : bool;
  voiceIntensityCallback : bool;
  intensityInterval : option nat;
  intervals : list bool;
  microphoneRequests : nat;
  console : list string
}.

Definition newProcessor : Processor :=
  {| mediaRecorder := None; recorders := []; analyser := false; isRecording := false;
     voiceIntensityCallback := false; intensityInterval := None; intervals := [];
     microphoneRequests := 0; console := [] |}.

(** [startRecording]: an error of [getUserMedia] or of the
    [MediaRecorder] constructor is logged and thrown again. *)
Definition startRecording (getUserMedia newMediaRecorder : string + unit)
  (p : Processor) : Outcome nat * Processor :=
  let failed (error : string) :=
    (Thrown error,
     {| mediaRecorder := mediaRecorder p; recorders := recorders p;
        analyser := analyser p; isRecording := isRecording p;
        voiceIntensityCallback := voiceIntensityCallback p;
        intensityInterval := intensityInterval p; intervals := intervals p;
        microphoneRequests := microphoneRequests p;
        console := console p ++ ["Failed to start recording:"%string] |}) in
  match getUserMedia, newMediaRecorder with
  | inl error, _ => failed error
  | inr _, inl error => failed error
  | inr _, inr _ =>
      let created := List.length (recorders p) in
      (Returned created,
       {| mediaRecorder := Some created;
          recorders := recorders p ++ [AudioProcessor.recording];
          analyser := analyser p; isRecording := true;
          voiceIntensityCallback := voiceIntensityCallback p;
          intensityInterval := intensityInterval p; intervals := intervals p;
          microphoneRequests := microphoneRequests p;
          console := console p |})
  end.

(** [MediaRecorder.stop()]: an inactive recorder throws an
    [InvalidStateError]. *)
Definition stopRecorder (rs : list AudioProcessor.RecordingState) (r : nat)
  : option (list AudioProcessor.RecordingState) :=
  match nth_error rs r with
  | Some AudioProcessor.recording | Some AudioProcessor.paused =>
      Some (AudioProcessor.setState rs r AudioProcessor.inactive)
  | _ => None
  end.

Fixpoint clearInterval (running : list bool) (handle : nat) : list bool :=
  match running, handle with
  | [], _ => []
  | _ :: rest, O => false :: rest
  | x :: rest, S handle' => x :: clearInterval rest handle'
  end.

(** [stopRecording]: the recorder is stopped only under [isRecording];
    the interval behind the stored handle is cleared.  When [stop()]
    throws, nothing after it runs. *)
Definition stopRecording (p : Processor) : Outcome unit * Processor :=
  let stopped :=
    match mediaRecorder p with
    | Some r =>
        if isRecording p
        then option_map (fun rs => (rs, false)) (stopRecorder (recorders p) r)
        else Some (recorders p, isRecording p)
    | None => Some (recorders p, isRecording p)
    end in
  match stopped with
  | None => (Thrown "InvalidStateError", p)
  | Some (recorders', isRecording') =>
      let '(intervals', intensityInterval') :=
        match intensityInterval p with
        | Some handle => (clearInterval (intervals p) handle, None)
        | None => (intervals p, None)
        end in
      (Returned tt,
       {| mediaRecorder := mediaRecorder p; recorders := recorders';
          analyser := analyser p; isRecording := isRecording';
          voiceIntensityCallback := voiceIntensityCallback p;
          intensityInterval := intensityInterval'; intervals := intervals';
          microphoneRequests := microphoneRequests p;
          console := console p |})
  end.

(** [startVoiceIntensityMonitoring]: stores the callback and asks for
    the microphone; the rest happens when the promise is fulfilled. *)
Definition startVoiceIntensityMonitoring (p : Processor) : Processor :=
  {| mediaRecorder := mediaRecorder p; recorders := recorders p;
     analyser := analyser p; isRecording := isRecording p;
     voiceIntensityCallback := true;
     intensityInterval := intensityInterval p; intervals := intervals p;
     microphoneRequests := S (microphoneRequests p);
     console := console p |}.

(** The [then] callback: a new analyser, a new interval, its handle stored. *)
Definition microphoneGranted (p : Processor) : Processor :=
  match microphoneRequests p with
  | O => p
  | S waiting =>
      {| mediaRecorder := mediaRecorder p; recorders := recorders p;
         analyser := true; isRecording := isRecording p;
         voiceIntensityCallback := voiceIntensityCallback p;
         intensityInterval := Some (List.length (intervals p));
         intervals := intervals p ++ [true];
         microphoneRequests := waiting;
         console := console p |}
  end.

(** The promise is rejected: no handler is installed for that. *)
Definition microphoneDenied (p : Processor) : Processor :=
  {| mediaRecorder := mediaRecorder p; recorders := recorders p;
     analyser := analyser p; isRecording := isRecording p;
     voiceIntensityCallback := voiceIntensityCallback p;
     intensityInterval := intensityInterval p; intervals := intervals p;
     microphoneRequests := pred (microphoneRequests p);
     console := console p |}.

(** [getVoiceIntensity]; [dataArray] is what the analyser delivers. *)
Definition getVoiceIntensity (p : Processor) (dataArray : AudioProcessor.Uint8Array)
  : number :=
  if negb (analyser p) then zero
  else
    let bufferLength := Z.of_nat (List.length dataArray) in
    let sum := fold_left (fun sum x => sum + x * x) dataArray 0 in
    let rms := Math_sqrt (div (of_Z sum) (of_Z bufferLength)) in
    Math_min (lit 100%float) (Math_max zero (mul (div rms (lit 255%float)) (lit 100%float))).

(** One run of the callback of interval [handle]: what the voice
    intensity callback is called with, if it is called. *)
Definition intervalTick (p : Processor) (handle : nat)
  (dataArray : AudioProcessor.Uint8Array) : option number :=
  match nth_error (intervals p) handle with
  | Some true =>
      if analyser p && voiceIntensityCallback p
      then Some (getVoiceIntensity p dataArray)
      else None
  | _ => None
  end.

Inductive SimpleEvent :=
| CallStartRecording (getUserMedia newMediaRecorder : string + unit)
| CallStopRecording
| CallStartVoiceIntensityMonitoring
| MicrophoneGranted
| MicrophoneDenied.

Definition simpleStep (p : Processor) (e : SimpleEvent) : Processor :=
  match e with
  | CallStartRecording getUserMedia newMediaRecorder =>
      snd (startRecording getUserMedia newMediaRecorder p)
  | CallStopRecording => snd (stopRecording p)
  | CallStartVoiceIntensityMonitoring => startVoiceIntensityMonitoring p
  | MicrophoneGranted => microphoneGranted p
  | MicrophoneDenied => microphoneDenied p
  end.

Definition simpleRun (p : Processor) (events : list SimpleEvent) : Processor :=
  fold_left simpleStep events p.

Definition runningIntervals (p : Processor) : nat :=
  List.length (filter (fun running => running) (intervals p)).

Definition stopCalls (events : list SimpleEvent) : nat :=
  List.length
    (filter (fun e => match e with CallStopRecording => true | _ => false end) events).

(** Whether a number is a percentage: between 0 and 100. *)
Definition isPercentage (x : number) : bool :=
  SFleb zero x && SFleb x (lit 100%float).

(** [isRecording] is only ever true while [this.mediaRecorder] records. *)
Definition recordingFlagSound (p : Processor) : Prop :=
  isRecording p = true ->
  exists r, mediaRecorder p = Some r
            /\ nth_error (recorders p) r = Some AudioProcessor.recording.

End Simple.

(* ================================================================== *)
(** * config.ts *)
(* ================================================================== *)

Module Config.

Import JS.

Record ScamKeyword := {
  phrase : string;
  language : string;
  weight : number;
  category : string
}.

(** [riskThresholds]: an object read from the storage may lack a
    property, which then reads as [undefined] ([None]). *)
Record RiskThresholds := {
  low : option Z;
  medium : option Z;
  high : option Z
}.

Record ExtensionConfig := {
  enabled : bool;
  chunkDuration : Z;
  riskThresholds : RiskThresholds;
  keywords : list ScamKeyword;
  backendUrl : string;
  websocketUrl : string
}.

(** An object with some of the properties of a configuration: what the
    storage holds under the key [config], and what an [update_config]
    message carries. *)
Module Partial.
Record Config := {
  enabled : option bool;
  chunkDuration : option Z;
  riskThresholds : option RiskThresholds;
  keywords : option (list ScamKeyword);
  backendUrl : option string;
  websocketUrl : option string
}.
End Partial.

Definition keyword (phrase language : string) (weight : number) (category : string)
  : ScamKeyword :=
  {| phrase := phrase; language := language; weight := weight; category := category |}.

Definition DEFAULT_CONFIG : ExtensionConfig :=
  {| enabled := false;
     chunkDuration := 3;
     riskThresholds := {| low := Some 30; medium := Some 60; high := Some 80 |};
     keywords :=
       [ keyword "your account has been compromised" "en" (lit 0.9%float) "account_security";
         keyword "social security number" "en" (lit 0.8%float) "identity_theft";
         keyword "tax debt" "en" (lit 0.7%float) "tax_scam";
         keyword "gift cards" "en" (lit 0.8%float) "payment_scam";
         keyword "bitcoin payment" "en" (lit 0.9%float) "crypto_scam";
         keyword "urgent action required" "en" (lit 0.6%float) "urgency";
         keyword "government agency" "en" (lit 0.7%float) "authority";
         keyword "bank account frozen" "en" (lit 0.9%float) "financial";
         keyword "inheritance" "en" (lit 0.6%float) "inheritance_scam";
         keyword "lottery winner" "en" (lit 0.8%float) "lottery_scam";
         keyword "su cuenta ha sido comprometida" "es" (lit 0.9%float) "account_security";
         keyword "número de seguro social" "es" (lit 0.8%float) "identity_theft";
         keyword "deuda fiscal" "es" (lit 0.7%float) "tax_scam";
         keyword "tarjetas de regalo" "es" (lit 0.8%float) "payment_scam";
         keyword "pago bitcoin" "es" (lit 0.9%float) "crypto_scam";
         keyword "votre compte a été compromis" "fr" (lit 0.9%float) "account_security";
         keyword "numéro de sécurité sociale" "fr" (lit 0.8%float) "identity_theft";
         keyword "dette fiscale" "fr" (lit 0.7%float) "tax_scam";
         keyword "ihr konto wurde kompromittiert" "de" (lit 0.9%float) "account_security";
         keyword "sozialversicherungsnummer" "de" (lit 0.8%float) "identity_theft";
         keyword "steuerschulden" "de" (lit 0.7%float) "tax_scam";
         keyword "您的账户已被盗用" "zh" (lit 0.9%float) "account_security";
         keyword "社会安全号码" "zh" (lit 0.8%float) "identity_theft";
         keyword "税务债务" "zh" (lit 0.7%float) "tax_scam" ];
     backendUrl := "http://localhost:5000";
     websocketUrl := "ws://localhost:5000/ws" |}.

Definition orElse {A : Type} (over : option A) (base : A) : A :=
  match over with
  | Some v => v
  | None => base
  end.

(** The object spread [{ ...base, ...over }]: property by property, the
    one of [over] when it has it.  It is shallow: a [riskThresholds]
    object of [over] replaces the one of [base] as a whole. *)
Definition spread (base : ExtensionConfig) (over : Partial.Config) : ExtensionConfig :=
  {| enabled := orElse (Partial.enabled over) (enabled base);
     chunkDuration := orElse (Partial.chunkDuration over) (chunkDuration base);
     riskThresholds := orElse (Partial.riskThresholds over) (riskThresholds base);
     keywords := orElse (Partial.keywords over) (keywords base);
     backendUrl := orElse (Partial.backendUrl over) (backendUrl base);
     websocketUrl := orElse (Partial.websocketUrl over) (websocketUrl base) |}.

(** A configuration as the object that the storage keeps. *)
Definition stored (config : ExtensionConfig) : Partial.Config :=
  {| Partial.enabled := Some (enabled config);
     Partial.chunkDuration := Some (chunkDuration config);
     Partial.riskThresholds := Some (riskThresholds config);
     Partial.keywords := Some (keywords config);
     Partial.backendUrl := Some (backendUrl config);
     Partial.websocketUrl := Some (websocketUrl config) |}.

(** [chrome.storage.sync], as far as the key [config] goes. *)
Definition Storage : Type := option Partial.Config.

(** [getConfig]; [get] is the outcome of [chrome.storage.sync.get]:
    [inl] when it rejects, which the [catch] turns into the defaults.
    Spreading [undefined] adds nothing. *)
Definition getConfig (get : string + unit) (storage : Storage) : ExtensionConfig :=
  match get with
  | inl _ => DEFAULT_CONFIG
  | inr _ =>
      match storage with
      | Some config => spread DEFAULT_CONFIG config
      | None => DEFAULT_CONFIG
      end
  end.

(** [saveConfig]; [set] is the outcome of [chrome.storage.sync.set]. *)
Definition saveConfig (set : string + unit) (config : ExtensionConfig)
  (storage : Storage) : Outcome unit * Storage :=
  match set with
  | inl error => (Thrown error, storage)
  | inr _ => (Returned tt, Some (stored config))
  end.

Definition getKeywordsForLanguage (language' : string) : list ScamKeyword :=
  filter (fun k => String.eqb (language k) language') (keywords DEFAULT_CONFIG).

End Config.

(* ================================================================== *)
(** * background.ts: CallGuardBackground *)
(* ================================================================== *)

Module Background.

Import JS.
Import Config.

(** [currentSession]. *)
Record SessionInfo := {
  startTime : Z;
  sessionId : option string
}.

(** The fields of the class, the console, and the [status_changed]
    messages handed to [chrome.runtime.sendMessage]. *)
Record CallGuardBackground := {
  audioProcessor : Simple.Processor;
  communicationService : Channel.Runtime;
  isActive : bool;
  currentSession : option SessionInfo;
  console : list string;
  statusChanges : list (bool * option string)
}.

Definition construct (now random : string) : CallGuardBackground :=
  {| audioProcessor := Simple.newProcessor;
     communicationService := Channel.construct now random;
     isActive := false;
     currentSession := None;
     console := [];
     statusChanges := [] |}.


Definition withService (b : CallGuardBackground) (service : Channel.Runtime)
  : CallGuardBackground :=
  {| audioProcessor := audioProcessor b;
     communicationService := service;
     isActive := isActive b; currentSession := currentSession b;
     console := console b; statusChanges := statusChanges b |}.




(** [await this.communicationService.connect()]: the call is suspended
    at its [await getConfig()]; [during] is what happens to the service
    until it goes on (events of earlier sockets, timers, other calls);
    then the socket is created and the promise settled. *)
Definition awaitConnect (service : Channel.Runtime) (during : list Channel.Event)
  (newWebSocket : string + unit) : Outcome unit * Channel.Runtime :=
  Channel.connectResumes (Channel.run (Channel.connect service) during) newWebSocket.



(** The service at the moment a call of [connect] that was made in
    state [b] goes on. *)
Definition serviceAtResume (b : CallGuardBackground) (during : list Channel.Event)
  : Channel.Runtime :=
  Channel.run (Channel.connect (communicationService b)) during.

(** A background whose service has created its socket, which has not
    opened yet. *)
Definition connectingBackground : CallGuardBackground :=
  withService (construct "1700000000000" "k3x9q2m1z")
    (Channel.run Channel.freshService
       [Channel.CallConnect; Channel.ConnectResumes (inr tt)]).

(** The answer of [testBackendConnection]. *)
Inductive ConnectionStatus :=
| Success (connected : bool)
| Failure (error : string).

(** [testBackendConnection]; [during] is what happens to the service
    while [connect] is suspended.  Once the socket is created, nothing
    gets in between the end of [connect] and the reading of
    [isBackendConnected]. *)
Definition testBackendConnection (b : CallGuardBackground) (during : list Channel.Event)
  (newWebSocket : string + unit) : ConnectionStatus * CallGuardBackground :=
  match awaitConnect (communicationService b) during newWebSocket with
  | (Returned _, service) =>
      let isConnected := Channel.isBackendConnected service in
      (Success isConnected, withService b (Channel.disconnect service))
  | (Thrown error, service) => (Failure error, withService b service)
  end.

(** [score >= threshold]: false against [undefined]. *)
Definition atLeast (score : Z) (threshold : option Z) : bool :=
  match threshold with
  | Some t => score >=? t
  | None => false
  end.

Definition getRiskLevel (config : ExtensionConfig) (score : Z) : string :=
  if atLeast score (high (riskThresholds config)) then "high"
  else if atLeast score (medium (riskThresholds config)) then "medium"
  else "low".

(** [EarlyRiskScore] and its features, as types.ts declares them. *)
Record EarlyRiskFeatures := {
  featureKeywords : list string;
  featureLanguage : string;
  languageConfidence : number;
  speakingRate : number;
  pitchVariance : number;
  stressLevel : number;
  syntheticVoiceLikelihood : number
}.

Record EarlyRiskScore := {
  score : Z;
  level : string;
  features : EarlyRiskFeatures;
  timestamp : Z;
  scoreSessionId : string
}.

(** What [checkRiskThresholds] shows: a notification with the score and
    the keywords in its message, and a [risk_alert] message to the popup. *)
Inductive Alert :=
| Notification (title : string) (score : Z) (keywords : list string)
| RiskAlert (level : string) (data : EarlyRiskScore).

Definition showHighRiskAlert (riskScore : EarlyRiskScore) : list Alert :=
  [Notification "🚨 High Risk Call Detected" (score riskScore)
     (featureKeywords (features riskScore));
   RiskAlert "high" riskScore].

Definition showMediumRiskAlert (riskScore : EarlyRiskScore) : list Alert :=
  [RiskAlert "medium" riskScore].

Definition checkRiskThresholds (config : ExtensionConfig) (riskScore : EarlyRiskScore)
  : list Alert :=
  if atLeast (score riskScore) (high (riskThresholds config))
  then showHighRiskAlert riskScore
  else if atLeast (score riskScore) (medium (riskThresholds config))
  then showMediumRiskAlert riskScore
  else [].

(** The levels that [checkRiskThresholds] alerts the popup of. *)
Definition alertedLevels (alerts : list Alert) : list string :=
  flat_map (fun a => match a with RiskAlert level _ => [level] | _ => [] end) alerts.

(** [updateConfig]: read, overlay, save. *)
Definition updateConfig (get set : string + unit) (newConfig : Partial.Config)
  (storage : Storage) : Outcome unit * Storage :=
  let currentConfig := getConfig get storage in
  let updatedConfig := spread currentConfig newConfig in
  saveConfig set updatedConfig storage.

(** A configuration that differs in the [low] threshold only. *)
Definition withLow (config : ExtensionConfig) (low' : option Z) : ExtensionConfig :=
  {| enabled := enabled config;
     chunkDuration := chunkDuration config;
     riskThresholds := {| low := low';
                          medium := medium (riskThresholds config);
                          high := high (riskThresholds config) |};
     keywords := keywords config;
     backendUrl := backendUrl config;
     websocketUrl := websocketUrl config |}.

(** A new threshold object with only [high] set, as an [update_config]
    message may carry it. *)
Definition onlyHigh (threshold : Z) : Partial.Config :=
  {| Partial.enabled := None; Partial.chunkDuration := None;
     Partial.riskThresholds := Some {| low := None; medium := None; high := Some threshold |};
     Partial.keywords := None; Partial.backendUrl := None;
     Partial.websocketUrl := None |}.

End Background.

(* ================================================================== *)
(** * Facts about integer-valued numbers *)
(* ================================================================== *)

Module NumberFacts.

(** The iteration of [SpecFloat] is the iteration of [nat]. *)
Lemma iter_pos_nat {A : Type} (f : A -> A) (p : positive) (x : A) :
  SpecFloat.iter_pos f p x = Nat.iter (Pos.to_nat p) f x.
Proof.
  revert x; induction p as [p IH | p IH |]; intros x; cbn [SpecFloat.iter_pos].
  - rewrite !IH, Pos2Nat.inj_xI.
    replace (S (2 * Pos.to_nat p))%nat with (Pos.to_nat p + (Pos.to_nat p + 1))%nat by lia.
    rewrite !Nat.iter_add. reflexivity.
  - rewrite !IH, Pos2Nat.inj_xO.
    replace (2 * Pos.to_nat p)%nat with (Pos.to_nat p + Pos.to_nat p)%nat by lia.
    rewrite Nat.iter_add. reflexivity.
  - reflexivity.
Qed.

(** Shifting a significand of at least two bits right by one leaves a
    positive significand with one bit less. *)
Lemma shr_1_positive (q : positive) (r s : bool) :
  (1 < Pos.to_nat (digits2_pos q))%nat ->
  exists q' r' s',
    shr_1 {| shr_m := Z.pos q; shr_r := r; shr_s := s |}
    = {| shr_m := Z.pos q'; shr_r := r'; shr_s := s' |}
    /\ Pos.to_nat (digits2_pos q) = S (Pos.to_nat (digits2_pos q')).
Proof.
  destruct q as [q | q |]; simpl; intros H.
  - exists q, true, (r || s)%bool. split; [reflexivity | lia].
  - exists q, false, (r || s)%bool. split; [reflexivity | lia].
  - lia.
Qed.

Lemma iter_shr_1_positive (k : nat) : forall (q : positive) (r s : bool),
  (k < Pos.to_nat (digits2_pos q))%nat ->
  exists q' r' s',
    Nat.iter k shr_1 {| shr_m := Z.pos q; shr_r := r; shr_s := s |}
    = {| shr_m := Z.pos q'; shr_r := r'; shr_s := s' |}.
Proof.
  induction k as [| k IH]; intros q r s H.
  - exists q, r, s. reflexivity.
  - rewrite Nat.iter_succ_r.
    destruct (shr_1_positive q r s) as (q' & r' & s' & E & D); [lia |].
    rewrite E. apply IH. lia.
Qed.

(** Rounding to the binary64 exponent range never shifts out all the
    bits of a significand whose exponent is above the smallest one. *)
Lemma shr_fexp_positive (q : positive) (e : Z) (l : location) :
  -1074 < e ->
  exists q' r' s' e',
    shr_fexp prec emax (Z.pos q) e l
    = ({| shr_m := Z.pos q'; shr_r := r'; shr_s := s' |}, e') /\ e <= e'.
Proof.
  intros He. unfold shr_fexp, shr.
  set (n := fexp prec emax (Zdigits2 (Z.pos q) + e) - e).
  assert (Hn : n < Z.pos (digits2_pos q)).
  { subst n. unfold fexp, SpecFloat.emin, prec, emax. simpl Zdigits2. lia. }
  assert (Hrec : exists r s, shr_record_of_loc (Z.pos q) l
                             = {| shr_m := Z.pos q; shr_r := r; shr_s := s |}).
  { destruct l as [| []]; simpl; eauto. }
  destruct Hrec as (r & s & ->).
  destruct n as [| p | p] eqn:En.
  - exists q, r, s, e. split; [reflexivity | lia].
  - rewrite iter_pos_nat.
    destruct (iter_shr_1_positive (Pos.to_nat p) q r s) as (q' & r' & s' & E); [lia |].
    rewrite E. exists q', r', s', (e + Z.pos p). split; [reflexivity | lia].
  - exists q, r, s, e. split; [reflexivity | lia].
Qed.

Lemma round_nearest_even_positive (q : positive) (l : location) :
  exists q', round_nearest_even (Z.pos q) l = Z.pos q'.
Proof.
  assert (Hsucc : Z.pos q + 1 = Z.pos (q + 1)) by reflexivity.
  destruct l as [| []]; unfold round_nearest_even;
    try destruct (Z.even (Z.pos q)); rewrite ?Hsucc; eauto.
Qed.

(** A positive integer converts to a positive number. *)
Lemma of_Z_positive (p : positive) :
  (exists m e, JS.of_Z (Z.pos p) = S754_finite false m e)
  \/ JS.of_Z (Z.pos p) = S754_infinity false.
Proof.
  unfold JS.of_Z, binary_normalize, binary_round.
  destruct (shl_align p 0 (fexp prec emax (Z.pos (digits2_pos p) + 0))) as [mz ez] eqn:Es.
  assert (Hez : -1074 < ez).
  { unfold shl_align in Es.
    destruct (fexp prec emax (Z.pos (digits2_pos p) + 0) - 0) eqn:Ed;
      inversion Es; subst; try lia.
    unfold fexp, SpecFloat.emin, prec, emax in *. lia. }
  unfold binary_round_aux.
  destruct (shr_fexp_positive mz ez loc_Exact Hez) as (q1 & r1 & s1 & e1 & -> & He1).
  cbn [shr_m].
  destruct (round_nearest_even_positive q1
              (loc_of_shr_record {| shr_m := Z.pos q1; shr_r := r1; shr_s := s1 |}))
    as (q2 & ->).
  destruct (shr_fexp_positive q2 e1 loc_Exact ltac:(lia)) as (q3 & r3 & s3 & e3 & -> & He3).
  cbn [shr_m].
  destruct (e3 <=? emax - prec); eauto.
Qed.

(** [0 / n] is [0] for every positive integer [n]. *)
Lemma zero_div_positive (n : Z) : 0 < n -> JS.div JS.zero (JS.of_Z n) = JS.zero.
Proof.
  destruct n as [| p | p]; try lia. intros _.
  destruct (of_Z_positive p) as [(m & e & ->) | ->]; reflexivity.
Qed.

End NumberFacts.

(* ================================================================== *)
(** * Feature extraction, scoring, call detection and bulk capture *)
(* ================================================================== *)

Module ProcessorFacts.

Import JS AudioProcessor NumberFacts.

(** C4. For every feature vector and every combination of cue flags,
    [calculateRealTimeRisk] returns the sum of the contributions of the
    factors that hold (spectralFlux > 50: 15, rms > 0.8: 10,
    zeroCrossingRate > 0.3: 10, urgency: 25, authority: 20, socialProof:
    15, reciprocity: 15, commitment: 10, liking: 10), clamped to at most
    100; the result lies in [0, 100]. *)
Theorem risk_score_is_clamped_weighted_sum (features : Features) (cues : PersuasionCues) :
  calculateRealTimeRisk features cues = spec_risk features cues
  /\ 0 <= calculateRealTimeRisk features cues <= 100.
Proof.
  unfold calculateRealTimeRisk, spec_risk, contribution.
  destruct (gt (spectralFlux features) _), (gt (rms features) _),
    (gt (zeroCrossingRate features) _), (urgency cues), (authority cues),
    (socialProof cues), (reciprocity cues), (commitment cues), (liking cues);
    cbn; lia.
Qed.

(** C5. With spectralFlux 60, rms 0.9, zeroCrossingRate 0.35, urgency and
    authority set and every other flag clear, the score is
    15+10+10+25+20 = 80, which the popup labels CRITICAL; the popup's
    mapping is <30 low, 30-59 medium, 60-79 high, >=80 critical. *)
Theorem example_scenario_scores_80_critical
  (centroid rolloff energy confidence : number) (detected : bool) (t t' : Z) :
  calculateRealTimeRisk
    {| spectralCentroid := centroid; spectralRolloff := rolloff;
       spectralFlux := lit 60%float; rms := lit 0.9%float;
       zeroCrossingRate := lit 0.35%float; AudioProcessor.energy := energy;
       timestamp := t |}
    {| AudioProcessor.detected := detected; urgency := true; authority := true;
       socialProof := false; reciprocity := false; commitment := false;
       liking := false; AudioProcessor.confidence := confidence; cueTimestamp := t' |}
  = 15 + 10 + 10 + 25 + 20
  /\ 15 + 10 + 10 + 25 + 20 = 80
  /\ Popup.levelText (Popup.updateRiskScore 80) = "CRITICAL"%string
  /\ Popup.levelClass (Popup.updateRiskScore 80) = "risk-level risk-critical"%string
  /\ forall score : Z,
       Popup.levelText (Popup.updateRiskScore score)
       = Popup.level_label (Popup.spec_level score).
Proof.
  split; [vm_compute; reflexivity |].
  split; [reflexivity |]. split; [reflexivity |]. split; [reflexivity |].
  intros score. unfold Popup.updateRiskScore, Popup.spec_level.
  rewrite !Z.geb_leb.
  destruct (80 <=? score) eqn:E80, (60 <=? score) eqn:E60, (30 <=? score) eqn:E30,
    (score <? 30) eqn:L30, (score <=? 59) eqn:L59, (score <=? 79) eqn:L79;
    try reflexivity; exfalso;
    rewrite ?Z.leb_le, ?Z.leb_gt, ?Z.ltb_lt, ?Z.ltb_ge in *; lia.
Qed.

(** The loops of the three features on a silent frame. *)
Lemma rms_loop_silent (timeData : Uint8Array) :
  silentTime timeData ->
  fold_left
    (fun sum t =>
       let sample := div (of_Z (t - 128)) (lit 128%float) in
       add sum (mul sample sample))
    timeData zero = zero.
Proof.
  induction 1 as [| t rest Ht _ IH]; [reflexivity |].
  subst t. cbn [fold_left].
  replace (add zero _) with zero by (vm_compute; reflexivity).
  exact IH.
Qed.

Lemma crossingLoop_silent (rest : Uint8Array) :
  silentTime rest -> crossingLoop 0 rest 0 = 0.
Proof.
  induction 1 as [| t rest Ht _ IH]; [reflexivity |].
  subst t. cbn. exact IH.
Qed.

Lemma energy_loop_silent (frequencyData : Uint8Array) :
  silentFrequency frequencyData ->
  fold_left (fun energy f => energy + f * f) frequencyData 0 = 0.
Proof.
  induction 1 as [| f rest Hf _ IH]; [reflexivity |].
  subst f. cbn. exact IH.
Qed.

Lemma calculateRMS_silent (timeData : Uint8Array) :
  silentTime timeData -> (1 <= List.length timeData)%nat ->
  calculateRMS timeData = zero.
Proof.
  intros Hs Hl. unfold calculateRMS. rewrite rms_loop_silent by assumption.
  rewrite zero_div_positive by (unfold arrayLength; lia). reflexivity.
Qed.

Lemma calculateZeroCrossingRate_silent (timeData : Uint8Array) :
  silentTime timeData -> (2 <= List.length timeData)%nat ->
  calculateZeroCrossingRate timeData = zero.
Proof.
  intros Hs Hl. unfold calculateZeroCrossingRate.
  destruct Hs as [| t rest Ht Hrest]; [cbn [List.length] in Hl; lia |].
  subst t. change (128 - 128) with 0. rewrite crossingLoop_silent by assumption.
  apply zero_div_positive. unfold arrayLength. cbn [List.length] in *. lia.
Qed.

Lemma calculateEnergy_silent (frequencyData : Uint8Array) :
  silentFrequency frequencyData -> (1 <= List.length frequencyData)%nat ->
  calculateEnergy frequencyData = zero.
Proof.
  intros Hs Hl. unfold calculateEnergy. rewrite energy_loop_silent by assumption.
  apply zero_div_positive. unfold arrayLength. lia.
Qed.

(** X30. For every silent frame with at least two time-domain samples
    and at least one frequency bin (time-domain bytes all at the
    midpoint 128, frequency bins all 0; the analyser delivers 1024 of
    each), whatever the previous frame was, rms, zeroCrossingRate and
    energy are 0. *)
Theorem silent_frame_features_are_zero
  (lastFrequencyData : option Uint8Array) (frequencyData timeData : Uint8Array) (now : Z) :
  silentTime timeData -> silentFrequency frequencyData ->
  (2 <= List.length timeData)%nat -> (1 <= List.length frequencyData)%nat ->
  rms (fst (extractRealTimeFeatures lastFrequencyData frequencyData timeData now)) = zero
  /\ zeroCrossingRate
       (fst (extractRealTimeFeatures lastFrequencyData frequencyData timeData now)) = zero
  /\ energy (fst (extractRealTimeFeatures lastFrequencyData frequencyData timeData now))
     = zero.
Proof.
  intros Ht Hf Lt Lf. cbn [extractRealTimeFeatures fst rms zeroCrossingRate energy].
  repeat split.
  - apply calculateRMS_silent; [assumption | lia].
  - apply calculateZeroCrossingRate_silent; assumption.
  - apply calculateEnergy_silent; assumption.
Qed.

Lemma silent_frame_features_are_zero_witness :
  rms (fst (extractRealTimeFeatures (Some [7; 9]) [0; 0] [128; 128; 128] 1000)) = zero
  /\ zeroCrossingRate
       (fst (extractRealTimeFeatures (Some [7; 9]) [0; 0] [128; 128; 128] 1000)) = zero
  /\ energy (fst (extractRealTimeFeatures (Some [7; 9]) [0; 0] [128; 128; 128] 1000))
     = zero.
Proof.
  apply (silent_frame_features_are_zero (Some [7; 9]) [0; 0] [128; 128; 128] 1000).
  - repeat constructor.
  - repeat constructor.
  - simpl; lia.
  - simpl; lia.
Defined.

Lemma sumBytes_cons (x : Z) (data : Uint8Array) : sumBytes (x :: data) = x + sumBytes data.
Proof.
  unfold sumBytes. cbn [fold_left].
  assert (G : forall l a, fold_left (fun sum val => sum + val) l a
                          = a + fold_left (fun sum val => sum + val) l 0).
  { induction l as [| y l IH]; intros a; cbn [fold_left]; [lia |].
    rewrite (IH (a + y)), (IH (0 + y)). lia. }
  rewrite G. lia.
Qed.

(** The interval callback, run until it resolves, computes the total
    energy and the number of jumps of the frames it consumed. *)
Lemma sampleLoop_window (r : nat) : forall (st : Sampler) (frames : list Uint8Array),
  (1 <= r)%nat ->
  samples st = 30 - Z.of_nat r ->
  0 <= samples st ->
  (r <= List.length frames)%nat ->
  sampleLoop st frames
  = Some (resolveCall 30
            (totalEnergy st + windowTotal (firstn r frames))
            (varianceCount st
             + countJumps (previousEnergy st ++ windowEnergies (firstn r frames)))).
Proof.
  induction r as [| r IH]; intros st frames Hr Hs Hpos Hlen; [lia |].
  destruct frames as [| f rest]; simpl in Hlen; [lia |].
  cbn [sampleLoop firstn]. unfold sampleTick.
  set (varc := if samples st >? 0 then _ else _).
  assert (Hvar : forall tail,
             varianceCount st + countJumps (previousEnergy st ++ sumBytes f :: tail)
             = varc + countJumps (sumBytes f :: tail)).
  { intros tail. subst varc. unfold previousEnergy.
    destruct (samples st >? 0); cbn [app countJumps].
    - destruct (Z.abs (sumBytes f - lastEnergy st) >? 100); lia.
    - reflexivity. }
  unfold windowTotal, windowEnergies in *. cbn [map fold_right].
  rewrite Hvar. clear Hvar.
  destruct r as [| r'].
  - replace (samples st + 1 >=? 30) with true by (symmetry; apply Z.geb_le; lia).
    replace (samples st + 1) with 30 by lia.
    cbn [firstn map fold_right countJumps]. do 2 f_equal; lia.
  - replace (samples st + 1 >=? 30) with false
      by (symmetry; rewrite Z.geb_leb; apply Z.leb_gt; lia).
    rewrite IH; cbn [samples totalEnergy varianceCount lastEnergy] in *; try lia.
    unfold previousEnergy. cbn [samples lastEnergy].
    replace (samples st + 1 >? 0) with true by (symmetry; apply Z.gtb_lt; lia).
    cbn [app]. do 2 f_equal; lia.
Qed.

(** C7. For every observation window (the first 30 readings), a call is
    declared exactly when the average energy exceeds 50 and the fraction
    of frames whose energy jumped by more than 100 exceeds 0.3; then
    confidence = min(0.9, 0.5 + ratio * 0.4) and participants =
    max(2, floor(avgEnergy / 30)), otherwise confidence = 0.1 and
    participants = 1.  With avgEnergy = 60 and ratio = 0.4 the result is
    isCall = true, confidence = 0.66, participants = 2. *)
Theorem call_declared_by_energy_and_variance (frames : list Uint8Array) :
  (30 <= List.length frames)%nat ->
  let window := firstn 30 frames in
  let avgEnergy := div (of_Z (windowTotal window)) (of_Z 30) in
  let varianceRatio := div (of_Z (countJumps (windowEnergies window))) (of_Z 30) in
  let active := gt avgEnergy (lit 50%float) && gt varianceRatio (lit 0.3%float) in
  analyzeCallCharacteristics frames
  = Some {| isCall := active;
            callConfidence :=
              if active
              then Math_min (lit 0.9%float)
                     (add (lit 0.5%float) (mul varianceRatio (lit 0.4%float)))
              else lit 0.1%float;
            participantCount :=
              if active
              then Math_max (lit 2%float) (Math_floor (div avgEnergy (lit 30%float)))
              else lit 1%float |}
  /\ (avgEnergy = lit 60%float -> varianceRatio = lit 0.4%float ->
      analyzeCallCharacteristics frames
      = Some {| isCall := true; callConfidence := lit 0.66%float;
                participantCount := lit 2%float |}).
Proof.
  intros Hlen window avgEnergy varianceRatio active.
  assert (E : analyzeCallCharacteristics frames
              = Some (resolveCall 30 (windowTotal window)
                        (countJumps (windowEnergies window)))).
  { unfold analyzeCallCharacteristics.
    rewrite (sampleLoop_window 30 initialSampler frames); try (cbn; lia); try assumption.
    reflexivity. }
  split; [exact E |].
  intros Havg Hratio. rewrite E. unfold resolveCall.
  fold avgEnergy varianceRatio. rewrite Havg, Hratio.
  vm_compute. reflexivity.
Qed.

Lemma call_declared_by_energy_and_variance_witness :
  analyzeCallCharacteristics exampleWindow
  = Some {| isCall := true; callConfidence := lit 0.66%float;
            participantCount := lit 2%float |}.
Proof.
  apply (proj2 (call_declared_by_energy_and_variance exampleWindow
                  ltac:(vm_compute; apply le_n))).
  - vm_compute. reflexivity.
  - vm_compute. reflexivity.
Defined.

(** C8, as amended. [startCallRecording] has no check for an active
    capture: whenever the device gives a stream and the recorder can be
    created, it returns a new recorder that is recording and stores it
    in [this.mediaRecorder]; the recorders that existed keep their
    state, so the number of active captures grows by one.  The only
    failures are the errors of the device and of the recorder
    constructor, thrown again as they are. *)
Theorem second_capture_starts_alongside (p : Recorder) (stream created : unit) :
  fst (startCallRecording (inr stream) (inr created) p)
  = Returned (List.length (recorders p))
  /\ mediaRecorder (snd (startCallRecording (inr stream) (inr created) p))
     = Some (List.length (recorders p))
  /\ recorderState (snd (startCallRecording (inr stream) (inr created) p))
       (List.length (recorders p))
     = Some recording
  /\ activeCaptures (snd (startCallRecording (inr stream) (inr created) p))
     = S (activeCaptures p)
  /\ (forall r, (r < List.length (recorders p))%nat ->
                recorderState (snd (startCallRecording (inr stream) (inr created) p)) r
                = recorderState p r)
  /\ (forall (error : string) (outcome : string + unit),
         startCallRecording (inl error) outcome p = (Thrown error, p)
         /\ startCallRecording (inr stream) (inl error) p = (Thrown error, p)).
Proof.
  cbn [startCallRecording fst snd mediaRecorder recorders]. repeat split.
  - unfold recorderState. cbn [recorders].
    rewrite nth_error_app2, Nat.sub_diag by lia. reflexivity.
  - unfold activeCaptures. cbn [recorders].
    rewrite filter_app, length_app. cbn [filter List.length]. lia.
  - intros r Hr. unfold recorderState. cbn [recorders].
    apply nth_error_app1. exact Hr.
Qed.

Lemma second_capture_starts_alongside_witness :
  recorderState (snd (startCallRecording (inr tt) (inr tt) (snd firstCapture))) 0
  = recorderState (snd firstCapture) 0.
Proof.
  apply (proj1 (proj2 (proj2 (proj2 (proj2
           (second_capture_starts_alongside (snd firstCapture) tt tt)))))).
  vm_compute. apply le_n.
Defined.

(** C8 as stated fails: with one capture recording, a second start
    returns a recorder, and then two captures are recording. *)
Lemma second_capture_is_started :
  activeCaptures (snd firstCapture) = 1%nat
  /\ fst secondCapture = Returned 1%nat
  /\ activeCaptures (snd secondCapture) = 2%nat
  /\ recorderState (snd secondCapture) 0 = Some recording
  /\ recorderState (snd secondCapture) 1 = Some recording.
Proof. repeat split. Qed.

End ProcessorFacts.

(* ================================================================== *)
(** * The WAV encoder *)
(* ================================================================== *)

Module WavFacts.

Import JS AudioProcessor.

(** ** Writing into the fresh part of the buffer *)

Lemma skipn_repeat_zero (n k : nat) : skipn n (repeat 0 k) = repeat 0 (k - n).
Proof.
  revert k; induction n as [| n IH]; intros k.
  - rewrite Nat.sub_0_r. reflexivity.
  - destruct k as [| k]; [reflexivity | apply IH].
Qed.

(** A write at the end of what has been written so far extends it. *)
Lemma writeBytes_fresh (written bytes : list Z) (k offset : nat) :
  offset = List.length written ->
  (List.length bytes <= k)%nat ->
  writeBytes (written ++ repeat 0 k) offset bytes
  = Some ((written ++ bytes) ++ repeat 0 (k - List.length bytes)).
Proof.
  intros -> Hk. unfold writeBytes.
  rewrite length_app, repeat_length.
  replace (_ <=? _)%nat with true by (symmetry; apply Nat.leb_le; lia).
  rewrite firstn_app, firstn_all, Nat.sub_diag, firstn_O, app_nil_r.
  rewrite skipn_app, skipn_all2 by lia.
  replace (_ - _)%nat with (List.length bytes) by lia.
  rewrite skipn_repeat_zero, <- app_assoc. reflexivity.
Qed.

Ltac finish_fresh :=
  cbn [le_bytes List.length];
  match goal with
  | |- Some (?a ++ repeat 0 ?x, ?o) = Some (?b ++ repeat 0 ?y, ?o') =>
      replace x with y by lia; replace o with o' by lia;
      rewrite <- ?app_assoc; reflexivity
  | |- Some (?a ++ repeat 0 ?x) = Some (?b ++ repeat 0 ?y) =>
      replace x with y by lia; rewrite <- ?app_assoc; reflexivity
  end.

Lemma channelLoop_fresh (buffer : AudioBuffer) (i : nat) (channels : list nat) :
  forall (written : list Z) (k offset : nat),
  offset = List.length written ->
  (2 * List.length channels <= k)%nat ->
  channelLoop buffer i channels (written ++ repeat 0 k) offset
  = Some ((written
           ++ flat_map
                (fun channel => le_bytes 2 (ToInt16 (pcmValue (sampleAt buffer channel i))))
                channels)
          ++ repeat 0 (k - 2 * List.length channels),
          (offset + 2 * List.length channels)%nat).
Proof.
  induction channels as [| channel rest IH]; intros written k offset Ho Hk.
  - cbn [channelLoop flat_map List.length].
    rewrite app_nil_r, Nat.mul_0_r, Nat.sub_0_r, Nat.add_0_r. reflexivity.
  - cbn [channelLoop flat_map List.length] in *. unfold setInt16, ordered.
    rewrite (writeBytes_fresh written _ k offset Ho) by (cbn [le_bytes List.length]; lia).
    cbn [bind]. rewrite IH.
    + finish_fresh.
    + rewrite length_app. cbn [le_bytes List.length]. lia.
    + cbn [le_bytes List.length]. lia.
Qed.

Lemma frameLoop_fresh (buffer : AudioBuffer) (frames : list nat) :
  forall (written : list Z) (k offset : nat),
  offset = List.length written ->
  (2 * numberOfChannels buffer * List.length frames <= k)%nat ->
  frameLoop buffer frames (written ++ repeat 0 k) offset
  = Some ((written ++ flat_map (frameBytes buffer) frames)
          ++ repeat 0 (k - 2 * numberOfChannels buffer * List.length frames),
          (offset + 2 * numberOfChannels buffer * List.length frames)%nat).
Proof.
  induction frames as [| i rest IH]; intros written k offset Ho Hk.
  - cbn [frameLoop flat_map List.length].
    rewrite app_nil_r, Nat.mul_0_r, Nat.sub_0_r, Nat.add_0_r. reflexivity.
  - cbn [frameLoop flat_map List.length] in *.
    rewrite (channelLoop_fresh buffer i _ written k offset Ho)
      by (rewrite length_seq; lia).
    cbn [bind fst snd]. rewrite length_seq. fold (frameBytes buffer i).
    assert (Hf : List.length (frameBytes buffer i) = (2 * numberOfChannels buffer)%nat).
    { unfold frameBytes. rewrite flat_map_constant_length with (c := 2%nat).
      - rewrite length_seq. lia.
      - intros; reflexivity. }
    rewrite IH.
    + finish_fresh.
    + rewrite length_app, Hf. lia.
    + lia.
Qed.

Lemma asciiBytes_small (c : Ascii.ascii) :
  le_bytes 1 (Z.of_N (Ascii.N_of_ascii c) mod 2 ^ 8) = [Z.of_N (Ascii.N_of_ascii c)].
Proof.
  assert (H := Ascii.N_ascii_bounded c).
  cbn [le_bytes]. change (2 ^ 8) with 256.
  rewrite Z.mod_mod by lia. rewrite Z.mod_small by lia. reflexivity.
Qed.

Lemma writeChars_fresh (chars : list Ascii.ascii) :
  forall (written : list Z) (k offset : nat),
  offset = List.length written ->
  (List.length chars <= k)%nat ->
  writeChars (written ++ repeat 0 k) offset chars
  = Some ((written ++ map (fun c => Z.of_N (Ascii.N_of_ascii c)) chars)
          ++ repeat 0 (k - List.length chars)).
Proof.
  induction chars as [| c rest IH]; intros written k offset Ho Hk.
  - cbn [writeChars map List.length]. rewrite app_nil_r, Nat.sub_0_r. reflexivity.
  - cbn [writeChars map List.length] in *. unfold setUint8.
    rewrite asciiBytes_small.
    rewrite (writeBytes_fresh written _ k offset Ho) by (cbn [List.length]; lia).
    cbn [bind]. rewrite IH.
    + finish_fresh.
    + rewrite length_app. cbn [List.length]. lia.
    + cbn [List.length]. lia.
Qed.

Lemma writeString_fresh (s : string) (written : list Z) (k offset : nat) :
  offset = List.length written ->
  (List.length (list_ascii_of_string s) <= k)%nat ->
  writeString (written ++ repeat 0 k) offset s
  = Some ((written ++ asciiBytes s)
          ++ repeat 0 (k - List.length (list_ascii_of_string s))).
Proof. intros. unfold writeString, asciiBytes. apply writeChars_fresh; assumption. Qed.

(** The encoder never raises a RangeError, and its output is the header
    followed by the interleaved sample bytes. *)
Lemma audioBufferToWav_layout (buffer : AudioBuffer) :
  audioBufferToWav buffer = Some (wavHeader buffer ++ wavData buffer).
Proof.
  unfold audioBufferToWav, new_ArrayBuffer.
  set (n := (buffer_length buffer * numberOfChannels buffer * 2)%nat).
  rewrite repeat_app. change (repeat 0 44) with ([] ++ repeat 0 44).
  rewrite <- app_assoc, <- repeat_app.
  rewrite (writeString_fresh _ [] _ 0) by (cbn; lia). cbn [bind].
  unfold setUint32, setUint16, ordered.
  repeat (first
    [ rewrite writeBytes_fresh by (rewrite ?length_app; cbn; lia)
    | rewrite writeString_fresh by (rewrite ?length_app; cbn; lia) ];
    cbn [bind]).
  rewrite frameLoop_fresh.
  - cbn [bind fst]. rewrite length_seq.
    replace (_ - _)%nat with 0%nat by (cbn; lia).
    cbn [repeat]. rewrite app_nil_r. unfold wavHeader, wavData.
    rewrite <- !app_assoc. reflexivity.
  - rewrite !length_app. reflexivity.
  - rewrite length_seq. cbn. lia.
Qed.

Lemma wavHeader_length (buffer : AudioBuffer) : List.length (wavHeader buffer) = 44%nat.
Proof. reflexivity. Qed.

Lemma frameBytes_length (buffer : AudioBuffer) (i : nat) :
  List.length (frameBytes buffer i) = (numberOfChannels buffer * 2)%nat.
Proof.
  unfold frameBytes. rewrite flat_map_constant_length with (c := 2%nat).
  - rewrite length_seq. lia.
  - intros; reflexivity.
Qed.

Lemma wavData_length (buffer : AudioBuffer) :
  List.length (wavData buffer) = (buffer_length buffer * numberOfChannels buffer * 2)%nat.
Proof.
  unfold wavData.
  rewrite flat_map_constant_length with (c := (numberOfChannels buffer * 2)%nat).
  - rewrite length_seq. lia.
  - intros; apply frameBytes_length.
Qed.

(** ** Reading little-endian fields back *)

Lemma readLE_le_bytes_2 (v : Z) : readLE (le_bytes 2 v) = v mod 2 ^ 16.
Proof.
  cbn [le_bytes readLE fold_right]. change (2 ^ 16) with (256 * 256).
  rewrite Z.rem_mul_r by lia. lia.
Qed.

Lemma readLE_le_bytes_4 (v : Z) : readLE (le_bytes 4 v) = v mod 2 ^ 32.
Proof.
  cbn [le_bytes readLE fold_right]. change (2 ^ 32) with (256 * (256 * (256 * 256))).
  rewrite !Z.rem_mul_r by lia. lia.
Qed.

Lemma header_fields (buffer : AudioBuffer) (data : list Z) :
  let channels := Z.of_nat (numberOfChannels buffer) in
  let dataBytes := Z.of_nat (buffer_length buffer) * channels * 2 in
  field (wavHeader buffer ++ data) 4 4 = (36 + dataBytes) mod 2 ^ 32
  /\ field (wavHeader buffer ++ data) 22 2 = channels mod 2 ^ 16
  /\ field (wavHeader buffer ++ data) 24 4 = sampleRate buffer mod 2 ^ 32
  /\ field (wavHeader buffer ++ data) 40 4 = dataBytes mod 2 ^ 32
  /\ skipn 44 (wavHeader buffer ++ data) = data.
Proof.
  intros channels dataBytes.
  unfold field, wavHeader. fold channels. fold dataBytes.
  set (riff := (36 + dataBytes) mod 2 ^ 32).
  set (nch := channels mod 2 ^ 16).
  set (rate := sampleRate buffer mod 2 ^ 32).
  set (byteRate := (sampleRate buffer * channels * 2) mod 2 ^ 32).
  set (align := (channels * 2) mod 2 ^ 16).
  set (size := dataBytes mod 2 ^ 32).
  repeat split.
  - transitivity (readLE (le_bytes 4 riff)); [reflexivity |].
    rewrite readLE_le_bytes_4. apply Z.mod_mod. discriminate.
  - transitivity (readLE (le_bytes 2 nch)); [reflexivity |].
    rewrite readLE_le_bytes_2. apply Z.mod_mod. discriminate.
  - transitivity (readLE (le_bytes 4 rate)); [reflexivity |].
    rewrite readLE_le_bytes_4. apply Z.mod_mod. discriminate.
  - transitivity (readLE (le_bytes 4 size)); [reflexivity |].
    rewrite readLE_le_bytes_4. apply Z.mod_mod. discriminate.
Qed.

(** ** The quantizer *)

Lemma Qtrunc_bounds (q : Q) (a b : Z) :
  (inject_Z a <= q)%Q -> (q <= inject_Z b)%Q -> a <= Qtrunc q <= b.
Proof.
  destruct q as [n d]. unfold Qle, Qtrunc. cbn [Qnum Qden inject_Z].
  rewrite !Z.mul_1_r. intros Ha Hb. split.
  - rewrite <- (Z.quot_mul a (Z.pos d)) by lia. apply Z.quot_le_mono; lia.
  - rewrite <- (Z.quot_mul b (Z.pos d)) by lia. apply Z.quot_le_mono; lia.
Qed.

Lemma clampSample_range (x : Q) : (-1 <= clampSample x <= 1)%Q.
Proof.
  unfold clampSample. split.
  - apply Q.le_max_l.
  - apply Q.max_lub; [discriminate | apply Q.le_min_l].
Qed.

Lemma clampSample_id (x : Q) : (-1 <= x <= 1)%Q -> (clampSample x == x)%Q.
Proof.
  intros [Hl Hu]. unfold clampSample.
  rewrite Q.min_r by assumption. apply Q.max_r. assumption.
Qed.

Lemma scaleSample_range (s : Q) :
  (-1 <= s <= 1)%Q -> (inject_Z (-32768) <= scaleSample s <= inject_Z 32767)%Q.
Proof.
  intros [Hl Hu]. unfold scaleSample.
  change (inject_Z (-32768)) with (-32768)%Q. change (inject_Z 32767) with 32767%Q.
  destruct (s ?= 0)%Q eqn:E.
  - apply Qeq_alt in E. split; lra.
  - apply Qlt_alt in E. split; lra.
  - apply Qgt_alt in E. split; lra.
Qed.

(** Every sample, in range or not, is stored as a signed 16-bit code. *)
Lemma quantize_range (x : Q) : - 2 ^ 15 <= quantize x < 2 ^ 15.
Proof.
  unfold quantize.
  destruct (scaleSample_range (clampSample x) (clampSample_range x)) as [Hl Hu].
  destruct (Qtrunc_bounds _ _ _ Hl Hu). change (2 ^ 15) with 32768. lia.
Qed.

Lemma toSigned16_wrap (q : Z) :
  - 2 ^ 15 <= q < 2 ^ 15 -> toSigned16 (q mod 2 ^ 16) = q.
Proof.
  intros H. unfold toSigned16. change (2 ^ 15) with 32768 in *.
  change (2 ^ 16) with 65536.
  assert (Hm : q mod 65536 = if q <? 0 then q + 65536 else q).
  { destruct (Z.ltb_spec q 0).
    - rewrite <- (Z.mod_add q 1 65536) by lia. rewrite Z.mod_small; lia.
    - rewrite Z.mod_small; lia. }
  rewrite Hm.
  destruct (Z.ltb_spec q 0) as [N | N];
    match goal with |- context [?a <? 32768] => destruct (Z.ltb_spec a 32768) end; lia.
Qed.

Lemma Qtrunc_nonneg (t : Q) : (0 <= t)%Q -> Qtrunc t = Qfloor t.
Proof.
  destruct t as [n d]. unfold Qle, Qtrunc, Qfloor. cbn [Qnum Qden].
  intros H. apply Z.quot_div_nonneg; lia.
Qed.

Lemma Qtrunc_nonpos (t : Q) : (t <= 0)%Q -> Qtrunc t = Qceiling t.
Proof.
  destruct t as [n d]. unfold Qle, Qtrunc, Qceiling, Qfloor, Qopp. cbn [Qnum Qden].
  intros H.
  rewrite <- (Z.quot_div_nonneg (- n) (Z.pos d)) by lia.
  rewrite Z.quot_opp_l by lia. lia.
Qed.

Lemma dequantize_value (code : Z) :
  (dequantize code ==
   if code <? 0 then inject_Z code * (1 # 32768) else inject_Z code * (1 # 32767))%Q.
Proof.
  unfold dequantize. destruct (code <? 0).
  - exact (Qmake_Qdiv code 32768).
  - exact (Qmake_Qdiv code 32767).
Qed.

(** A sample in range and the sample its code stands for differ by
    less than one step of the 16-bit scale. *)
Lemma quantize_error (x : Q) :
  (-1 <= x <= 1)%Q -> (Qabs (dequantize (quantize x) - x) < 1 # 32767)%Q.
Proof.
  intros Hx. pose proof (clampSample_id x Hx) as Hs.
  unfold quantize. set (s := clampSample x) in *.
  apply Qabs_Qlt_condition. rewrite dequantize_value.
  unfold scaleSample. destruct (s ?= 0)%Q eqn:E.
  - apply Qeq_alt in E.
    rewrite Qtrunc_nonneg by lra.
    pose proof (Qfloor_le (s * 32767)) as Hf. pose proof (Qlt_floor (s * 32767)) as Hg.
    set (q := Qfloor (s * 32767)) in *. clearbody q s. rewrite inject_Z_plus in Hg.
    change (inject_Z 1) with 1%Q in Hg.
    destruct (Z.ltb_spec q 0) as [N | N].
    + assert (Hq : (inject_Z q <= inject_Z (-1))%Q) by (rewrite <- Zle_Qle; lia).
      change (inject_Z (-1)) with (-1)%Q in Hq. lra.
    + lra.
  - apply Qlt_alt in E.
    rewrite Qtrunc_nonpos by lra.
    pose proof (Qle_ceiling (s * 32768)) as Hf. pose proof (Qceiling_lt (s * 32768)) as Hg.
    set (q := Qceiling (s * 32768)) in *. clearbody q s.
    unfold Z.sub in Hg. rewrite inject_Z_plus in Hg.
    rewrite inject_Z_opp in Hg. change (inject_Z 1) with 1%Q in Hg.
    destruct (Z.ltb_spec q 0) as [N | N].
    + lra.
    + assert (Hq : (inject_Z 0 <= inject_Z q)%Q) by (rewrite <- Zle_Qle; lia).
      change (inject_Z 0) with 0%Q in Hq. lra.
  - apply Qgt_alt in E.
    rewrite Qtrunc_nonneg by lra.
    pose proof (Qfloor_le (s * 32767)) as Hf. pose proof (Qlt_floor (s * 32767)) as Hg.
    set (q := Qfloor (s * 32767)) in *. clearbody q s. rewrite inject_Z_plus in Hg.
    change (inject_Z 1) with 1%Q in Hg.
    destruct (Z.ltb_spec q 0) as [N | N].
    + assert (Hq : (inject_Z q <= inject_Z (-1))%Q) by (rewrite <- Zle_Qle; lia).
      change (inject_Z (-1)) with (-1)%Q in Hq. lra.
    + lra.
Qed.

Lemma quantized_within_error (samples : list Q) :
  Forall (fun x => (-1 <= x <= 1)%Q) samples ->
  Forall2 (fun x code => (Qabs (dequantize code - x) < 1 # 32767)%Q)
    samples (map quantize samples).
Proof.
  induction 1 as [| x rest Hx _ IH]; cbn [map]; constructor.
  - apply quantize_error. exact Hx.
  - exact IH.
Qed.

Lemma channels_within_error (channels : list (list Q)) :
  Forall (Forall (fun x => (-1 <= x <= 1)%Q)) channels ->
  Forall2 (Forall2 (fun x code => (Qabs (dequantize code - x) < 1 # 32767)%Q))
    channels (map (map quantize) channels).
Proof.
  induction 1 as [| samples rest Hs _ IH]; cbn [map]; constructor.
  - apply quantized_within_error. exact Hs.
  - exact IH.
Qed.

(** ** Decoding *)

Lemma pcmCodes_channels (V : nat -> Z) (channels : list nat) (rest : list Z) :
  pcmCodes (flat_map (fun channel => le_bytes 2 (V channel)) channels ++ rest)
  = map (fun channel => toSigned16 (V channel mod 2 ^ 16)) channels ++ pcmCodes rest.
Proof.
  induction channels as [| c cs IH]; [reflexivity |].
  cbn [flat_map map]. rewrite <- app_assoc.
  change (le_bytes 2 (V c)) with [V c mod 256; V c / 256 mod 256].
  cbn [app pcmCodes]. rewrite IH.
  change [V c mod 256; V c / 256 mod 256] with (le_bytes 2 (V c)).
  rewrite readLE_le_bytes_2. reflexivity.
Qed.

Lemma pcmCodes_frames (buffer : AudioBuffer) (frames : list nat) (rest : list Z) :
  pcmCodes (flat_map (frameBytes buffer) frames ++ rest)
  = flat_map (fun i => map (fun channel => storedCode buffer channel i)
                         (seq 0 (numberOfChannels buffer))) frames
    ++ pcmCodes rest.
Proof.
  induction frames as [| i rest' IH]; [reflexivity |].
  cbn [flat_map]. rewrite <- !app_assoc. unfold frameBytes at 1.
  rewrite (pcmCodes_channels (fun channel => ToInt16 (pcmValue (sampleAt buffer channel i)))).
  rewrite IH. reflexivity.
Qed.

(** Position [i * n + channel] of [m] interleaved frames of [n] channels. *)
Lemma nth_interleaved (c : nat -> nat -> Z) (n m : nat) : forall (s i channel : nat),
  (i < m)%nat -> (channel < n)%nat ->
  nth (i * n + channel)
    (flat_map (fun i => map (fun channel => c channel i) (seq 0 n)) (seq s m)) 0
  = c channel (s + i)%nat.
Proof.
  induction m as [| m IH]; intros s i channel Hi Hc; [lia |].
  cbn [seq flat_map].
  destruct i as [| i].
  - rewrite app_nth1 by (rewrite length_map, length_seq; lia).
    cbn [Nat.mul Nat.add].
    rewrite nth_indep with (d' := c 0%nat s) by (rewrite length_map, length_seq; lia).
    rewrite (map_nth (fun channel => c channel s)), seq_nth by lia.
    rewrite Nat.add_0_r. reflexivity.
  - rewrite app_nth2 by (rewrite length_map, length_seq; lia).
    rewrite length_map, length_seq.
    replace (S i * n + channel - n)%nat with (i * n + channel)%nat by lia.
    rewrite IH by lia. f_equal. lia.
Qed.

Lemma interleaved_length (c : nat -> nat -> Z) (n m s : nat) :
  List.length (flat_map (fun i => map (fun channel => c channel i) (seq 0 n)) (seq s m))
  = (m * n)%nat.
Proof.
  rewrite flat_map_constant_length with (c := n).
  - rewrite length_seq. lia.
  - intros; rewrite length_map, length_seq; reflexivity.
Qed.

Lemma deinterleave_interleaved (c : nat -> nat -> Z) (n m : nat) :
  (1 <= n)%nat ->
  deinterleave n
    (flat_map (fun i => map (fun channel => c channel i) (seq 0 n)) (seq 0 m))
  = map (fun channel => map (fun i => c channel i) (seq 0 m)) (seq 0 n).
Proof.
  intros Hn. unfold deinterleave.
  rewrite interleaved_length, Nat.div_mul by lia.
  apply map_ext_in. intros channel Hc. apply in_seq in Hc.
  apply map_ext_in. intros i Hi. apply in_seq in Hi.
  rewrite nth_interleaved by lia. reflexivity.
Qed.

Lemma map_seq_nth {A B : Type} (g : A -> B) (d : A) (l : list A) :
  map (fun k => g (nth k l d)) (seq 0 (List.length l)) = map g l.
Proof.
  induction l as [| x l IH]; [reflexivity |].
  cbn [List.length seq map nth]. f_equal.
  rewrite <- seq_shift, map_map. exact IH.
Qed.

Lemma map_seq_nth_error {A B : Type} (g : option A -> B) (l : list A) :
  map (fun k => g (nth_error l k)) (seq 0 (List.length l))
  = map (fun x => g (Some x)) l.
Proof.
  induction l as [| x l IH]; [reflexivity |].
  cbn [List.length seq map nth_error]. f_equal.
  rewrite <- seq_shift, map_map. exact IH.
Qed.

(** On a well-formed buffer the stored codes are the quantized samples. *)
Lemma storedCodes_wellFormed (buffer : AudioBuffer) :
  wellFormed buffer ->
  map (fun channel => map (fun i => storedCode buffer channel i)
                        (seq 0 (buffer_length buffer)))
    (seq 0 (numberOfChannels buffer))
  = map (map quantize) (channelData buffer).
Proof.
  intros Hwf. unfold storedCode, sampleAt, numberOfChannels.
  rewrite (map_seq_nth
             (fun samples =>
                map (fun i => toSigned16 (ToInt16 (pcmValue (nth_error samples i)) mod 2 ^ 16))
                  (seq 0 (buffer_length buffer)))).
  apply map_ext_in. intros samples Hin.
  unfold wellFormed in Hwf. rewrite Forall_forall in Hwf.
  rewrite <- (Hwf samples Hin).
  rewrite (map_seq_nth_error
             (fun x => toSigned16 (ToInt16 (pcmValue x) mod 2 ^ 16))).
  apply map_ext. intros x. cbn [pcmValue option_map ToInt16].
  rewrite Z.mod_mod by (change (2 ^ 16) with 65536; lia).
  apply toSigned16_wrap. apply quantize_range.
Qed.

(** C9. For every buffer the encoder returns, without error, exactly
    the 44 header bytes followed by length * channels * 2 data bytes,
    every field and every sample little-endian.  When the buffer is
    well formed, has at least one channel, its samples lie in [-1, 1]
    and its sizes fit the header fields, decoding that output gives back
    the channel count, the sample rate and, for every sample, its 16-bit
    code, which stands for a value less than one quantization step
    (1/32767) away from the sample. *)
Theorem wav_encoding_round_trips (buffer : AudioBuffer) :
  (audioBufferToWav buffer = Some (wavHeader buffer ++ wavData buffer)
   /\ List.length (wavHeader buffer) = 44%nat
   /\ List.length (wavData buffer)
      = (buffer_length buffer * numberOfChannels buffer * 2)%nat)
  /\ (wellFormed buffer ->
      samplesInRange buffer ->
      (1 <= numberOfChannels buffer)%nat ->
      Z.of_nat (numberOfChannels buffer) < 2 ^ 16 ->
      0 <= sampleRate buffer < 2 ^ 32 ->
      36 + Z.of_nat (buffer_length buffer) * Z.of_nat (numberOfChannels buffer) * 2
      < 2 ^ 32 ->
      exists bytes decoded,
        audioBufferToWav buffer = Some bytes
        /\ field bytes 4 4
           = 36 + Z.of_nat (buffer_length buffer) * Z.of_nat (numberOfChannels buffer) * 2
        /\ field bytes 40 4
           = Z.of_nat (buffer_length buffer) * Z.of_nat (numberOfChannels buffer) * 2
        /\ decodeWav bytes = Some decoded
        /\ decodedChannels decoded = Z.of_nat (numberOfChannels buffer)
        /\ decodedSampleRate decoded = sampleRate buffer
        /\ decodedCodes decoded = map (map quantize) (channelData buffer)
        /\ Forall2
             (Forall2 (fun x code => (Qabs (dequantize code - x) < 1 # 32767)%Q))
             (channelData buffer) (decodedCodes decoded)).
Proof.
  split.
  { split; [apply audioBufferToWav_layout |].
    split; [apply wavHeader_length | apply wavData_length]. }
  intros Hwf Hrange Hch Hch16 Hrate Hsize.
  destruct (header_fields buffer (wavData buffer)) as (Friff & Fch & Frate & Fsize & Fskip).
  rewrite Z.mod_small in Friff, Fch, Frate, Fsize by lia.
  assert (Hdecode :
            decodeWav (wavHeader buffer ++ wavData buffer)
            = Some {| decodedChannels := Z.of_nat (numberOfChannels buffer);
                      decodedSampleRate := sampleRate buffer;
                      decodedCodes := map (map quantize) (channelData buffer) |}).
  { unfold decodeWav.
    replace (_ <? 44)%nat with false
      by (symmetry; apply Nat.ltb_ge; rewrite length_app, wavHeader_length; lia).
    rewrite Fch, Frate, Fsize, Fskip, Nat2Z.id.
    rewrite firstn_all2 by (rewrite wavData_length; lia).
    unfold wavData at 1.
    rewrite <- (app_nil_r (flat_map _ _)), pcmCodes_frames.
    cbn [pcmCodes]. rewrite app_nil_r.
    rewrite (deinterleave_interleaved (storedCode buffer)) by assumption.
    rewrite storedCodes_wellFormed by assumption. reflexivity. }
  eexists. eexists. split; [apply audioBufferToWav_layout |].
  split; [exact Friff |]. split; [exact Fsize |].
  split; [exact Hdecode |].
  cbn [decodedChannels decodedSampleRate decodedCodes].
  repeat split.
  apply channels_within_error. exact Hrange.
Qed.

Lemma wav_encoding_round_trips_witness :
  exists bytes decoded,
    audioBufferToWav exampleBuffer = Some bytes
    /\ field bytes 4 4
       = 36 + Z.of_nat (buffer_length exampleBuffer)
              * Z.of_nat (numberOfChannels exampleBuffer) * 2
    /\ field bytes 40 4
       = Z.of_nat (buffer_length exampleBuffer)
         * Z.of_nat (numberOfChannels exampleBuffer) * 2
    /\ decodeWav bytes = Some decoded
    /\ decodedChannels decoded = Z.of_nat (numberOfChannels exampleBuffer)
    /\ decodedSampleRate decoded = sampleRate exampleBuffer
    /\ decodedCodes decoded = map (map quantize) (channelData exampleBuffer)
    /\ Forall2
         (Forall2 (fun x code => (Qabs (dequantize code - x) < 1 # 32767)%Q))
         (channelData exampleBuffer) (decodedCodes decoded).
Proof.
  apply (proj2 (wav_encoding_round_trips exampleBuffer)).
  - repeat constructor.
  - repeat constructor; discriminate.
  - vm_compute. lia.
  - reflexivity.
  - vm_compute. split; [discriminate | reflexivity].
  - reflexivity.
Defined.

End WavFacts.

(* ================================================================== *)
(** * The session channel *)
(* ================================================================== *)

Module ChannelFacts.

Import JS Channel.

Lemma update_length {A : Type} (f : A -> A) (l : list A) (i : nat) :
  List.length (update l i f) = List.length l.
Proof.
  revert i; induction l as [| x l IH]; intros [| i]; cbn [update List.length]; auto.
Qed.

Lemma update_delays (ts : list Timer) (k : nat) :
  map delay (update ts k (fun t => {| delay := delay t; pending := false |}))
  = map delay ts.
Proof.
  revert k; induction ts as [| t ts IH]; intros [| k]; cbn [update map]; try reflexivity.
  f_equal. apply IH.
Qed.

(** [sendMessage] touches neither the fields of the service nor the timers. *)
Lemma sendMessage_this (r : Runtime) (m : BackendMessage) :
  this (sendMessage r m) = this r.
Proof.
  unfold sendMessage.
  destruct (websocket (this r)) as [id |]; [| reflexivity].
  destruct (socketState r id) as [[] |]; reflexivity.
Qed.

Lemma sendMessage_timers (r : Runtime) (m : BackendMessage) :
  timers (sendMessage r m) = timers r.
Proof.
  unfold sendMessage.
  destruct (websocket (this r)) as [id |]; [| reflexivity].
  destruct (socketState r id) as [[] |]; reflexivity.
Qed.

Lemma sendMessage_not_open (r : Runtime) (m : BackendMessage) :
  channelOpen r = false -> sendMessage r m = logged r (notReady m).
Proof.
  unfold channelOpen, sendMessage, notReady.
  destruct (websocket (this r)) as [id |]; [| reflexivity].
  destruct (socketState r id) as [[] |]; intros H; try reflexivity; discriminate.
Qed.

(** C1, as amended. [sendMessage] on a channel that is not open only
    logs a warning and never throws.  [sendAudioChunk] and
    [sendRiskScore] throw "Not connected to backend" and change nothing
    when [isConnected] is false or there is no socket; when that guard
    passes and the socket is not open they return normally, log the
    warning and send nothing. *)
Theorem send_when_channel_not_open (r : Runtime) :
  (forall m : BackendMessage,
      channelOpen r = false ->
      sendMessage r m = logged r (notReady m)
      /\ sockets (sendMessage r m) = sockets r)
  /\ (forall (chunkId : string) (score now : Z),
         notConnected r = true ->
         sendAudioChunk r chunkId now = (Thrown "Not connected to backend", r)
         /\ sendRiskScore r score now = (Thrown "Not connected to backend", r))
  /\ (forall (chunkId : string) (score now : Z),
         notConnected r = false -> channelOpen r = false ->
         (fst (sendAudioChunk r chunkId now) = Returned tt
          /\ sockets (snd (sendAudioChunk r chunkId now)) = sockets r
          /\ console (snd (sendAudioChunk r chunkId now))
             = console r
               ++ [console_warn "WebSocket not ready, message not sent:" audio_chunk])
         /\ (fst (sendRiskScore r score now) = Returned tt
             /\ sockets (snd (sendRiskScore r score now)) = sockets r
             /\ console (snd (sendRiskScore r score now))
                = console r
                  ++ [console_warn "WebSocket not ready, message not sent:" risk_score])).
Proof.
  split; [| split].
  - intros m H. rewrite (sendMessage_not_open r m H). split; reflexivity.
  - intros chunkId score now H. unfold sendAudioChunk, sendRiskScore. rewrite H.
    split; reflexivity.
  - intros chunkId score now Hc Ho. unfold sendAudioChunk, sendRiskScore. rewrite Hc.
    cbn [fst snd]. rewrite !sendMessage_not_open by assumption.
    repeat split; reflexivity.
Qed.

Lemma send_when_channel_not_open_witness :
  (sendAudioChunk freshService "chunk-1" 1700000000200
   = (Thrown "Not connected to backend", freshService)
   /\ sendRiskScore freshService 50 1700000000200
      = (Thrown "Not connected to backend", freshService))
  /\ fst (sendAudioChunk reconnecting "chunk-1" 1700000000200) = Returned tt.
Proof.
  split.
  - apply (proj1 (proj2 (send_when_channel_not_open freshService))). reflexivity.
  - apply (proj2 (proj2 (send_when_channel_not_open reconnecting))
             "chunk-1"%string 50 1700000000200); reflexivity.
Defined.

(** C1 as stated fails: on a service that never connected, whose
    channel is not open, both sends throw. *)
Lemma send_on_closed_channel_throws :
  channelOpen freshService = false
  /\ fst (sendAudioChunk freshService "chunk-1" 1700000000200)
     = Thrown "Not connected to backend"
  /\ fst (sendRiskScore freshService 50 1700000000200)
     = Thrown "Not connected to backend"
  /\ fst (sendAudioChunk freshService "chunk-1" 1700000000200) <> Returned tt
  /\ fst (sendRiskScore freshService 50 1700000000200) <> Returned tt.
Proof.
  repeat split; discriminate.
Qed.

Lemma disconnect_timers (r : Runtime) : timers (disconnect r) = timers r.
Proof. unfold disconnect. destruct (websocket (this r)); reflexivity. Qed.

Lemma disconnect_sockets_length (r : Runtime) :
  List.length (sockets (disconnect r)) = List.length (sockets r).
Proof.
  unfold disconnect. destruct (websocket (this r)); [| reflexivity].
  cbn [sockets withThis withSockets]. apply update_length.
Qed.

Lemma disconnect_connecting (r : Runtime) :
  connecting (disconnect r) = connecting r.
Proof. unfold disconnect. destruct (websocket (this r)); reflexivity. Qed.

Lemma nth_error_update_same {A : Type} (f : A -> A) (l : list A) :
  forall (i : nat) (x : A),
  nth_error l i = Some x -> nth_error (update l i f) i = Some (f x).
Proof.
  induction l as [| y l IH]; intros [| i] x H; cbn [nth_error update] in *;
    try discriminate.
  - injection H as ->. reflexivity.
  - apply IH. exact H.
Qed.

(** C2, as amended. [disconnect] drops the current socket
    ([this.websocket] becomes null), closes it (a connecting or open
    socket starts closing, no other socket is touched) and clears
    [isConnected]; but it leaves the armed timers as they are: a
    reconnect that was pending before is pending after, and when it
    fires it calls [connect], which creates a new socket and stores it
    in [this.websocket]. *)
Theorem disconnect_does_not_cancel_reconnect (r : Runtime) (k : nat) :
  websocket (this (disconnect r)) = None
  /\ isConnected (this (disconnect r)) = false
  /\ sockets (disconnect r)
     = match websocket (this r) with
       | Some id => update (sockets r) id closeSocket
       | None => sockets r
       end
  /\ (forall id : nat,
         websocket (this r) = Some id ->
         socketState r id = Some CONNECTING \/ socketState r id = Some OPEN ->
         socketState (disconnect r) id = Some CLOSING)
  /\ timers (disconnect r) = timers r
  /\ (timerPending r k = true ->
      timerPending (disconnect r) k = true
      /\ websocket (this (firedAfterDisconnect r k)) = Some (List.length (sockets r))
      /\ List.length (sockets (firedAfterDisconnect r k)) = S (List.length (sockets r))
      /\ socketState (firedAfterDisconnect r k) (List.length (sockets r))
         = Some CONNECTING).
Proof.
  assert (Hsock : sockets (disconnect r)
                  = match websocket (this r) with
                    | Some id => update (sockets r) id closeSocket
                    | None => sockets r
                    end)
    by (unfold disconnect; destruct (websocket (this r)); reflexivity).
  split.
  { unfold disconnect. destruct (websocket (this r)) eqn:E;
      cbn [this withThis websocket]; [reflexivity | exact E]. }
  split; [unfold disconnect; destruct (websocket (this r)); reflexivity |].
  split; [exact Hsock |]. split.
  { intros id Hid Hstate. unfold socketState in *. rewrite Hsock, Hid.
    destruct (nth_error (sockets r) id) as [ws |] eqn:Ews;
      [| destruct Hstate; discriminate].
    rewrite (nth_error_update_same closeSocket _ _ _ Ews).
    cbn [option_map] in *. unfold closeSocket.
    destruct Hstate as [H | H]; injection H as ->; reflexivity. }
  split; [apply disconnect_timers |].
  intros Hp.
  assert (Hp' : timerPending (disconnect r) k = true)
    by (unfold timerPending in *; rewrite disconnect_timers; exact Hp).
  split; [exact Hp' |].
  unfold firedAfterDisconnect. cbn [run fold_left step]. unfold timerFires. rewrite Hp'.
  unfold resume, connect.
  cbn [connecting withConnecting withTimers connectResumes snd this sockets withThis
       withSockets websocket].
  rewrite disconnect_sockets_length. split; [reflexivity |].
  split.
  - rewrite length_app, disconnect_sockets_length. cbn [List.length]. lia.
  - unfold socketState. cbn [sockets withThis withSockets].
    rewrite nth_error_app2 by (rewrite disconnect_sockets_length; lia).
    rewrite disconnect_sockets_length, Nat.sub_diag. reflexivity.
Qed.

Lemma disconnect_does_not_cancel_reconnect_witness :
  socketState (disconnect reopenedBeforeTimer) 1 = Some CLOSING
  /\ timerPending (disconnect reopenedBeforeTimer) 0 = true
  /\ websocket (this (firedAfterDisconnect reopenedBeforeTimer 0)) = Some 2%nat.
Proof.
  destruct (disconnect_does_not_cancel_reconnect reopenedBeforeTimer 0)
    as (_ & _ & _ & Hclose & _ & Hfire).
  destruct (Hfire eq_refl) as (Hp & Hw & _).
  split; [apply Hclose; [reflexivity | right; reflexivity] |].
  split; [exact Hp | exact Hw].
Defined.

(** C2 as stated fails: connect, open, unexpected close (a reconnect is
    armed after 1000 ms), disconnect, and then the timer fires and its
    [connect] goes on: a second socket is created and the service is
    connecting again. *)
Lemma reconnect_fires_after_disconnect :
  websocket (this droppedThenDisconnected) = None
  /\ isConnected (this droppedThenDisconnected) = false
  /\ map delay (timers droppedThenDisconnected) = [1000]
  /\ timerPending droppedThenDisconnected 0 = true
  /\ List.length (sockets droppedThenDisconnected) = 1%nat
  /\ List.length (sockets reconnectedAfterDisconnect) = 2%nat
  /\ websocket (this reconnectedAfterDisconnect) = Some 1%nat
  /\ socketState reconnectedAfterDisconnect 1 = Some CONNECTING.
Proof. repeat split. Qed.

(** What one event other than an open does to the attempt counter and
    to the delays of the timers armed so far. *)
Lemma step_attempts_delays (r : Runtime) (e : Event) :
  isOpening e = false ->
  attemptsAndDelays (step r e)
  = if isClosing e && (reconnectAttempts (this r) <? maxReconnectAttempts)
    then (reconnectAttempts (this r) + 1,
          map delay (timers r) ++ [reconnectDelay * (reconnectAttempts (this r) + 1)])
    else attemptsAndDelays r.
Proof.
  unfold attemptsAndDelays.
  destruct e as [| nw | | c n | sc n | n st | id n | id | id | id p | k];
    cbn [isOpening isClosing andb step]; intros Hopen; try discriminate.
  - reflexivity.
  - unfold resume. destruct (connecting r); [reflexivity |]. destruct nw; reflexivity.
  - unfold disconnect. destruct (websocket (this r)); reflexivity.
  - unfold sendAudioChunk. destruct (notConnected r); cbn [snd]; [reflexivity |].
    rewrite sendMessage_this, sendMessage_timers. reflexivity.
  - unfold sendRiskScore. destruct (notConnected r); cbn [snd]; [reflexivity |].
    rewrite sendMessage_this, sendMessage_timers. reflexivity.
  - unfold sendSessionEnd. destruct (negb (notConnected r)); [| reflexivity].
    rewrite sendMessage_this, sendMessage_timers. reflexivity.
  - unfold onclose, attemptReconnect.
    cbn [this withThis logged setReadyState withSockets reconnectAttempts timers].
    destruct (reconnectAttempts (this r) <? maxReconnectAttempts).
    + cbn [this withThis logged withTimers reconnectAttempts timers].
      rewrite map_app. reflexivity.
    + reflexivity.
  - reflexivity.
  - unfold onmessage, handleIncomingMessage. destruct p as [m |]; [| reflexivity].
    repeat match goal with |- context [if ?b then _ else _] => destruct b end; reflexivity.
  - unfold timerFires. destruct (timerPending r k); [| reflexivity].
    unfold connect. cbn [this timers withConnecting withTimers reconnectAttempts].
    rewrite update_delays. reflexivity.
Qed.

Lemma run_attempts_delays (trace : list Event) : forall (r : Runtime) (a : nat),
  reconnectAttempts (this r) = Z.of_nat a ->
  (a <= 5)%nat ->
  noReopen trace = true ->
  attemptsAndDelays (run r trace)
  = (Z.of_nat (a + Nat.min (5 - a) (closes trace)),
     map delay (timers r) ++ backoff a (Nat.min (5 - a) (closes trace))).
Proof.
  induction trace as [| e trace IH]; intros r a Ha Hle Hno.
  - unfold closes, backoff. cbn [run fold_left filter List.length].
    rewrite Nat.min_0_r, Nat.add_0_r. cbn [seq map]. rewrite app_nil_r.
    unfold attemptsAndDelays. rewrite Ha. reflexivity.
  - cbn [noReopen forallb] in Hno. apply andb_prop in Hno. destruct Hno as [He Hno].
    apply negb_true_iff in He.
    pose proof (step_attempts_delays r e He) as Hstep.
    unfold attemptsAndDelays in Hstep.
    change (run r (e :: trace)) with (run (step r e) trace).
    unfold closes. cbn [filter].
    destruct (isClosing e); cbn [andb] in Hstep.
    + unfold maxReconnectAttempts in Hstep.
      destruct (Z.ltb_spec (reconnectAttempts (this r)) 5) as [Hlt | Hge];
        pose proof (f_equal fst Hstep) as Hatt; pose proof (f_equal snd Hstep) as Hdel;
        cbn [fst snd] in Hatt, Hdel; clear Hstep.
      * rewrite (IH (step r e) (S a)) by (rewrite ?Hatt, ?Ha; lia || assumption).
        rewrite Hdel, Ha. cbn [List.length]. fold (closes trace).
        replace (Nat.min (5 - a) (S (closes trace)))
          with (S (Nat.min (5 - S a) (closes trace))) by lia.
        unfold backoff. cbn [seq map]. rewrite <- app_assoc. cbn [app].
        f_equal; [f_equal; lia |]. do 2 f_equal. f_equal. lia.
      * rewrite (IH (step r e) a) by (rewrite ?Hatt, ?Ha; lia || assumption).
        rewrite Hdel. cbn [List.length]. fold (closes trace).
        replace (5 - a)%nat with 0%nat by lia. reflexivity.
    + pose proof (f_equal fst Hstep) as Hatt; pose proof (f_equal snd Hstep) as Hdel;
        cbn [fst snd] in Hatt, Hdel; clear Hstep.
      rewrite (IH (step r e) a) by (rewrite ?Hatt, ?Ha; lia || assumption).
      rewrite Hdel. reflexivity.
Qed.

(** C3. From a state whose attempt counter is 0, over every run without
    a successful open, the reconnects that get armed are exactly one per
    close up to the fifth: their delays are 1000, 2000, ... (the n-th is
    n times the base delay), there are at most 5 of them, and an open
    sets the counter back to 0. *)
Theorem reconnect_backoff_is_bounded (r : Runtime) (trace : list Event) :
  reconnectAttempts (this r) = 0 ->
  noReopen trace = true ->
  armedSince r (run r trace)
  = map (fun n => reconnectDelay * Z.of_nat n) (seq 1 (Nat.min 5 (closes trace)))
  /\ (List.length (armedSince r (run r trace)) <= 5)%nat
  /\ forall (r0 : Runtime) (id : nat) (now : Z),
       reconnectAttempts (this (step r0 (SocketOpens id now))) = 0.
Proof.
  intros Hzero Hno.
  pose proof (run_attempts_delays trace r 0 Hzero ltac:(lia) Hno) as H.
  apply (f_equal snd) in H. unfold attemptsAndDelays in H. cbn [snd] in H.
  assert (E : armedSince r (run r trace) = backoff 0 (Nat.min 5 (closes trace))).
  { unfold armedSince. rewrite <- skipn_map, H.
    rewrite <- (length_map delay (timers r)).
    rewrite skipn_app, skipn_all, Nat.sub_diag. reflexivity. }
  split; [exact E |]. split.
  - rewrite E. unfold backoff. rewrite length_map, length_seq. lia.
  - intros r0 id now. cbn [step]. unfold onopen. rewrite sendMessage_this. reflexivity.
Qed.

Lemma reconnect_backoff_is_bounded_witness :
  armedSince connectedRuntime (run connectedRuntime sixCloses)
  = [1000; 2000; 3000; 4000; 5000].
Proof.
  apply (proj1 (reconnect_backoff_is_bounded connectedRuntime sixCloses
                  eq_refl eq_refl)).
Defined.

Lemma step_sessionId (r : Runtime) (e : Event) :
  sessionId (this (step r e)) = sessionId (this r).
Proof.
  destruct e as [| nw | | c n | sc n | n st | id n | id | id | id p | k]; cbn [step].
  - reflexivity.
  - unfold resume. destruct (connecting r); [reflexivity |]. destruct nw; reflexivity.
  - unfold disconnect. destruct (websocket (this r)); reflexivity.
  - unfold sendAudioChunk. destruct (notConnected r); cbn [snd]; [reflexivity |].
    rewrite sendMessage_this. reflexivity.
  - unfold sendRiskScore. destruct (notConnected r); cbn [snd]; [reflexivity |].
    rewrite sendMessage_this. reflexivity.
  - unfold sendSessionEnd. destruct (negb (notConnected r)); [| reflexivity].
    rewrite sendMessage_this. reflexivity.
  - unfold onopen. rewrite sendMessage_this. reflexivity.
  - unfold onclose, attemptReconnect.
    cbn [this withThis logged setReadyState withSockets reconnectAttempts].
    destruct (reconnectAttempts (this r) <? maxReconnectAttempts); reflexivity.
  - reflexivity.
  - unfold onmessage, handleIncomingMessage. destruct p as [m |]; [| reflexivity].
    repeat match goal with |- context [if ?b then _ else _] => destruct b end; reflexivity.
  - unfold timerFires. destruct (timerPending r k); reflexivity.
Qed.

(** C10. The session id is a string set by the constructor; connect,
    disconnect, reconnect timers, socket events, sendSessionEnd and
    every send leave it unchanged, so [getSessionId] returns the same
    value after every sequence of them. *)
Theorem session_id_is_fixed (now random : string) (trace : list Event) :
  getSessionId (construct now random) = Some (generateSessionId now random)
  /\ getSessionId (run (construct now random) trace)
     = getSessionId (construct now random)
  /\ forall (r : Runtime) (e : Event), getSessionId (step r e) = getSessionId r.
Proof.
  assert (Hstep : forall r e, getSessionId (step r e) = getSessionId r)
    by (intros; apply step_sessionId).
  split; [reflexivity |]. split; [| exact Hstep].
  generalize (construct now random). intros r.
  revert r. induction trace as [| e trace IH]; intros r; [reflexivity |].
  change (run r (e :: trace)) with (run (step r e) trace).
  rewrite IH. apply Hstep.
Qed.

End ChannelFacts.


(* ================================================================== *)
(** * Facts about the order of numbers *)
(* ================================================================== *)

Module OrderFacts.

Import JS.

Ltac compare_cases :=
  change (Pos.compare_cont Eq) with Pos.compare in *;
  repeat match goal with
         | |- context [Z.compare ?x ?y] => destruct (Z.compare_spec x y)
         | |- context [Pos.compare ?x ?y] => destruct (Pos.compare_spec x y)
         end;
  subst; cbn; intros; try discriminate; try reflexivity; try lia.

(** [<] on numbers is transitive, and never holds both ways. *)
Lemma lt_trans (a b c : number) : lt a b = true -> lt b c = true -> lt a c = true.
Proof.
  unfold lt, SFltb, SFcompare.
  destruct a as [[] | [] | | [] ma ea], b as [[] | [] | | [] mb eb],
    c as [[] | [] | | [] mc ec];
    try discriminate; try reflexivity; compare_cases.
Qed.

Lemma lt_irrefl (a : number) : lt a a = false.
Proof.
  unfold lt, SFltb, SFcompare.
  destruct a as [[] | [] | | [] ma ea]; try reflexivity; compare_cases.
Qed.

Lemma lt_asym (a b : number) : lt a b = true -> lt b a = false.
Proof.
  intros H. destruct (lt b a) eqn:E; [| reflexivity].
  rewrite <- (lt_irrefl a). symmetry. exact (lt_trans a b a H E).
Qed.

(** No number is above [hi] and below [lo] when [lo] is not above [hi]. *)
Lemma not_between (x lo hi : number) :
  lt hi lo = false -> gt x hi = true -> lt x lo = false.
Proof.
  unfold gt. fold (lt hi x). intros Hlo Hhi.
  destruct (lt x lo) eqn:E; [| reflexivity].
  rewrite <- Hlo. symmetry. exact (lt_trans hi x lo Hhi E).
Qed.

End OrderFacts.

(* ================================================================== *)
(** * The persuasion detector and the analysis loop *)
(* ================================================================== *)

Module DetectorFacts.

Import JS AudioProcessor Detector OrderFacts.

Lemma urgency_excludes_low_flux (x : number) :
  gt x (lit 40%float) = true -> lt x (lit 20%float) = false.
Proof. apply not_between. vm_compute. reflexivity. Qed.

Lemma high_flux_excludes_low_flux (x : number) :
  gt x (lit 50%float) = true -> lt x (lit 20%float) = false.
Proof. apply not_between. vm_compute. reflexivity. Qed.

(** The flags of [analyzeStream] in terms of the features. *)
Lemma analyzeStream_flags (features : Features) (now : Z) :
  let cues := analyzeStream features now in
  urgency cues
  = (gt (spectralFlux features) (lit 40%float) && gt (rms features) (lit 0.7%float))
  /\ authority cues
     = (lt (spectralCentroid features) (lit 0.3%float)
        && lt (spectralFlux features) (lit 20%float))
  /\ socialProof cues
     = (gt (zeroCrossingRate features) (lit 0.25%float)
        && gt (spectralRolloff features) (lit 0.7%float))
  /\ reciprocity cues = false /\ commitment cues = false /\ liking cues = false
  /\ detected cues = urgency cues || authority cues || socialProof cues.
Proof.
  unfold analyzeStream.
  destruct (gt (spectralFlux features) (lit 40%float) && gt (rms features) (lit 0.7%float)),
    (lt (spectralCentroid features) (lit 0.3%float)
     && lt (spectralFlux features) (lit 20%float)),
    (gt (zeroCrossingRate features) (lit 0.25%float)
     && gt (spectralRolloff features) (lit 0.7%float));
    cbn; repeat split; reflexivity.
Qed.

(** X1. The detector never flags urgency and authority together (one
    needs a flux above 40, the other a flux below 20), never flags
    reciprocity, commitment or liking, reports [detected] exactly when
    it flagged a cue, and its confidence stays below 0.61. *)
Theorem analyzeStream_cues_are_limited (features : Features) (now : Z) :
  urgency (analyzeStream features now) && authority (analyzeStream features now) = false
  /\ reciprocity (analyzeStream features now) = false
  /\ commitment (analyzeStream features now) = false
  /\ liking (analyzeStream features now) = false
  /\ detected (analyzeStream features now)
     = urgency (analyzeStream features now) || authority (analyzeStream features now)
       || socialProof (analyzeStream features now)
  /\ lt (confidence (analyzeStream features now)) (lit 0.61%float) = true
  /\ cueTimestamp (analyzeStream features now) = now.
Proof.
  destruct (analyzeStream_flags features now) as (Hu & Ha & Hs & Hr & Hc & Hl & Hd).
  cbv zeta in *.
  assert (Hex : urgency (analyzeStream features now)
                && authority (analyzeStream features now) = false).
  { rewrite Hu, Ha.
    destruct (gt (spectralFlux features) (lit 40%float)) eqn:E; [| reflexivity].
    rewrite (urgency_excludes_low_flux _ E), andb_false_r, andb_false_r. reflexivity. }
  repeat split; try assumption.
  - revert Hex. rewrite Hu, Ha. unfold analyzeStream.
    destruct (gt (spectralFlux features) (lit 40%float) && gt (rms features) (lit 0.7%float)),
      (lt (spectralCentroid features) (lit 0.3%float)
       && lt (spectralFlux features) (lit 20%float)),
      (gt (zeroCrossingRate features) (lit 0.25%float)
       && gt (spectralRolloff features) (lit 0.7%float));
      intros Hex; try discriminate Hex; vm_compute; reflexivity.
  - unfold analyzeStream.
    repeat match goal with |- context [if ?b then _ else _] => destruct b end; reflexivity.
Qed.

Lemma pipeline_score_bounds (features : Features) (now : Z) :
  0 <= calculateRealTimeRisk features (analyzeStream features now)
    <= (if authority (analyzeStream features now) then 55 else 75).
Proof.
  destruct (analyzeStream_flags features now) as (Hu & Ha & Hs & Hr & Hc & Hl & Hd).
  cbv zeta in *.
  unfold calculateRealTimeRisk. rewrite Hr, Hc, Hl, Hu, Ha, Hs.
  pose proof (high_flux_excludes_low_flux (spectralFlux features)) as H50.
  pose proof (urgency_excludes_low_flux (spectralFlux features)) as H40.
  destruct (gt (spectralFlux features) (lit 50%float)),
    (gt (spectralFlux features) (lit 40%float)),
    (lt (spectralFlux features) (lit 20%float));
    try (specialize (H50 eq_refl); discriminate H50);
    try (specialize (H40 eq_refl); discriminate H40);
    destruct (gt (rms features) (lit 0.8%float)), (gt (rms features) (lit 0.7%float)),
      (gt (zeroCrossingRate features) (lit 0.3%float)),
      (lt (spectralCentroid features) (lit 0.3%float)),
      (gt (zeroCrossingRate features) (lit 0.25%float)
       && gt (spectralRolloff features) (lit 0.7%float));
    cbn; lia.
Qed.

Lemma below_80_is_not_critical (score : Z) :
  score <= 75 ->
  Popup.levelText (Popup.updateRiskScore score) <> "CRITICAL"%string.
Proof.
  intros H. unfold Popup.updateRiskScore.
  replace (_ >=? 80) with false by (symmetry; rewrite Z.geb_leb; apply Z.leb_gt; lia).
  repeat match goal with |- context [if ?b then _ else _] => destruct b end;
    cbn; discriminate.
Qed.

(** X2. Whatever the features are, the score computed from them and
    from the cues that [analyzeStream] derives from the same features
    is at most 75 (55 when the authority cue is flagged): the popup
    never labels it CRITICAL.  The bound is reached. *)
Theorem pipeline_score_is_below_critical (features : Features) (now : Z) :
  0 <= calculateRealTimeRisk features (analyzeStream features now)
    <= (if authority (analyzeStream features now) then 55 else 75)
  /\ calculateRealTimeRisk features (analyzeStream features now) <= 75
  /\ Popup.levelText
       (Popup.updateRiskScore (calculateRealTimeRisk features (analyzeStream features now)))
     <> "CRITICAL"%string
  /\ calculateRealTimeRisk loudFeatures (analyzeStream loudFeatures now) = 75.
Proof.
  pose proof (pipeline_score_bounds features now) as Hbound.
  assert (H75 : calculateRealTimeRisk features (analyzeStream features now) <= 75)
    by (destruct (authority (analyzeStream features now)); lia).
  split; [exact Hbound |]. split; [exact H75 |].
  split; [apply below_80_is_not_critical; exact H75 | vm_compute; reflexivity].
Qed.

Lemma riskUpdates_app (a b : list Callback) :
  riskUpdates (a ++ b) = riskUpdates a ++ riskUpdates b.
Proof. unfold riskUpdates. apply flat_map_app. Qed.

(** What one run of [analyzeFrame] emits. *)
Lemma analyzeFrame_updates (st : RealTime) (frame : Frame) :
  riskUpdates (fst (analyzeFrame st frame))
  = if isRecording st
    then [calculateRealTimeRisk
            (fst (extractRealTimeFeatures (lastFrequencyData st) (frequencyData frame)
                    (timeData frame) (featuresNow frame)))
            (analyzeStream
               (fst (extractRealTimeFeatures (lastFrequencyData st) (frequencyData frame)
                       (timeData frame) (featuresNow frame)))
               (cuesNow frame))]
    else [].
Proof.
  unfold analyzeFrame. destruct (isRecording st); cbn [negb]; [| reflexivity].
  cbn [extractRealTimeFeatures fst]. rewrite riskUpdates_app.
  destruct (detected _); reflexivity.
Qed.

Lemma analyzeFrame_state (st : RealTime) (frame : Frame) :
  isRecording (snd (analyzeFrame st frame)) = isRecording st
  /\ analyser (snd (analyzeFrame st frame)) = analyser st
  /\ loops (snd (analyzeFrame st frame))
     = if isRecording st then S (loops st) else loops st.
Proof.
  unfold analyzeFrame. destruct (isRecording st) eqn:E; cbn; rewrite ?E;
    repeat split; reflexivity.
Qed.

Lemma react_updates_bounded (st : RealTime) (input : Input) :
  Forall (fun score => 0 <= score <= 75) (riskUpdates (fst (react st input))).
Proof.
  assert (Hframe : forall s f,
             Forall (fun score => 0 <= score <= 75) (riskUpdates (fst (analyzeFrame s f)))).
  { intros s f. rewrite analyzeFrame_updates. destruct (isRecording s); constructor.
    - pose proof (pipeline_score_bounds
                    (fst (extractRealTimeFeatures (lastFrequencyData s) (frequencyData f)
                            (timeData f) (featuresNow f)))
                    (cuesNow f)) as H.
      destruct (authority _) in H; lia.
    - constructor. }
  destruct input as [[error | stream] frame | | frame]; cbn [react].
  - constructor.
  - cbn [startRealTimeAnalysis snd analyzeRealTime analyser isRecording negb orb].
    apply Hframe.
  - constructor.
  - unfold animationFrame. destruct (loops st); [constructor | apply Hframe].
Qed.

(** X3. Whatever the owner and the browser do to the analysis loop,
    every score handed to [onRiskUpdate] lies between 0 and 75, below
    the level the popup calls CRITICAL. *)
Theorem every_risk_update_is_below_critical (st : RealTime) (inputs : list Input) :
  Forall (fun score =>
            0 <= score <= 75
            /\ Popup.levelText (Popup.updateRiskScore score) <> "CRITICAL"%string)
    (riskUpdates (fst (reactAll st inputs))).
Proof.
  assert (Hlevel : forall score, 0 <= score <= 75 ->
             0 <= score <= 75
             /\ Popup.levelText (Popup.updateRiskScore score) <> "CRITICAL"%string).
  { intros score H. split; [exact H | apply below_80_is_not_critical; lia]. }
  revert st. induction inputs as [| input rest IH]; intros st; [constructor |].
  cbn [reactAll]. pose proof (react_updates_bounded st input) as Hin.
  destruct (react st input) as [callbacks st']. specialize (IH st').
  destruct (reactAll st' rest) as [later final]. cbn [fst] in *.
  rewrite riskUpdates_app. apply Forall_app. split; [| exact IH].
  eapply Forall_impl; [| exact Hin]. intros score H. apply Hlevel. exact H.
Qed.

(** C6, a defect of the code.  [lastFrequencyData] is null only after
    the constructor: in the first session of a processor the first
    frame has spectralFlux 0 whatever it holds, as the claim says.  But
    neither [stop] nor [startRealTimeAnalysis] resets it, so the first
    frame of a later session is compared with the last frame of the
    session before: after a session that ended on a loud frame, the
    first frame of the next session, a silent one, has spectralFlux
    8160 instead of 0, and the loop reports a risk of 15 where the same
    frame in a first session gives 20. *)
Theorem first_frame_of_a_later_session_has_flux :
  (forall frame : Frame, spectralFlux (firstFrameFeatures newRealTime frame) = zero)
  /\ (forall st : RealTime, lastFrequencyData (stopRealTime st) = lastFrequencyData st)
  /\ (forall (st : RealTime) (frame : Frame),
         fst (react st (Start (inr tt) frame))
         = fst (analyzeFrame
                  {| analyser := true; isRecording := true;
                     lastFrequencyData := lastFrequencyData st; loops := loops st |}
                  frame))
  /\ silentFrequency (frequencyData silentFrame)
  /\ silentTime (timeData silentFrame)
  /\ lastFrequencyData afterFirstSession = Some (frequencyData loudFrame)
  /\ spectralFlux (firstFrameFeatures afterFirstSession silentFrame) = lit 8160%float
  /\ eqb (spectralFlux (firstFrameFeatures afterFirstSession silentFrame)) zero = false
  /\ riskUpdates (fst (react afterFirstSession (Start (inr tt) silentFrame))) = [15]
  /\ riskUpdates (fst (react newRealTime (Start (inr tt) silentFrame))) = [20].
Proof.
  split; [reflexivity |]. split; [reflexivity |]. split; [reflexivity |].
  split; [apply Forall_forall; intros x Hx; apply repeat_spec in Hx; exact Hx |].
  split; [apply Forall_forall; intros x Hx; apply repeat_spec in Hx; exact Hx |].
  split; [reflexivity |].
  vm_compute. repeat split; reflexivity.
Qed.

(** X4. Without a successful start, a stopped processor emits nothing
    and its waiting callbacks only go away. *)
Theorem stopped_loop_emits_nothing (st : RealTime) (inputs : list Input) :
  isRecording st = false ->
  forallb (fun input => negb (isStart input)) inputs = true ->
  fst (reactAll st inputs) = []
  /\ isRecording (snd (reactAll st inputs)) = false
  /\ (loops (snd (reactAll st inputs)) <= loops st)%nat
  /\ (loops (snd (reactAll st inputs))
      = loops st - List.length (filter runsFrame inputs))%nat.
Proof.
  revert st. induction inputs as [| input rest IH]; intros st Hrec Hno.
  - cbn. repeat split; try assumption; lia.
  - cbn [forallb] in Hno. apply andb_prop in Hno. destruct Hno as [Hin Hno].
    cbn [reactAll].
    assert (Hstep : fst (react st input) = []
                    /\ isRecording (snd (react st input)) = false
                    /\ loops (snd (react st input))
                       = (loops st - (if runsFrame input then 1 else 0))%nat).
    { destruct input as [[error | stream] frame | | frame];
        cbn [react isStart negb runsFrame] in *; try discriminate.
      - cbn. rewrite ?Hrec. repeat split; try assumption; lia.
      - cbn. rewrite ?Hrec. repeat split; try assumption; lia.
      - unfold animationFrame. destruct (loops st) as [| waiting] eqn:El.
        + cbn. rewrite ?Hrec, ?El. repeat split; try assumption; lia.
        + unfold analyzeFrame. cbn [isRecording]. rewrite Hrec. cbn.
          rewrite ?Hrec. repeat split; try assumption; lia. }
    destruct (react st input) as [callbacks st']. cbn [fst snd] in Hstep.
    destruct Hstep as (Hc & Hr & Hl). subst callbacks.
    destruct (IH st' Hr Hno) as (IH1 & IH2 & IH3 & IH4).
    destruct (reactAll st' rest) as [later final]. cbn [fst snd] in *.
    subst later. cbn [filter].
    destruct (runsFrame input); cbn [List.length]; repeat split; try assumption; lia.
Qed.

Lemma stopped_loop_emits_nothing_witness :
  fst (reactAll (stopRealTime runningRealTime)
         [AnimationFrame someFrame; Stop; AnimationFrame someFrame]) = [].
Proof.
  apply (stopped_loop_emits_nothing (stopRealTime runningRealTime)
           [AnimationFrame someFrame; Stop; AnimationFrame someFrame]
           eq_refl eq_refl).
Defined.

(** X5. While nobody calls [stop], every waiting callback and every
    successful start emits one risk update, and every successful start
    adds a loop: there is no check for a loop that already runs. *)
Theorem every_start_adds_a_loop (st : RealTime) (inputs : list Input) :
  isRecording st = true ->
  (1 <= loops st)%nat ->
  forallb (fun input => negb (isStop input)) inputs = true ->
  isRecording (snd (reactAll st inputs)) = true
  /\ loops (snd (reactAll st inputs))
     = (loops st + List.length (filter isStart inputs))%nat
  /\ List.length (riskUpdates (fst (reactAll st inputs)))
     = List.length (filter runsFrame inputs).
Proof.
  revert st. induction inputs as [| input rest IH]; intros st Hrec Hl Hno.
  - cbn. repeat split; try assumption; lia.
  - cbn [forallb] in Hno. apply andb_prop in Hno. destruct Hno as [Hin Hno].
    cbn [reactAll].
    assert (Hstep : isRecording (snd (react st input)) = true
                    /\ loops (snd (react st input))
                       = (loops st + (if isStart input then 1 else 0))%nat
                    /\ List.length (riskUpdates (fst (react st input)))
                       = (if runsFrame input then 1 else 0)%nat).
    { destruct input as [[error | stream] frame | | frame];
        cbn [react isStop negb runsFrame isStart] in *; try discriminate.
      - cbn. rewrite ?Hrec. repeat split; try assumption; lia.
      - cbn [startRealTimeAnalysis snd analyzeRealTime analyser isRecording negb orb].
        rewrite analyzeFrame_updates.
        destruct (analyzeFrame_state
                    {| analyser := true; isRecording := true;
                       lastFrequencyData := lastFrequencyData st; loops := loops st |}
                    frame) as (H1 & _ & H3).
        rewrite H1, H3. cbn. repeat split; lia.
      - unfold animationFrame. destruct (loops st) as [| waiting] eqn:El; [lia |].
        rewrite analyzeFrame_updates.
        destruct (analyzeFrame_state
                    {| analyser := analyser st; isRecording := isRecording st;
                       lastFrequencyData := lastFrequencyData st; loops := waiting |}
                    frame) as (H1 & _ & H3).
        rewrite H1, H3. cbn [isRecording loops]. rewrite Hrec. cbn. repeat split; lia. }
    destruct (react st input) as [callbacks st']. cbn [fst snd] in Hstep.
    destruct Hstep as (Hr & Hl' & Hc).
    destruct (IH st' Hr ltac:(lia) Hno) as (IH1 & IH2 & IH3).
    destruct (reactAll st' rest) as [later final]. cbn [fst snd] in *.
    rewrite riskUpdates_app, length_app, Hc, IH3, IH2, Hl'. cbn [filter].
    destruct (isStart input), (runsFrame input); cbn [List.length];
      repeat split; try assumption; lia.
Qed.

Lemma every_start_adds_a_loop_witness :
  loops (snd (reactAll runningRealTime
                [AnimationFrame someFrame; Start (inr tt) someFrame;
                 AnimationFrame someFrame; AnimationFrame someFrame]))
  = 2%nat.
Proof.
  apply (proj1 (proj2 (every_start_adds_a_loop runningRealTime
           [AnimationFrame someFrame; Start (inr tt) someFrame;
            AnimationFrame someFrame; AnimationFrame someFrame]
           eq_refl (le_n 1) eq_refl))).
Defined.

End DetectorFacts.

(* ================================================================== *)
(** * Call detection *)
(* ================================================================== *)

Module CallFacts.

Import JS AudioProcessor Detector NumberFacts.

Lemma detectCallPlatforms_ordered (url userAgent : string) :
  subsequence (detectCallPlatforms url userAgent) knownPlatforms = true.
Proof.
  unfold detectCallPlatforms.
  destruct (includes url "zoom.us" || includes userAgent "Zoom"),
    (includes url "teams.microsoft.com" || includes userAgent "Teams"),
    (includes url "meet.google.com" || includes userAgent "Meet"),
    (includes url "webex.com" || includes userAgent "Webex"),
    (includes url "discord.com" || includes userAgent "Discord"),
    (includes url "skype.com" || includes userAgent "Skype"); reflexivity.
Qed.

Lemma detectCallPlatforms_known (url userAgent p : string) :
  In p (detectCallPlatforms url userAgent) -> In p knownPlatforms.
Proof.
  unfold detectCallPlatforms, knownPlatforms.
  destruct (includes url "zoom.us" || includes userAgent "Zoom"),
    (includes url "teams.microsoft.com" || includes userAgent "Teams"),
    (includes url "meet.google.com" || includes userAgent "Meet"),
    (includes url "webex.com" || includes userAgent "Webex"),
    (includes url "discord.com" || includes userAgent "Discord"),
    (includes url "skype.com" || includes userAgent "Skype");
    cbn; intuition.
Qed.

(** The sampling loop needs 30 readings. *)
Lemma sampleLoop_pending (frames : list Uint8Array) : forall (st : Sampler),
  0 <= samples st ->
  samples st + Z.of_nat (List.length frames) < 30 ->
  sampleLoop st frames = None.
Proof.
  induction frames as [| f rest IH]; intros st Hpos Hlen; [reflexivity |].
  cbn [sampleLoop List.length] in *. unfold sampleTick.
  replace (samples st + 1 >=? 30) with false
    by (symmetry; rewrite Z.geb_leb; apply Z.leb_gt; lia).
  apply IH; cbn [samples]; lia.
Qed.

Lemma countJumps_bounds (energies : list Z) :
  0 <= countJumps energies <= Z.max 0 (Z.of_nat (List.length energies) - 1).
Proof.
  induction energies as [| e0 rest IH]; [cbn; lia |].
  destruct rest as [| e1 rest']; [cbn; lia |].
  change (countJumps (e0 :: e1 :: rest'))
    with ((if Z.abs (e1 - e0) >? 100 then 1 else 0) + countJumps (e1 :: rest')).
  cbn [List.length] in *. destruct (Z.abs (e1 - e0) >? 100); lia.
Qed.

Lemma confidenceInRange_all (jumps : Z) :
  0 <= jumps <= 29 -> confidenceInRange jumps = true.
Proof.
  intros H.
  assert (Hall : forallb (fun n => confidenceInRange (Z.of_nat n)) (seq 0 30) = true)
    by (vm_compute; reflexivity).
  rewrite forallb_forall in Hall.
  rewrite <- (Z2Nat.id jumps) by lia. apply Hall. apply in_seq. lia.
Qed.

(** X6. The sampling promise is resolved exactly when the analyser
    has delivered 30 readings, and its result depends on the first 30
    only. *)
Theorem call_needs_thirty_readings (frames : list Uint8Array) :
  (analyzeCallCharacteristics frames = None <-> (List.length frames < 30)%nat)
  /\ analyzeCallCharacteristics frames = analyzeCallCharacteristics (firstn 30 frames).
Proof.
  assert (Hge : (30 <= List.length frames)%nat ->
                analyzeCallCharacteristics frames
                = Some (resolveCall 30 (windowTotal (firstn 30 frames))
                          (countJumps (windowEnergies (firstn 30 frames))))).
  { intros H. unfold analyzeCallCharacteristics.
    rewrite (ProcessorFacts.sampleLoop_window 30 initialSampler frames);
      try (cbn; lia); try assumption. reflexivity. }
  assert (Hlt : forall l, (List.length l < 30)%nat -> analyzeCallCharacteristics l = None).
  { intros l H. apply sampleLoop_pending; cbn [samples initialSampler]; lia. }
  split.
  - split.
    + intros Hnone. destruct (Nat.lt_ge_cases (List.length frames) 30) as [L | G];
        [exact L | rewrite (Hge G) in Hnone; discriminate].
    + apply Hlt.
  - destruct (Nat.lt_ge_cases (List.length frames) 30) as [L | G].
    + rewrite firstn_all2 by lia. reflexivity.
    + rewrite (Hge G). unfold analyzeCallCharacteristics.
      rewrite (ProcessorFacts.sampleLoop_window 30 initialSampler (firstn 30 frames));
        try (cbn; lia); try (rewrite length_firstn; lia).
      rewrite firstn_firstn. reflexivity.
Qed.

(** X7. When a call is declared, between 10 and 29 of the 29 adjacent
    pairs of the window jumped, and the confidence lies strictly
    between 0.63 and 0.9: the cap of 0.9 is never reached.  Otherwise
    the confidence is 0.1 and the participant count 1. *)
Theorem call_confidence_range (frames : list Uint8Array) (result : CallCharacteristics) :
  analyzeCallCharacteristics frames = Some result ->
  if isCall result
  then 10 <= countJumps (windowEnergies (firstn 30 frames)) <= 29
       /\ lt (lit 0.63%float) (callConfidence result) = true
       /\ lt (callConfidence result) (lit 0.9%float) = true
  else callConfidence result = lit 0.1%float /\ participantCount result = lit 1%float.
Proof.
  intros Hres.
  destruct (Nat.lt_ge_cases (List.length frames) 30) as [L | G].
  { unfold analyzeCallCharacteristics in Hres.
    rewrite sampleLoop_pending in Hres by (cbn [samples initialSampler]; lia).
    discriminate. }
  pose (total := windowTotal (firstn 30 frames)).
  pose (jumps := countJumps (windowEnergies (firstn 30 frames))).
  assert (E : analyzeCallCharacteristics frames = Some (resolveCall 30 total jumps)).
  { unfold analyzeCallCharacteristics.
    rewrite (ProcessorFacts.sampleLoop_window 30 initialSampler frames);
      try (cbn; lia); try assumption. reflexivity. }
  assert (Hj : 0 <= jumps <= 29).
  { pose proof (countJumps_bounds (windowEnergies (firstn 30 frames))) as B.
    unfold windowEnergies in B. rewrite length_map, length_firstn in B.
    subst jumps. unfold windowEnergies. lia. }
  fold jumps. clearbody total jumps.
  rewrite E in Hres. clear E.
  assert (Hr : result = resolveCall 30 total jumps) by congruence.
  subst result. clear Hres.
  pose proof (confidenceInRange_all jumps Hj) as Hc.
  unfold confidenceInRange in Hc. apply andb_prop in Hc. destruct Hc as [Hiff Himp].
  apply Bool.eqb_prop in Hiff.
  unfold resolveCall. cbv zeta. cbn [isCall callConfidence participantCount].
  destruct (gt (div (of_Z total) (of_Z 30)) (lit 50%float));
    cbn [andb]; [| split; reflexivity].
  destruct (gt (div (of_Z jumps) (of_Z 30)) (lit 0.3%float)) eqn:Eratio;
    [| split; reflexivity].
  cbn [implb] in Himp. apply andb_prop in Himp. destruct Himp as [Hlo Hhi].
  split; [| split; assumption].
  symmetry in Hiff. apply Z.leb_le in Hiff. lia.
Qed.

Lemma call_confidence_range_witness :
  10 <= countJumps (windowEnergies (firstn 30 exampleWindow)) <= 29
  /\ lt (lit 0.63%float) (lit 0.66%float) = true
  /\ lt (lit 0.66%float) (lit 0.9%float) = true.
Proof.
  apply (call_confidence_range exampleWindow
           {| isCall := true; callConfidence := lit 0.66%float;
              participantCount := lit 2%float |}).
  vm_compute. reflexivity.
Defined.

(** X8. [detectCallPlatforms] lists the platforms in the order it
    tests them.  [detectActiveCall] returns null when no platform
    matches (the microphone is then not asked for) and when the
    microphone is refused; a context it returns names the first
    matching platform and carries the confidence and the participant
    count of a declared call over at least 30 readings.  A URL with
    zoom.us is always reported as Zoom. *)
Theorem detectActiveCall_outcomes (url userAgent : string)
  (getUserMedia : string + unit) (frames : list Uint8Array) (now : Z) :
  subsequence (detectCallPlatforms url userAgent) knownPlatforms = true
  /\ (detectCallPlatforms url userAgent = [] ->
      detectActiveCall url userAgent getUserMedia frames now = Null)
  /\ (forall error,
         detectActiveCall url userAgent (inl error) frames now = Null)
  /\ (forall context,
         detectActiveCall url userAgent getUserMedia frames now = Detected context ->
         hd_error (detectCallPlatforms url userAgent) = Some (platform context)
         /\ In (platform context) knownPlatforms
         /\ (30 <= List.length frames)%nat
         /\ analyzeCallCharacteristics frames
            = Some {| isCall := true;
                      callConfidence := contextConfidence context;
                      participantCount := participants context |}
         /\ contextTimestamp context = now)
  /\ (includes url "zoom.us" = true ->
      hd_error (detectCallPlatforms url userAgent) = Some "Zoom"%string).
Proof.
  split; [apply detectCallPlatforms_ordered |]. split; [| split; [| split]].
  - intros H. unfold detectActiveCall. rewrite H. reflexivity.
  - intros error. unfold detectActiveCall.
    destruct (detectCallPlatforms url userAgent); reflexivity.
  - intros context. unfold detectActiveCall.
    pose proof (detectCallPlatforms_known url userAgent) as Hknown.
    destruct (detectCallPlatforms url userAgent) as [| first rest]; [discriminate |].
    destruct getUserMedia as [error | stream]; [discriminate |].
    destruct (analyzeCallCharacteristics frames) as [c |] eqn:Ec; [| discriminate].
    destruct (isCall c) eqn:Ecall; [| discriminate].
    intros H. injection H as <-. cbn [platform contextConfidence participants
                                       contextTimestamp hd_error].
    repeat split.
    + apply Hknown. left. reflexivity.
    + destruct (Nat.lt_ge_cases (List.length frames) 30) as [L | G]; [| exact G].
      unfold analyzeCallCharacteristics in Ec.
      rewrite sampleLoop_pending in Ec by (cbn [samples initialSampler]; lia).
      discriminate.
    + destruct c as [ic cc pc]. cbn in *. subst ic. reflexivity.
  - intros Hzoom. unfold detectCallPlatforms. rewrite Hzoom. cbn [orb app].
    repeat match goal with |- context [if ?b then _ else _] => destruct b end;
      reflexivity.
Qed.

Lemma detectActiveCall_outcomes_witness :
  hd_error (detectCallPlatforms "https://us02web.zoom.us/j/123 discord.com" "Mozilla Teams")
  = Some "Zoom"%string.
Proof.
  apply (proj2 (proj2 (proj2 (proj2
           (detectActiveCall_outcomes "https://us02web.zoom.us/j/123 discord.com"
              "Mozilla Teams" (inr tt) exampleWindow 0))))).
  vm_compute. reflexivity.
Defined.

End CallFacts.

(* ================================================================== *)
(** * The spectral features *)
(* ================================================================== *)

Module FeatureFacts.

Import JS AudioProcessor Detector NumberFacts.

(** ** The spectral flux *)

Lemma fluxLoop_NaN (currentData previousData : Uint8Array) :
  fluxLoop currentData previousData None = None.
Proof.
  revert previousData.
  induction currentData as [| c cs IH]; intros [| p ps]; cbn; auto.
Qed.

Lemma fluxLoop_self (data : Uint8Array) (flux : Z) :
  fluxLoop data data (Some flux) = Some flux.
Proof.
  revert flux. induction data as [| c cs IH]; intros flux; [reflexivity |].
  cbn [fluxLoop option_map]. replace (flux + (c - c) * (c - c)) with flux by lia.
  apply IH.
Qed.

Lemma fluxLoop_symmetric (a : Uint8Array) : forall (b : Uint8Array) (flux : option Z),
  List.length a = List.length b -> fluxLoop a b flux = fluxLoop b a flux.
Proof.
  induction a as [| x a' IH]; intros [| y b'] flux Hlen; try discriminate;
    [reflexivity |].
  cbn [fluxLoop]. replace ((y - x) * (y - x)) with ((x - y) * (x - y)) by lia.
  apply IH. cbn in Hlen. lia.
Qed.

Lemma fluxLoop_shorter (currentData : Uint8Array) :
  forall (previousData : Uint8Array) (flux : option Z),
  (List.length previousData < List.length currentData)%nat ->
  fluxLoop currentData previousData flux = None.
Proof.
  induction currentData as [| c cs IH]; intros [| p ps] flux Hlen;
    cbn [List.length] in Hlen; try lia.
  - cbn [fluxLoop]. apply fluxLoop_NaN.
  - cbn [fluxLoop]. apply IH. lia.
Qed.

Lemma fluxLoop_longer (currentData : Uint8Array) :
  forall (previousData extra : Uint8Array) (flux : option Z),
  (List.length currentData <= List.length previousData)%nat ->
  fluxLoop currentData (previousData ++ extra) flux
  = fluxLoop currentData previousData flux.
Proof.
  induction currentData as [| c cs IH]; intros [| p ps] extra flux Hlen;
    cbn [List.length] in Hlen; try lia; try reflexivity.
  cbn [fluxLoop app]. apply IH. lia.
Qed.

(** X9. The spectral flux compares a frame with the one before it:
    the same frame twice gives 0, two frames of the same length give
    the same flux in either order, a previous frame that is shorter
    gives NaN, and bins of the previous frame beyond the current
    length are ignored. *)
Theorem spectral_flux_compares_frames
  (lastFrequencyData : option Uint8Array)
  (frequencyData timeData timeData' previous extra : Uint8Array) (now now' : Z) :
  spectralFlux
    (fst (extractRealTimeFeatures
            (snd (extractRealTimeFeatures lastFrequencyData frequencyData timeData now))
            frequencyData timeData' now')) = zero
  /\ (List.length previous = List.length frequencyData ->
      calculateSpectralFlux frequencyData (Some previous)
      = calculateSpectralFlux previous (Some frequencyData))
  /\ ((List.length previous < List.length frequencyData)%nat ->
      is_nan (calculateSpectralFlux frequencyData (Some previous)) = true)
  /\ ((List.length frequencyData <= List.length previous)%nat ->
      calculateSpectralFlux frequencyData (Some (previous ++ extra))
      = calculateSpectralFlux frequencyData (Some previous)).
Proof.
  split; [| split; [| split]].
  - cbn [extractRealTimeFeatures snd fst spectralFlux]. unfold calculateSpectralFlux.
    rewrite fluxLoop_self. reflexivity.
  - intros Hlen. unfold calculateSpectralFlux.
    rewrite (fluxLoop_symmetric frequencyData previous) by lia. reflexivity.
  - intros Hlen. unfold calculateSpectralFlux.
    rewrite fluxLoop_shorter by assumption. reflexivity.
  - intros Hlen. unfold calculateSpectralFlux.
    rewrite fluxLoop_longer by assumption. reflexivity.
Qed.

Lemma spectral_flux_compares_frames_witness :
  calculateSpectralFlux [10; 200] (Some [7; 9])
  = calculateSpectralFlux [7; 9] (Some [10; 200])
  /\ is_nan (calculateSpectralFlux [10; 200; 3] (Some [7; 9])) = true
  /\ calculateSpectralFlux [10; 200] (Some ([7; 9] ++ [5]))
     = calculateSpectralFlux [10; 200] (Some [7; 9]).
Proof.
  split; [| split].
  - apply (proj1 (proj2 (spectral_flux_compares_frames None [10; 200] [] [] [7; 9] [] 0 0))).
    reflexivity.
  - apply (proj1 (proj2 (proj2
             (spectral_flux_compares_frames None [10; 200; 3] [] [] [7; 9] [] 0 0)))).
    cbn. lia.
  - apply (proj2 (proj2 (proj2
             (spectral_flux_compares_frames None [10; 200] [] [] [7; 9] [5] 0 0)))).
    cbn. lia.
Defined.

(** ** The spectral centroid and rolloff *)

Lemma centroidLoop_sums (data : Uint8Array) : forall (i weightedSum sum : Z),
  Forall (fun x => 0 <= x) data ->
  0 <= i ->
  let '(weightedSum', sum') := centroidLoop data i weightedSum sum in
  sum' = sum + sumBytes data
  /\ weightedSum + i * (sum' - sum) <= weightedSum'
     <= weightedSum + (i + arrayLength data - 1) * (sum' - sum).
Proof.
  unfold sumBytes, arrayLength.
  induction data as [| x rest IH]; intros i weightedSum sum Hpos Hi.
  - cbn. split; lia.
  - inversion Hpos as [| x' rest' Hx Hrest]; subst.
    cbn [centroidLoop]. specialize (IH (i + 1) (weightedSum + i * x) (sum + x) Hrest).
    destruct (centroidLoop rest (i + 1) (weightedSum + i * x) (sum + x))
      as [weightedSum' sum'].
    destruct IH as [Hsum Hw]; [lia |].
    assert (Hfold : forall (l : list Z) (a : Z),
               fold_left (fun sum val => sum + val) l a
               = a + fold_left (fun sum val => sum + val) l 0).
    { induction l as [| y l IHl]; intros a; cbn [fold_left]; [lia |].
      rewrite (IHl (a + y)), (IHl (0 + y)). lia. }
    assert (Hrest0 : 0 <= fold_left (fun sum val => sum + val) rest 0).
    { clear - Hrest Hfold. induction Hrest as [| y l Hy _ IHl]; cbn [fold_left]; [lia |].
      rewrite Hfold. lia. }
    cbn [fold_left]. rewrite (Hfold rest (0 + x)).
    cbn [List.length]. rewrite Nat2Z.inj_succ.
    set (s := fold_left (fun sum val => sum + val) rest 0) in *.
    split; [lia |].
    assert (Hlen : 0 <= Z.of_nat (List.length rest)) by lia.
    replace (sum' - sum) with (x + s) by lia.
    replace (sum' - (sum + x)) with s in Hw by lia.
    nia.
Qed.

Lemma centroidLoop_silent (data : Uint8Array) : forall (i : Z),
  silentFrequency data -> centroidLoop data i 0 0 = (0, 0).
Proof.
  induction data as [| x rest IH]; intros i Hs; [reflexivity |].
  inversion Hs as [| x' rest' Hx Hrest]; subst.
  cbn [centroidLoop]. replace (0 + i * 0) with 0 by lia. apply IH. assumption.
Qed.

Lemma sumBytes_silent (data : Uint8Array) :
  silentFrequency data -> sumBytes data = 0.
Proof.
  unfold sumBytes. induction 1 as [| f rest Hf _ IH]; [reflexivity |].
  subst f. cbn. exact IH.
Qed.

(** X10. The two sums of the centroid: [sum] is the byte sum and
    [weightedSum] lies between 0 and (length - 1) * sum, so the
    centroid is a weighted mean of the bin indices. *)
Theorem centroid_is_a_weighted_mean (frequencyData : Uint8Array) :
  Forall (fun x => 0 <= x) frequencyData ->
  let '(weightedSum, sum) := centroidLoop frequencyData 0 0 0 in
  sum = sumBytes frequencyData
  /\ 0 <= weightedSum <= (arrayLength frequencyData - 1) * sum
  /\ calculateSpectralCentroid frequencyData
     = (if sumBytes frequencyData >? 0
        then div (of_Z weightedSum) (of_Z (sumBytes frequencyData)) else zero).
Proof.
  intros Hpos. pose proof (centroidLoop_sums frequencyData 0 0 0 Hpos) as H.
  unfold calculateSpectralCentroid.
  destruct (centroidLoop frequencyData 0 0 0) as [weightedSum sum].
  destruct H as [Hsum Hw]; [lia |].
  rewrite Z.add_0_l in Hsum. subst sum.
  split; [reflexivity |]. split; [lia | reflexivity].
Qed.

Lemma centroid_is_a_weighted_mean_witness :
  let '(weightedSum, sum) := centroidLoop [10; 200; 45] 0 0 0 in
  sum = sumBytes [10; 200; 45]
  /\ 0 <= weightedSum <= (arrayLength [10; 200; 45] - 1) * sum
  /\ calculateSpectralCentroid [10; 200; 45]
     = (if sumBytes [10; 200; 45] >? 0
        then div (of_Z weightedSum) (of_Z (sumBytes [10; 200; 45])) else zero).
Proof.
  apply (centroid_is_a_weighted_mean [10; 200; 45]).
  repeat constructor; lia.
Defined.

Lemma calculateSpectralCentroid_silent (frequencyData : Uint8Array) :
  silentFrequency frequencyData -> calculateSpectralCentroid frequencyData = zero.
Proof.
  intros Hs. unfold calculateSpectralCentroid.
  rewrite centroidLoop_silent by assumption. reflexivity.
Qed.

Lemma calculateSpectralRolloff_silent (frequencyData : Uint8Array) :
  silentFrequency frequencyData -> (1 <= List.length frequencyData)%nat ->
  calculateSpectralRolloff frequencyData = zero.
Proof.
  intros Hs Hl. unfold calculateSpectralRolloff. rewrite sumBytes_silent by assumption.
  destruct Hs as [| f rest Hf Hrest]; [cbn in Hl; lia |].
  subst f. cbn [rolloffLoop].
  replace (SFleb (mul (lit 0.85) (of_Z 0)) (of_Z (0 + 0))) with true
    by (vm_compute; reflexivity).
  apply zero_div_positive. unfold arrayLength. cbn [List.length]. lia.
Qed.

(** X11. On a spectrum whose bins are all 0 the centroid is 0 and the
    rolloff is 0; only an empty spectrum has rolloff 1. *)
Theorem silent_spectrum_centroid_and_rolloff (frequencyData : Uint8Array) :
  silentFrequency frequencyData ->
  calculateSpectralCentroid frequencyData = zero
  /\ calculateSpectralRolloff frequencyData
     = (match frequencyData with [] => lit 1%float | _ => zero end).
Proof.
  intros Hs. split; [apply calculateSpectralCentroid_silent; exact Hs |].
  destruct frequencyData as [| f rest].
  - reflexivity.
  - apply calculateSpectralRolloff_silent; [exact Hs |].
    cbn [List.length]. lia.
Qed.

Lemma silent_spectrum_centroid_and_rolloff_witness :
  calculateSpectralCentroid [0; 0; 0] = zero
  /\ calculateSpectralRolloff [0; 0; 0] = zero.
Proof.
  apply (silent_spectrum_centroid_and_rolloff [0; 0; 0]).
  repeat constructor.
Defined.

(** ** A silent frame in the analysis loop *)

(** X12. A silent frame is not neutral for the loop: its centroid 0
    and flux 0 satisfy the authority test, so the loop reports a
    detected authority cue with confidence 0.4 and a risk score of 20. *)
Theorem silent_frame_is_flagged_as_authority (st : RealTime) (frame : Frame) :
  isRecording st = true ->
  lastFrequencyData st = None \/ lastFrequencyData st = Some (frequencyData frame) ->
  silentFrequency (frequencyData frame) -> silentTime (timeData frame) ->
  (1 <= List.length (frequencyData frame))%nat ->
  (2 <= List.length (timeData frame))%nat ->
  fst (analyzeFrame st frame)
  = [onPersuasionDetected
       {| detected := true; urgency := false; authority := true;
          socialProof := false; reciprocity := false; commitment := false;
          liking := false; confidence := lit 0.4%float;
          cueTimestamp := cuesNow frame |};
     onRiskUpdate 20].
Proof.
  intros Hrec Hlast Hf Ht Hlf Hlt.
  unfold analyzeFrame. rewrite Hrec. cbn [negb].
  unfold extractRealTimeFeatures.
  rewrite (calculateSpectralCentroid_silent _ Hf).
  rewrite (calculateSpectralRolloff_silent _ Hf) by lia.
  rewrite (ProcessorFacts.calculateRMS_silent _ Ht) by lia.
  rewrite (ProcessorFacts.calculateZeroCrossingRate_silent _ Ht) by lia.
  rewrite (ProcessorFacts.calculateEnergy_silent _ Hf) by lia.
  assert (Hflux : calculateSpectralFlux (frequencyData frame) (lastFrequencyData st) = zero).
  { destruct Hlast as [-> | ->]; [reflexivity |].
    unfold calculateSpectralFlux. rewrite fluxLoop_self. reflexivity. }
  rewrite Hflux.
  destruct (frequencyData frame) as [| f0 rest]; [cbn in Hlf; lia |].
  vm_compute. reflexivity.
Qed.

Lemma silent_frame_is_flagged_as_authority_witness :
  fst (analyzeFrame runningRealTime
         {| frequencyData := [0; 0]; timeData := [128; 128];
            featuresNow := 1; cuesNow := 2 |})
  = [onPersuasionDetected
       {| detected := true; urgency := false; authority := true;
          socialProof := false; reciprocity := false; commitment := false;
          liking := false; confidence := lit 0.4%float;
          cueTimestamp := 2 |};
     onRiskUpdate 20].
Proof.
  apply (silent_frame_is_flagged_as_authority runningRealTime
           {| frequencyData := [0; 0]; timeData := [128; 128];
              featuresNow := 1; cuesNow := 2 |}).
  - reflexivity.
  - right. reflexivity.
  - repeat constructor.
  - repeat constructor.
  - cbn. lia.
  - cbn. lia.
Defined.

End FeatureFacts.

(* ================================================================== *)
(** * The life of the bulk captures *)
(* ================================================================== *)

Module CaptureFacts.

Import JS AudioProcessor Capture.

Lemma setState_other (rs : list RecordingState) : forall (r i : nat) (st : RecordingState),
  i <> r -> nth_error (setState rs r st) i = nth_error rs i.
Proof.
  induction rs as [| x rs IH]; intros r i st Hne; [reflexivity |].
  destruct r as [| r'], i as [| i']; cbn [setState nth_error]; try reflexivity.
  - contradiction.
  - apply IH. intros ->. contradiction.
Qed.

Lemma setState_length (rs : list RecordingState) : forall (r : nat) (st : RecordingState),
  List.length (setState rs r st) = List.length rs.
Proof.
  induction rs as [| x rs IH]; intros [| r'] st; cbn [setState List.length];
    try reflexivity. rewrite IH. reflexivity.
Qed.

Lemma stopCurrent_other (p : Recorder) (i : nat) :
  mediaRecorder p <> Some i ->
  nth_error (stopCurrent p) i = nth_error (recorders p) i.
Proof.
  intros Hne. unfold stopCurrent, recorderState.
  destruct (mediaRecorder p) as [r |]; [| reflexivity].
  destruct (nth_error (recorders p) r) as [[| |] |]; try reflexivity.
  apply setState_other. intros ->. contradiction.
Qed.

Lemma stopCurrent_length (p : Recorder) :
  List.length (stopCurrent p) = List.length (recorders p).
Proof.
  unfold stopCurrent, recorderState.
  destruct (mediaRecorder p) as [r |]; [| reflexivity].
  destruct (nth_error (recorders p) r) as [[| |] |]; try reflexivity.
  apply setState_length.
Qed.

Lemma captureStep_superseded (p : Recorder) (e : CaptureEvent) (i : nat)
  (st : RecordingState) :
  recorderState p i = Some st ->
  mediaRecorder p <> Some i ->
  recorderState (captureStep p e) i = Some st
  /\ mediaRecorder (captureStep p e) <> Some i.
Proof.
  unfold recorderState. intros Hst Hne.
  assert (Hi : (i < List.length (recorders p))%nat)
    by (apply nth_error_Some; congruence).
  destruct e as [[error | stream] [error' | recorder] | |];
    cbn [captureStep startCallRecording snd]; try (split; assumption).
  - cbn [recorders mediaRecorder]. split.
    + rewrite nth_error_app1 by assumption. exact Hst.
    + intros H. injection H as H. lia.
  - destruct (stopTimers p); [split; assumption |].
    cbn [stopTimerFires recorders mediaRecorder].
    rewrite stopCurrent_other by assumption. split; assumption.
  - cbn [stop recorders mediaRecorder].
    rewrite stopCurrent_other by assumption. split; assumption.
Qed.

Lemma active_has_recording (rs : list RecordingState) : forall (i : nat),
  nth_error rs i = Some recording ->
  (1 <= List.length
          (filter (fun st => match st with recording => true | _ => false end) rs))%nat.
Proof.
  induction rs as [| x rs IH]; intros [| i'] H; cbn [nth_error] in H; try discriminate.
  - injection H as ->. cbn. lia.
  - cbn [filter]. specialize (IH i' H). destruct x; cbn [List.length]; lia.
Qed.

(** X13. A recorder that [this.mediaRecorder] no longer refers to keeps
    its state whatever happens next: neither [stop] nor a 60-second
    timer reaches it, so a capture that was superseded while recording
    records for good. *)
Theorem superseded_capture_is_never_stopped (p : Recorder)
  (events : list CaptureEvent) (i : nat) (st : RecordingState) :
  recorderState p i = Some st ->
  mediaRecorder p <> Some i ->
  recorderState (captureRun p events) i = Some st
  /\ mediaRecorder (captureRun p events) <> Some i
  /\ (st = recording -> (1 <= activeCaptures (captureRun p events))%nat).
Proof.
  revert p. unfold captureRun.
  induction events as [| e rest IH]; intros p Hst Hne; cbn [fold_left].
  - split; [assumption |]. split; [assumption |].
    intros ->. eapply active_has_recording. exact Hst.
  - destruct (captureStep_superseded p e i st Hst Hne) as [Hst' Hne'].
    apply IH; assumption.
Qed.

Lemma superseded_capture_is_never_stopped_witness :
  recorderState (captureRun (startedTwice newRecorder) [CallStop; StopTimerFires; StopTimerFires]) 0
  = Some recording
  /\ mediaRecorder (captureRun (startedTwice newRecorder) [CallStop; StopTimerFires; StopTimerFires])
     <> Some 0%nat
  /\ (recording = recording ->
      (1 <= activeCaptures
              (captureRun (startedTwice newRecorder) [CallStop; StopTimerFires; StopTimerFires]))%nat).
Proof.
  apply (superseded_capture_is_never_stopped (startedTwice newRecorder)
           [CallStop; StopTimerFires; StopTimerFires] 0 recording).
  - reflexivity.
  - discriminate.
Defined.

(** X14. [stop] right after a successful start ends that capture and
    no other: the recorders that existed before keep their states, the
    number of active captures is what it was before the start, and the
    60-second timer of the start stays pending. *)
Theorem stop_ends_only_the_latest_capture (p : Recorder) :
  recorders (stop (snd (startCallRecording (inr tt) (inr tt) p)))
  = recorders p ++ [inactive]
  /\ activeCaptures (snd (startCallRecording (inr tt) (inr tt) p))
     = S (activeCaptures p)
  /\ activeCaptures (stop (snd (startCallRecording (inr tt) (inr tt) p)))
     = activeCaptures p
  /\ stopTimers (stop (snd (startCallRecording (inr tt) (inr tt) p)))
     = S (stopTimers p)
  /\ recorders (stopTimerFires (stop (snd (startCallRecording (inr tt) (inr tt) p))))
     = recorders p ++ [inactive].
Proof.
  cbn [startCallRecording snd].
  assert (Hstop : stopCurrent
                    {| mediaRecorder := Some (List.length (recorders p));
                       recorders := recorders p ++ [recording];
                       isRecording := isRecording p;
                       stopTimers := S (stopTimers p) |}
                  = recorders p ++ [inactive]).
  { unfold stopCurrent, recorderState. cbn [mediaRecorder recorders].
    rewrite nth_error_app2 by lia. rewrite Nat.sub_diag. cbn [nth_error].
    generalize (recorders p). intros rs.
    induction rs as [| x rs IH]; [reflexivity |].
    cbn [app List.length setState]. rewrite IH. reflexivity. }
  unfold activeCaptures, stop, stopTimerFires. cbn [recorders stopTimers mediaRecorder].
  rewrite Hstop.
  assert (Hagain : stopCurrent
                     {| mediaRecorder := Some (List.length (recorders p));
                        recorders := recorders p ++ [inactive];
                        isRecording := false;
                        stopTimers := S (stopTimers p) |}
                   = recorders p ++ [inactive]).
  { unfold stopCurrent, recorderState. cbn [mediaRecorder recorders].
    rewrite nth_error_app2 by lia. rewrite Nat.sub_diag. reflexivity. }
  rewrite Hagain.
  rewrite !filter_app, !length_app. cbn. repeat split; lia.
Qed.

End CaptureFacts.

(* ================================================================== *)
(** * The quantizer and the bytes of the container *)
(* ================================================================== *)

Module EncoderFacts.

Import AudioProcessor WavFacts.

Lemma clampSample_monotone (x y : Q) :
  (x <= y)%Q -> (clampSample x <= clampSample y)%Q.
Proof.
  intros H. unfold clampSample.
  apply Q.max_le_compat_l. apply Q.min_le_compat_l. exact H.
Qed.

Lemma scaleSample_monotone (s t : Q) :
  (s <= t)%Q -> (scaleSample s <= scaleSample t)%Q.
Proof.
  intros H. unfold scaleSample.
  destruct (Qcompare_spec s 0) as [Es | Es | Es];
    destruct (Qcompare_spec t 0) as [Et | Et | Et]; lra.
Qed.

Lemma scaleSample_sign (s : Q) :
  ((0 <= s)%Q -> (0 <= scaleSample s)%Q) /\ ((s <= 0)%Q -> (scaleSample s <= 0)%Q).
Proof.
  unfold scaleSample.
  destruct (Qcompare_spec s 0) as [Es | Es | Es]; split; intros; lra.
Qed.

Lemma Qtrunc_monotone (a b : Q) : (a <= b)%Q -> Qtrunc a <= Qtrunc b.
Proof.
  intros H.
  destruct (Qlt_le_dec a 0) as [Ha | Ha]; destruct (Qlt_le_dec b 0) as [Hb | Hb].
  - rewrite !Qtrunc_nonpos by lra. apply Qceiling_resp_le. exact H.
  - rewrite (Qtrunc_nonpos a) by lra. rewrite (Qtrunc_nonneg b) by lra.
    transitivity 0.
    + change 0 with (Qceiling 0). apply Qceiling_resp_le. lra.
    + change 0 with (Qfloor 0). apply Qfloor_resp_le. lra.
  - lra.
  - rewrite !Qtrunc_nonneg by lra. apply Qfloor_resp_le. exact H.
Qed.

Lemma quantize_monotone (x y : Q) : (x <= y)%Q -> quantize x <= quantize y.
Proof.
  intros H. unfold quantize.
  apply Qtrunc_monotone, scaleSample_monotone, clampSample_monotone. exact H.
Qed.

(** X15. The quantizer is monotone, keeps the sign, and saturates: every
    sample at or above 1 is stored as 32767 and every sample at or
    below -1 as -32768, so the two ends are not symmetric. *)
Theorem quantize_is_monotone_and_saturates (x y : Q) :
  ((x <= y)%Q -> quantize x <= quantize y)
  /\ ((1 <= x)%Q -> quantize x = 32767)
  /\ ((x <= -1)%Q -> quantize x = -32768)
  /\ ((0 <= x)%Q -> 0 <= quantize x)
  /\ ((x <= 0)%Q -> quantize x <= 0).
Proof.
  pose proof (quantize_range x) as R. change (2 ^ 15) with 32768 in R.
  split; [apply quantize_monotone |].
  split; [| split; [| split]]; intros H.
  - pose proof (quantize_monotone 1 x H) as M.
    change (quantize 1) with 32767 in M. lia.
  - pose proof (quantize_monotone x (-1) H) as M.
    change (quantize (-1)) with (-32768) in M. lia.
  - pose proof (quantize_monotone 0 x H) as M.
    change (quantize 0) with 0 in M. lia.
  - pose proof (quantize_monotone x 0 H) as M.
    change (quantize 0) with 0 in M. lia.
Qed.

Lemma quantize_is_monotone_and_saturates_witness :
  quantize (1 # 3) <= quantize (5 # 2)
  /\ quantize (5 # 2) = 32767
  /\ quantize (-7 # 4) = -32768.
Proof.
  split; [| split].
  - apply (proj1 (quantize_is_monotone_and_saturates (1 # 3) (5 # 2))).
    vm_compute. discriminate.
  - apply (proj1 (proj2 (quantize_is_monotone_and_saturates (5 # 2) 0))).
    vm_compute. discriminate.
  - apply (proj1 (proj2 (proj2 (quantize_is_monotone_and_saturates (-7 # 4) 0)))).
    vm_compute. discriminate.
Defined.

(** ** The bytes of the container *)

Lemma le_bytes_are_bytes (n : nat) : forall (v : Z),
  Forall (fun b => 0 <= b < 256) (le_bytes n v).
Proof.
  induction n as [| n IH]; intros v; cbn [le_bytes]; constructor.
  - apply Z.mod_pos_bound. lia.
  - apply IH.
Qed.

Lemma asciiBytes_are_bytes (s : string) :
  Forall (fun b => 0 <= b < 256) (asciiBytes s).
Proof.
  unfold asciiBytes. apply Forall_map. apply Forall_forall. intros c _.
  pose proof (Ascii.N_ascii_bounded c). lia.
Qed.

Lemma flat_map_are_bytes {A : Type} (f : A -> list Z) (l : list A) :
  (forall a, Forall (fun b => 0 <= b < 256) (f a)) ->
  Forall (fun b => 0 <= b < 256) (flat_map f l).
Proof.
  intros H. induction l as [| a l IH]; cbn [flat_map]; [constructor |].
  apply Forall_app. split; [apply H | exact IH].
Qed.

(** X16. Whatever the buffer holds, the encoder returns a sequence of bytes
    whose fixed header parts are the RIFF/WAVE/fmt/data tags, a 16-byte
    format chunk, format 1 (PCM) and 16 bits per sample. *)
Theorem wav_output_is_a_pcm_container (buffer : AudioBuffer) :
  exists bytes,
    audioBufferToWav buffer = Some bytes
    /\ Forall (fun b => 0 <= b < 256) bytes
    /\ firstn 4 bytes = asciiBytes "RIFF"
    /\ firstn 8 (skipn 8 bytes) = asciiBytes "WAVEfmt "
    /\ firstn 6 (skipn 16 bytes) = [16; 0; 0; 0; 1; 0]
    /\ firstn 2 (skipn 34 bytes) = [16; 0]
    /\ firstn 4 (skipn 36 bytes) = asciiBytes "data".
Proof.
  exists (wavHeader buffer ++ wavData buffer).
  split; [apply audioBufferToWav_layout |]. split.
  - apply Forall_app. split.
    + unfold wavHeader.
      repeat (apply Forall_app; split);
        first [apply le_bytes_are_bytes | apply asciiBytes_are_bytes].
    + unfold wavData. apply flat_map_are_bytes. intros i.
      unfold frameBytes. apply flat_map_are_bytes. intros channel.
      apply le_bytes_are_bytes.
  - unfold wavHeader. repeat split; reflexivity.
Qed.

End EncoderFacts.

(* ================================================================== *)
(** * What reaches the sockets *)
(* ================================================================== *)

Module SessionFacts.

Import JS Channel Session ChannelFacts.

Lemma nth_error_update {A : Type} (f : A -> A) (l : list A) : forall (i j : nat),
  nth_error (update l i f) j
  = if Nat.eqb j i then option_map f (nth_error l j) else nth_error l j.
Proof.
  induction l as [| x l IH]; intros [| i] [| j]; cbn [update nth_error Nat.eqb option_map];
    try reflexivity.
  - destruct (Nat.eqb _ _); reflexivity.
  - apply IH.
Qed.

(** ** One step, socket by socket *)

Lemma sendMessage_socket (r : Runtime) (m : BackendMessage) (id : nat) (ws : WebSocket) :
  nth_error (sockets r) id = Some ws ->
  exists ws',
    nth_error (sockets (sendMessage r m)) id = Some ws'
    /\ readyState ws' = readyState ws
    /\ (sent ws' = sent ws
        \/ (sent ws' = sent ws ++ [m] /\ readyState ws = OPEN
            /\ websocket (this r) = Some id)).
Proof.
  intros Hws. unfold sendMessage, socketState.
  destruct (websocket (this r)) as [cur |] eqn:Ecur;
    [| exists ws; cbn; auto].
  destruct (nth_error (sockets r) cur) as [wc |] eqn:Ewc; cbn [option_map];
    [| exists ws; cbn; auto].
  destruct (readyState wc) eqn:Est; try (exists ws; cbn; solve [auto]).
  cbn [sockets withSockets]. rewrite nth_error_update.
  destruct (Nat.eqb_spec id cur) as [-> | Hne].
  - rewrite Hws. cbn [option_map]. eexists. split; [reflexivity |].
    cbn [readyState sent]. split; [reflexivity |]. right.
    rewrite Hws in Ewc. injection Ewc as <-. auto.
  - exists ws. auto.
Qed.

Lemma sendMessage_length (r : Runtime) (m : BackendMessage) :
  List.length (sockets (sendMessage r m)) = List.length (sockets r).
Proof.
  unfold sendMessage.
  destruct (websocket (this r)) as [cur |]; [| reflexivity].
  destruct (socketState r cur) as [[] |]; try reflexivity.
  cbn [sockets withSockets]. apply update_length.
Qed.

Lemma setReadyState_socket (r : Runtime) (id0 : nat) (st : ReadyState) (id : nat)
  (ws : WebSocket) :
  nth_error (sockets r) id = Some ws ->
  exists ws', nth_error (sockets (setReadyState r id0 st)) id = Some ws'
              /\ sent ws' = sent ws.
Proof.
  intros Hws. unfold setReadyState. cbn [sockets withSockets].
  rewrite nth_error_update, Hws.
  destruct (Nat.eqb id id0); cbn [option_map]; eexists; split; reflexivity.
Qed.

Lemma disconnect_socket (r : Runtime) (id : nat) (ws : WebSocket) :
  nth_error (sockets r) id = Some ws ->
  exists ws', nth_error (sockets (disconnect r)) id = Some ws'
              /\ sent ws' = sent ws.
Proof.
  intros Hws. unfold disconnect.
  destruct (websocket (this r)) as [cur |]; [| exists ws; auto].
  cbn [sockets withThis withSockets]. rewrite nth_error_update, Hws.
  destruct (Nat.eqb id cur); cbn [option_map]; [| exists ws; auto].
  eexists. split; [reflexivity |]. unfold closeSocket.
  destruct (readyState ws); reflexivity.
Qed.

Lemma resume_socket (r : Runtime) (newWebSocket : string + unit) (id : nat)
  (ws : WebSocket) :
  nth_error (sockets r) id = Some ws ->
  nth_error (sockets (resume r newWebSocket)) id = Some ws.
Proof.
  intros Hws. unfold resume. destruct (connecting r); [exact Hws |].
  destruct newWebSocket as [error | socket]; cbn; [exact Hws |].
  rewrite nth_error_app1; [exact Hws |]. apply nth_error_Some. congruence.
Qed.

Ltac unchanged ws := exists ws; split; [assumption | left; reflexivity].

Lemma sendMessage_step (r0 r : Runtime) (m : BackendMessage) (id : nat) (ws ws1 : WebSocket) :
  nth_error (sockets r) id = Some ws1 ->
  sent ws1 = sent ws ->
  messageSessionId m = sessionId (this r0) ->
  exists ws',
    nth_error (sockets (sendMessage r m)) id = Some ws'
    /\ sameOrOneMore r0 (sendMessage r m) id ws ws'.
Proof.
  intros Hws Hsent Hid.
  destruct (sendMessage_socket r m id ws1 Hws) as (ws' & Hn & Hst & [Hs | (Hs & Hopen & Hcur)]).
  - exists ws'. split; [exact Hn |]. left. congruence.
  - exists ws'. split; [exact Hn |]. right. exists m.
    rewrite sendMessage_this. repeat split; congruence.
Qed.

Lemma step_socket (r : Runtime) (e : Event) (id : nat) (ws : WebSocket) :
  nth_error (sockets r) id = Some ws ->
  exists ws',
    nth_error (sockets (step r e)) id = Some ws'
    /\ sameOrOneMore r (step r e) id ws ws'.
Proof.
  intros Hws.
  destruct e as [| nw | | c n | sc n | n st | id0 n | id0 | id0 | id0 p | k]; cbn [step].
  - unchanged ws.
  - exists ws. split; [apply resume_socket; exact Hws | left; reflexivity].
  - destruct (disconnect_socket r id ws Hws) as (ws' & Hn & Hs).
    exists ws'. split; [exact Hn | left; exact Hs].
  - unfold sendAudioChunk. destruct (notConnected r); cbn [snd]; [unchanged ws |].
    apply (sendMessage_step r r _ id ws ws); auto.
  - unfold sendRiskScore. destruct (notConnected r); cbn [snd]; [unchanged ws |].
    apply (sendMessage_step r r _ id ws ws); auto.
  - unfold sendSessionEnd. destruct (negb (notConnected r)); [| unchanged ws].
    apply (sendMessage_step r r _ id ws ws); auto.
  - destruct (setReadyState_socket r id0 OPEN id ws Hws) as (ws1 & Hn & Hs).
    unfold onopen. apply (sendMessage_step r _ _ id ws ws1); auto.
  - destruct (setReadyState_socket r id0 CLOSED id ws Hws) as (ws1 & Hn & Hs).
    exists ws1. split; [| left; exact Hs].
    unfold onclose, attemptReconnect. cbn [this withThis logged reconnectAttempts].
    destruct (reconnectAttempts (this (setReadyState r id0 CLOSED)) <? maxReconnectAttempts);
      exact Hn.
  - unchanged ws.
  - exists ws. split; [| left; reflexivity].
    unfold onmessage, handleIncomingMessage. destruct p as [message |]; [| exact Hws].
    repeat match goal with |- context [if ?b then _ else _] => destruct b end; exact Hws.
  - exists ws. split; [| left; reflexivity].
    unfold timerFires. destruct (timerPending r k); exact Hws.
Qed.

(** A socket made by a step has not been sent anything and is connecting. *)
Lemma step_new_socket (r : Runtime) (e : Event) (id : nat) (ws' : WebSocket) :
  (List.length (sockets r) <= id)%nat ->
  nth_error (sockets (step r e)) id = Some ws' ->
  ws' = {| readyState := CONNECTING; sent := [] |}.
Proof.
  intros Hid Hn.
  assert (Hnone : forall r1 : Runtime,
             List.length (sockets r1) = List.length (sockets r) ->
             nth_error (sockets r1) id = Some ws' -> False).
  { intros r1 Hlen H1.
    assert (id < List.length (sockets r1))%nat by (apply nth_error_Some; congruence).
    lia. }
  assert (Hconnect : forall (r1 : Runtime) (nw : string + unit),
             List.length (sockets r1) = List.length (sockets r) ->
             nth_error (sockets (snd (connectResumes r1 nw))) id = Some ws' ->
             ws' = {| readyState := CONNECTING; sent := [] |}).
  { intros r1 [error | socket] Hlen H1; cbn in H1.
    - exfalso. apply (Hnone r1 Hlen H1).
    - rewrite nth_error_app2 in H1 by lia.
      destruct (id - List.length (sockets r1))%nat as [| d]; cbn in H1.
      + congruence.
      + destruct d; discriminate. }
  destruct e as [| nw | | c n | sc n | n st | id0 n | id0 | id0 | id0 p | k];
    cbn [step] in Hn.
  - exfalso. apply (Hnone (connect r)); [reflexivity | exact Hn].
  - unfold resume in Hn. destruct (connecting r).
    + exfalso. apply (Hnone r); auto.
    + apply (Hconnect r nw); auto.
  - exfalso. apply (Hnone (disconnect r)); [apply disconnect_sockets_length | exact Hn].
  - exfalso. unfold sendAudioChunk in Hn.
    destruct (notConnected r); cbn [snd] in Hn;
      [apply (Hnone r); auto | eapply Hnone; [| exact Hn]; apply sendMessage_length].
  - exfalso. unfold sendRiskScore in Hn.
    destruct (notConnected r); cbn [snd] in Hn;
      [apply (Hnone r); auto | eapply Hnone; [| exact Hn]; apply sendMessage_length].
  - exfalso. unfold sendSessionEnd in Hn.
    destruct (negb (notConnected r));
      [eapply Hnone; [| exact Hn]; apply sendMessage_length | apply (Hnone r); auto].
  - exfalso. unfold onopen in Hn. eapply Hnone; [| exact Hn].
    rewrite sendMessage_length. cbn [sockets withThis logged setReadyState withSockets].
    apply update_length.
  - exfalso. eapply Hnone; [| exact Hn].
    unfold onclose, attemptReconnect. cbn [this withThis logged reconnectAttempts].
    destruct (reconnectAttempts (this (setReadyState r id0 CLOSED)) <? maxReconnectAttempts);
      cbn [sockets withThis logged withTimers setReadyState withSockets];
      apply update_length.
  - exfalso. apply (Hnone (onerror r)); [reflexivity | exact Hn].
  - exfalso. eapply Hnone; [| exact Hn].
    unfold onmessage, handleIncomingMessage. destruct p as [message |]; [| reflexivity].
    repeat match goal with |- context [if ?b then _ else _] => destruct b end; reflexivity.
  - exfalso. unfold timerFires in Hn. destruct (timerPending r k).
    + eapply Hnone; [| exact Hn]. reflexivity.
    + apply (Hnone r); auto.
Qed.

(** ** Over whole traces *)

Lemma run_app (r : Runtime) (trace : list Event) (e : Event) :
  run r (trace ++ [e]) = step (run r trace) e.
Proof. unfold run. rewrite fold_left_app. reflexivity. Qed.

Lemma run_sessionId (trace : list Event) : forall r : Runtime,
  sessionId (this (run r trace)) = sessionId (this r).
Proof.
  induction trace as [| e rest IH]; intros r; [reflexivity |].
  cbn [run fold_left]. change (fold_left step rest (step r e)) with (run (step r e) rest).
  rewrite IH. apply step_sessionId.
Qed.

(** X17. Every message that any socket of a service is ever handed carries
    the session id that the constructor generated: the messages of all
    the connections of a service belong to one session. *)
Theorem every_message_carries_the_session_id (now random : string)
  (trace : list Event) (id : nat) (ws : WebSocket) (m : BackendMessage) :
  nth_error (sockets (run (construct now random) trace)) id = Some ws ->
  In m (sent ws) ->
  messageSessionId m = Some (generateSessionId now random).
Proof.
  revert id ws m.
  induction trace as [| e rest IH] using rev_ind; intros id ws m Hws Hin.
  - destruct id; discriminate.
  - rewrite run_app in Hws.
    set (r := run (construct now random) rest) in *.
    destruct (Nat.lt_ge_cases id (List.length (sockets r))) as [Hold | Hnew].
    + destruct (nth_error (sockets r) id) as [ws0 |] eqn:E0;
        [| apply nth_error_None in E0; lia].
      destruct (step_socket r e id ws0 E0) as (ws' & Hn & Hrel).
      rewrite Hws in Hn. injection Hn as <-.
      destruct Hrel as [Hs | (m' & Hs & Hid & _)].
      * rewrite Hs in Hin. exact (IH id ws0 m E0 Hin).
      * rewrite Hs in Hin. apply in_app_or in Hin. destruct Hin as [Hin | [<- | []]].
        -- exact (IH id ws0 m E0 Hin).
        -- rewrite Hid. subst r. rewrite run_sessionId. reflexivity.
    + rewrite (step_new_socket r e id ws Hnew Hws) in Hin. destruct Hin.
Qed.

Lemma every_message_carries_the_session_id_witness :
  messageSessionId
    {| type := session_start;
       messageSessionId := Some (generateSessionId "1700000000000" "k3x9q2m1z");
       data := SessionStartData 1700000000100;
       timestamp := 1700000000100 |}
  = Some (generateSessionId "1700000000000" "k3x9q2m1z").
Proof.
  apply (every_message_carries_the_session_id "1700000000000" "k3x9q2m1z"
           [CallConnect; ConnectResumes (inr tt); SocketOpens 0 1700000000100] 0
           {| readyState := OPEN;
              sent := [{| type := session_start;
                          messageSessionId := Some (generateSessionId "1700000000000" "k3x9q2m1z");
                          data := SessionStartData 1700000000100;
                          timestamp := 1700000000100 |}] |}).
  - reflexivity.
  - left. reflexivity.
Defined.

(** X18. No socket is ever dropped, and what a socket was sent is never
    taken back or reordered: over any sequence of events the log only
    grows at its end; one step adds at most one message to one socket,
    and only to the open socket that [this.websocket] refers to. *)
Theorem sent_logs_only_grow (r : Runtime) (trace : list Event) (e : Event)
  (id : nat) (ws : WebSocket) :
  nth_error (sockets r) id = Some ws ->
  (exists ws' more,
      nth_error (sockets (run r trace)) id = Some ws'
      /\ sent ws' = sent ws ++ more)
  /\ (exists ws',
         nth_error (sockets (step r e)) id = Some ws'
         /\ sameOrOneMore r (step r e) id ws ws').
Proof.
  intros Hws. split; [| apply step_socket; exact Hws].
  revert r ws Hws. induction trace as [| e' rest IH]; intros r ws Hws.
  - exists ws, []. split; [exact Hws | rewrite app_nil_r; reflexivity].
  - cbn [run fold_left]. change (fold_left step rest (step r e')) with (run (step r e') rest).
    destruct (step_socket r e' id ws Hws) as (ws1 & Hn & Hrel).
    destruct (IH (step r e') ws1 Hn) as (ws' & more & Hn' & Hs').
    destruct Hrel as [Hs | (m & Hs & _)].
    + exists ws', more. split; [exact Hn' | congruence].
    + exists ws', (m :: more). split; [exact Hn' |].
      rewrite Hs', Hs, <- app_assoc. reflexivity.
Qed.

Lemma sent_logs_only_grow_witness :
  exists ws' more,
    nth_error (sockets (run connectedRuntime
                          [CallSendRiskScore 40 1700000000200; SocketCloses 0;
                           CallSendRiskScore 55 1700000000300])) 0 = Some ws'
    /\ sent ws'
       = sent {| readyState := OPEN;
                 sent := [{| type := session_start;
                             messageSessionId := Some (generateSessionId "1700000000000" "k3x9q2m1z");
                             data := SessionStartData 1700000000100;
                             timestamp := 1700000000100 |}] |} ++ more.
Proof.
  apply (proj1 (sent_logs_only_grow connectedRuntime
                  [CallSendRiskScore 40 1700000000200; SocketCloses 0;
                   CallSendRiskScore 55 1700000000300]
                  CallDisconnect 0 _ eq_refl)).
Defined.

End SessionFacts.

(* ================================================================== *)
(** * Reconnects, over all sequences of events *)
(* ================================================================== *)

Module ReconnectFacts.

Import JS Channel Session ChannelFacts SessionFacts.

Lemma open_attempts_delays (r : Runtime) (id : nat) (now : Z) :
  attemptsAndDelays (step r (SocketOpens id now)) = (0, map delay (timers r)).
Proof.
  unfold attemptsAndDelays. cbn [step]. unfold onopen.
  rewrite sendMessage_this, sendMessage_timers. reflexivity.
Qed.

(** X19. Over every sequence of events, with or without successful opens,
    the attempt counter of a service stays between 0 and 5 and every
    reconnect that was ever armed waits between 1000 and 5000 ms. *)
Theorem attempt_counter_stays_in_range (now random : string) (trace : list Event) :
  0 <= reconnectAttempts (this (run (construct now random) trace)) <= maxReconnectAttempts
  /\ Forall (fun d => reconnectDelay <= d <= reconnectDelay * maxReconnectAttempts)
       (map delay (timers (run (construct now random) trace))).
Proof.
  induction trace as [| e rest IH] using rev_ind.
  - cbn. split; [unfold maxReconnectAttempts; lia | constructor].
  - rewrite run_app. set (r := run (construct now random) rest) in *.
    destruct IH as [Hatt Hdel].
    change (reconnectAttempts (this (step r e))) with (fst (attemptsAndDelays (step r e))).
    change (map delay (timers (step r e))) with (snd (attemptsAndDelays (step r e))).
    destruct (isOpening e) eqn:Eo.
    + destruct e; try discriminate. rewrite open_attempts_delays. cbn [fst snd].
      split; [unfold maxReconnectAttempts; lia | exact Hdel].
    + rewrite (step_attempts_delays r e Eo).
      destruct (isClosing e && (reconnectAttempts (this r) <? maxReconnectAttempts)) eqn:Ec.
      * apply andb_prop in Ec. destruct Ec as [_ Hlt]. apply Z.ltb_lt in Hlt.
        cbn [fst snd]. split; [lia |].
        apply Forall_app. split; [exact Hdel |]. constructor; [| constructor].
        unfold reconnectDelay, maxReconnectAttempts in *. lia.
      * unfold attemptsAndDelays. cbn [fst snd]. split; assumption.
Qed.

(** ** While [this.websocket] is null *)

Lemma map_sent_update (f : WebSocket -> WebSocket) (l : list WebSocket) (i : nat) :
  (forall ws, sent (f ws) = sent ws) ->
  map sent (update l i f) = map sent l.
Proof.
  intros Hf. revert i. induction l as [| x l IH]; intros [| i]; cbn [update map];
    try reflexivity.
  - rewrite Hf. reflexivity.
  - rewrite IH. reflexivity.
Qed.

Lemma sendMessage_null (r : Runtime) (m : BackendMessage) :
  websocket (this r) = None ->
  sentLog (sendMessage r m) = sentLog r /\ websocket (this (sendMessage r m)) = None.
Proof.
  intros H. rewrite sendMessage_this. split; [| exact H].
  unfold sendMessage. rewrite H. reflexivity.
Qed.

Lemma sendMessage_connecting (r : Runtime) (m : BackendMessage) :
  connecting (sendMessage r m) = connecting r.
Proof.
  unfold sendMessage.
  destruct (websocket (this r)) as [id |]; [| reflexivity].
  destruct (socketState r id) as [[] |]; reflexivity.
Qed.

(** One step that lets no call of [connect] go on. *)
Lemma step_null (r : Runtime) (e : Event) :
  websocket (this r) = None ->
  isResume e = false \/ connecting r = 0%nat ->
  sentLog (step r e) = sentLog r /\ websocket (this (step r e)) = None.
Proof.
  intros Hnull He.
  assert (Hguard : notConnected r = true).
  { unfold notConnected. rewrite Hnull. apply orb_true_r. }
  destruct e as [| nw | | c n | sc n | n st | id0 n | id0 | id0 | id0 p | k];
    cbn [step].
  - cbn. auto.
  - destruct He as [He | He]; [discriminate |].
    unfold resume. rewrite He. auto.
  - unfold disconnect. rewrite Hnull. cbn. auto.
  - unfold sendAudioChunk. rewrite Hguard. cbn [snd]. auto.
  - unfold sendRiskScore. rewrite Hguard. cbn [snd]. auto.
  - unfold sendSessionEnd. rewrite Hguard. cbn [negb]. auto.
  - unfold onopen.
    match goal with |- context [sendMessage ?r1 ?m] =>
      destruct (sendMessage_null r1 m) as [Hs Hw]; [exact Hnull |] end.
    rewrite Hs, Hw. split; [| reflexivity].
    unfold sentLog. cbn [sockets withThis logged setReadyState withSockets].
    apply map_sent_update. reflexivity.
  - unfold onclose, attemptReconnect. cbn [this withThis logged reconnectAttempts].
    destruct (reconnectAttempts (this (setReadyState r id0 CLOSED)) <? maxReconnectAttempts);
      unfold sentLog;
      cbn [sockets this websocket withThis logged withTimers setReadyState withSockets];
      (split; [apply map_sent_update; reflexivity | exact Hnull]).
  - cbn. auto.
  - unfold onmessage, handleIncomingMessage. destruct p as [message |]; [| cbn; auto].
    repeat match goal with |- context [if ?b then _ else _] => destruct b end; cbn; auto.
  - unfold timerFires. destruct (timerPending r k); cbn; auto.
Qed.

(** Without a call of [connect], none gets suspended. *)
Lemma step_connecting (r : Runtime) (e : Event) :
  connecting r = 0%nat -> callsConnect e = false -> connecting (step r e) = 0%nat.
Proof.
  intros Hc He.
  destruct e as [| nw | | c n | sc n | n st | id0 n | id0 | id0 | id0 p | k];
    try discriminate; cbn [step].
  - unfold resume. rewrite Hc. exact Hc.
  - rewrite disconnect_connecting. exact Hc.
  - unfold sendAudioChunk. destruct (notConnected r); cbn [snd]; [exact Hc |].
    rewrite sendMessage_connecting. exact Hc.
  - unfold sendRiskScore. destruct (notConnected r); cbn [snd]; [exact Hc |].
    rewrite sendMessage_connecting. exact Hc.
  - unfold sendSessionEnd. destruct (negb (notConnected r)); [| exact Hc].
    rewrite sendMessage_connecting. exact Hc.
  - unfold onopen. rewrite sendMessage_connecting. exact Hc.
  - unfold onclose, attemptReconnect. cbn [this withThis logged reconnectAttempts].
    destruct (reconnectAttempts (this (setReadyState r id0 CLOSED)) <? maxReconnectAttempts);
      exact Hc.
  - exact Hc.
  - unfold onmessage, handleIncomingMessage. destruct p as [message |]; [| exact Hc].
    repeat match goal with |- context [if ?b then _ else _] => destruct b end; exact Hc.
Qed.

Lemma run_null (trace : list Event) : forall r : Runtime,
  websocket (this r) = None ->
  noConnectGoesOn r trace ->
  sentLog (run r trace) = sentLog r /\ websocket (this (run r trace)) = None.
Proof.
  induction trace as [| e rest IH]; intros r Hnull Hfree; [auto |].
  cbn [run fold_left]. change (fold_left step rest (step r e)) with (run (step r e) rest).
  assert (He : isResume e = false \/ connecting r = 0%nat).
  { destruct Hfree as [Hno | [Hc _]]; [left | right; exact Hc].
    cbn [withoutResume forallb] in Hno. apply andb_prop in Hno.
    destruct Hno as [Hno _]. apply negb_true_iff in Hno. exact Hno. }
  destruct (step_null r e Hnull He) as [Hs Hw].
  assert (Hrest : noConnectGoesOn (step r e) rest).
  { destruct Hfree as [Hno | [Hc Hno]].
    - left. cbn [withoutResume forallb] in Hno. apply andb_prop in Hno. apply Hno.
    - right. cbn [withoutConnect forallb] in Hno. apply andb_prop in Hno.
      destruct Hno as [He' Hno]. apply negb_true_iff in He'.
      split; [apply step_connecting; assumption | exact Hno]. }
  destruct (IH (step r e) Hw Hrest) as [Hs' Hw']. split; congruence.
Qed.

Lemma disconnect_sentLog (r : Runtime) : sentLog (disconnect r) = sentLog r.
Proof.
  unfold sentLog, disconnect. destruct (websocket (this r)); [| reflexivity].
  cbn [sockets withThis withSockets]. apply map_sent_update.
  intros ws. unfold closeSocket. destruct (readyState ws); reflexivity.
Qed.

Lemma disconnect_null (r : Runtime) : websocket (this (disconnect r)) = None.
Proof.
  unfold disconnect. destruct (websocket (this r)) eqn:E;
    cbn [this withThis websocket]; [reflexivity | exact E].
Qed.

(** X20. While [this.websocket] is null (after the constructor, after
    [disconnect]) and as long as no call of [connect] goes on (none is
    suspended and none is made, or none that is suspended is let go
    on), no socket is handed any message, whatever the sockets report
    and whatever the owner tries to send.  A call of [connect] that was
    suspended when the owner disconnected is not stopped by
    [disconnect]: when it goes on it gives the service a new socket,
    and that socket is sent the session start when it opens. *)
Theorem nothing_is_sent_without_a_socket (r : Runtime) (trace : list Event) :
  (noConnectGoesOn r trace ->
   (websocket (this r) = None ->
    sentLog (run r trace) = sentLog r /\ websocket (this (run r trace)) = None)
   /\ sentLog (run (disconnect r) trace) = sentLog r
   /\ websocket (this (run (disconnect r) trace)) = None)
  /\ ((1 <= connecting r)%nat ->
      websocket (this (resumedAfterDisconnect r)) = Some (List.length (sockets r))
      /\ socketState (resumedAfterDisconnect r) (List.length (sockets r))
         = Some CONNECTING)
  /\ map (map type) (sentLog openedAfterDisconnect) = [[session_start]; [session_start]].
Proof.
  split; [| split; [| reflexivity]].
  - intros Hfree. split; [intros Hnull; apply run_null; assumption |].
    assert (Hfree' : noConnectGoesOn (disconnect r) trace).
    { destruct Hfree as [Hno | [Hc Hno]]; [left; exact Hno | right].
      split; [rewrite disconnect_connecting; exact Hc | exact Hno]. }
    destruct (run_null trace (disconnect r) (disconnect_null r) Hfree') as [Hs Hw].
    split; [rewrite Hs; apply disconnect_sentLog | exact Hw].
  - intros Hc. unfold resumedAfterDisconnect. cbn [step]. unfold resume.
    rewrite disconnect_connecting.
    destruct (connecting r) as [| waiting] eqn:Ec; [lia |].
    cbn [connectResumes snd this websocket withThis withSockets withConnecting sockets].
    rewrite disconnect_sockets_length. split; [reflexivity |].
    unfold socketState. cbn [sockets withThis withSockets withConnecting].
    rewrite nth_error_app2 by (rewrite disconnect_sockets_length; lia).
    rewrite disconnect_sockets_length, Nat.sub_diag. reflexivity.
Qed.

Lemma nothing_is_sent_without_a_socket_witness :
  (sentLog (run (disconnect droppedConnection)
              [SocketOpens 0 1700000000400; TimerFires 0;
               CallSendSessionEnd 1700000000500 1700000000000;
               SocketMessage 0 None; SocketCloses 0])
   = sentLog droppedConnection)
  /\ websocket (this (resumedAfterDisconnect connectInFlight)) = Some 1%nat.
Proof.
  split.
  - apply (proj1 (nothing_is_sent_without_a_socket droppedConnection
                    [SocketOpens 0 1700000000400; TimerFires 0;
                     CallSendSessionEnd 1700000000500 1700000000000;
                     SocketMessage 0 None; SocketCloses 0])).
    left. reflexivity.
  - apply (proj1 (proj2 (nothing_is_sent_without_a_socket connectInFlight []))).
    apply le_n.
Defined.

(** ** The close event of a deliberate disconnect *)

(** X21. [disconnect] closes the socket; when the socket then reports the
    close, the handler arms a reconnect like after any other close, and
    the reconnect gives the service a new connecting socket: a
    deliberate disconnect is undone by its own close event as long as
    the attempt counter is below 5. *)
Theorem disconnect_is_undone_by_its_close_event (r : Runtime) (id : nat) :
  reconnectAttempts (this r) < maxReconnectAttempts ->
  timers (disconnectThenClose r id) = timers r ++ [nextReconnect r]
  /\ websocket (this (disconnectThenClose r id)) = None
  /\ isConnected (this (disconnectThenClose r id)) = false
  /\ reconnectAttempts (this (disconnectThenClose r id)) = reconnectAttempts (this r) + 1
  /\ websocket (this (reconnectAfterDisconnect r id)) = Some (List.length (sockets r))
  /\ socketState (reconnectAfterDisconnect r id) (List.length (sockets r))
     = Some CONNECTING.
Proof.
  intros Hlt. apply Z.ltb_lt in Hlt.
  assert (Hthis : this (disconnect r)
                  = {| websocket := None; sessionId := sessionId (this r);
                       isConnected := false;
                       reconnectAttempts := reconnectAttempts (this r) |}).
  { unfold disconnect. destruct (websocket (this r)) eqn:E; cbn; [reflexivity |].
    rewrite E. reflexivity. }
  assert (H1 : disconnectThenClose r id
               = withTimers
                   (logged
                      (withThis
                         (logged (setReadyState (disconnect r) id CLOSED)
                            (console_log "WebSocket disconnected"))
                         {| websocket := None; sessionId := sessionId (this r);
                            isConnected := false;
                            reconnectAttempts := reconnectAttempts (this r) + 1 |})
                      (console_log_reconnect (reconnectAttempts (this r) + 1)
                         maxReconnectAttempts))
                   (timers r ++ [nextReconnect r])).
  { unfold disconnectThenClose. cbn [run fold_left step].
    unfold onclose, attemptReconnect.
    cbn [this withThis logged setReadyState withSockets reconnectAttempts
         websocket sessionId isConnected timers withTimers].
    rewrite Hthis. cbn [reconnectAttempts websocket sessionId isConnected].
    rewrite Hlt. rewrite disconnect_timers. reflexivity. }
  assert (Hlen : List.length (sockets (disconnectThenClose r id)) = List.length (sockets r)).
  { rewrite H1. cbn [sockets withTimers logged withThis setReadyState withSockets].
    rewrite update_length. apply disconnect_sockets_length. }
  assert (H2 : websocket (this (reconnectAfterDisconnect r id)) = Some (List.length (sockets r))
               /\ socketState (reconnectAfterDisconnect r id) (List.length (sockets r))
                  = Some CONNECTING).
  { unfold reconnectAfterDisconnect. cbn [run fold_left step].
    unfold timerFires, timerPending.
    assert (Ht : nth_error (timers (disconnectThenClose r id)) (List.length (timers r))
                 = Some (nextReconnect r)).
    { rewrite H1. cbn [timers withTimers].
      rewrite nth_error_app2 by lia. rewrite Nat.sub_diag. reflexivity. }
    rewrite Ht. cbn [pending nextReconnect]. unfold resume, connect.
    cbn [connecting withConnecting withTimers connectResumes snd this websocket
         withThis withSockets sockets].
    rewrite Hlen. split; [reflexivity |].
    unfold socketState. cbn [sockets withThis withSockets withTimers withConnecting].
    rewrite nth_error_app2 by lia. rewrite Hlen, Nat.sub_diag. reflexivity. }
  rewrite H1. cbn [timers withTimers this logged withThis websocket isConnected
                   reconnectAttempts].
  repeat split; try reflexivity; apply H2.
Qed.

Lemma disconnect_is_undone_by_its_close_event_witness :
  timers (disconnectThenClose connectedRuntime 0)
  = timers connectedRuntime ++ [nextReconnect connectedRuntime]
  /\ websocket (this (disconnectThenClose connectedRuntime 0)) = None
  /\ isConnected (this (disconnectThenClose connectedRuntime 0)) = false
  /\ reconnectAttempts (this (disconnectThenClose connectedRuntime 0))
     = reconnectAttempts (this connectedRuntime) + 1
  /\ websocket (this (reconnectAfterDisconnect connectedRuntime 0))
     = Some (List.length (sockets connectedRuntime))
  /\ socketState (reconnectAfterDisconnect connectedRuntime 0)
       (List.length (sockets connectedRuntime))
     = Some CONNECTING.
Proof.
  apply (disconnect_is_undone_by_its_close_event connectedRuntime 0).
  vm_compute. reflexivity.
Defined.

End ReconnectFacts.

(* ================================================================== *)
(** * SimpleAudioProcessor *)
(* ================================================================== *)

Module SimpleFacts.

Import JS Simple OrderFacts NumberFacts.

(** ** The clamp of [getVoiceIntensity] *)

Lemma compare_swap (a b : number) :
  SFcompare b a = option_map CompOpp (SFcompare a b).
Proof.
  unfold SFcompare.
  destruct a as [[] | [] | | [] ma ea], b as [[] | [] | | [] mb eb];
    try reflexivity; cbn [option_map];
    rewrite (Z.compare_antisym ea eb); destruct (ea ?= eb); cbn [CompOpp option_map];
    try reflexivity;
    change (Pos.compare_cont Eq) with Pos.compare;
    rewrite (Pos.compare_antisym ma mb); destruct (ma ?= mb)%positive; reflexivity.
Qed.

Lemma clamp_is_percentage (x : number) :
  is_nan (Math_min (lit 100%float) (Math_max zero x)) = true
  \/ isPercentage (Math_min (lit 100%float) (Math_max zero x)) = true.
Proof.
  destruct x as [[] | [] | | s m e]; try (left; reflexivity); try (right; reflexivity).
  destruct s; [right; reflexivity |].
  replace (Math_max zero (S754_finite false m e)) with (S754_finite false m e)
    by reflexivity.
  right.
  assert (Hn : is_nan (lit 100%float) = false) by reflexivity.
  assert (Hz : is_neg_zero (lit 100%float) = false) by reflexivity.
  assert (Hp : isPercentage (lit 100%float) = true) by reflexivity.
  assert (H0 : SFleb zero (S754_finite false m e) = true) by reflexivity.
  pose proof (compare_swap (lit 100%float) (S754_finite false m e)) as Cx.
  assert (Csome : SFcompare (lit 100%float) (S754_finite false m e) <> None).
  { unfold SFcompare. cbn.
    repeat match goal with |- context [match ?c with _ => _ end] => destruct c end;
      discriminate. }
  unfold isPercentage in *.
  generalize dependent (lit 100%float). intros h Hn Hz Hp Cx Csome.
  unfold Math_min. rewrite Hn. cbn [is_nan orb]. unfold lt, SFltb. rewrite Cx.
  destruct (SFcompare h (S754_finite false m e)) as [[| |] |] eqn:C;
    cbn [option_map CompOpp]; rewrite ?Hz.
  - rewrite H0. unfold SFleb. rewrite Cx. reflexivity.
  - exact Hp.
  - rewrite H0. unfold SFleb. rewrite Cx. reflexivity.
  - contradiction.
Qed.

(** X22. What the voice-intensity callback is called with is a percentage
    or NaN: NaN when the analyser delivers no bins, 0 on a silent
    spectrum; and only an interval that still runs calls it. *)
Theorem voice_intensity_is_a_percentage (p : Processor) (handle : nat)
  (dataArray : AudioProcessor.Uint8Array) (intensity : number) :
  intervalTick p handle dataArray = Some intensity ->
  (is_nan intensity = true \/ isPercentage intensity = true)
  /\ (dataArray = [] -> is_nan intensity = true)
  /\ (dataArray <> [] -> AudioProcessor.silentFrequency dataArray -> intensity = zero)
  /\ nth_error (intervals p) handle = Some true.
Proof.
  unfold intervalTick.
  destruct (nth_error (intervals p) handle) as [[|] |]; try discriminate.
  destruct (analyser p) eqn:Ea; cbn [andb]; [| discriminate].
  destruct (voiceIntensityCallback p); [| discriminate].
  intros H. injection H as <-. unfold getVoiceIntensity. rewrite Ea. cbn [negb].
  split; [apply clamp_is_percentage |]. split; [| split; [| reflexivity]].
  - intros ->. reflexivity.
  - intros Hne Hs.
    rewrite (ProcessorFacts.energy_loop_silent dataArray Hs).
    change (of_Z 0) with zero.
    rewrite zero_div_positive; [reflexivity |].
    destruct dataArray; [contradiction | cbn [List.length]; lia].
Qed.

Lemma voice_intensity_is_a_percentage_witness :
  (is_nan (lit 100%float) = true \/ isPercentage (lit 100%float) = true)
  /\ ([255; 255] = [] -> is_nan (lit 100%float) = true)
  /\ ([255; 255] <> [] -> AudioProcessor.silentFrequency [255; 255] -> lit 100%float = zero)
  /\ nth_error (intervals (simpleRun newProcessor
                             [CallStartVoiceIntensityMonitoring; MicrophoneGranted])) 0
     = Some true.
Proof.
  apply (voice_intensity_is_a_percentage
           (simpleRun newProcessor [CallStartVoiceIntensityMonitoring; MicrophoneGranted])
           0 [255; 255] (lit 100%float)).
  vm_compute. reflexivity.
Defined.

(** ** The intervals *)

Lemma clearInterval_length (running : list bool) : forall handle : nat,
  List.length (clearInterval running handle) = List.length running.
Proof.
  induction running as [| x rest IH]; intros [| handle]; cbn [clearInterval List.length];
    try reflexivity. rewrite IH. reflexivity.
Qed.

Lemma clearInterval_running (running : list bool) : forall handle : nat,
  (List.length (filter (fun x => x) running)
   <= S (List.length (filter (fun x => x) (clearInterval running handle))))%nat.
Proof.
  induction running as [| x rest IH]; intros [| handle]; cbn [clearInterval filter];
    try (cbn; lia).
  - destruct x; cbn [List.length]; lia.
  - specialize (IH handle). destruct x; cbn [List.length]; lia.
Qed.

Lemma simpleStep_intervals (p : Processor) (e : SimpleEvent) :
  (List.length (intervals p) <= List.length (intervals (simpleStep p e)))%nat
  /\ (runningIntervals p + List.length (intervals (simpleStep p e))
      <= runningIntervals (simpleStep p e) + stopCalls [e]
         + List.length (intervals p))%nat.
Proof.
  unfold runningIntervals.
  destruct e as [[error | stream] [error' | recorder] | | | |];
    cbn [simpleStep startRecording snd intervals stopCalls filter List.length
         startVoiceIntensityMonitoring microphoneDenied];
    try (split; lia).
  - unfold stopRecording.
    destruct (match mediaRecorder p with
              | Some r =>
                  if isRecording p
                  then option_map (fun rs => (rs, false)) (stopRecorder (recorders p) r)
                  else Some (recorders p, isRecording p)
              | None => Some (recorders p, isRecording p)
              end) as [[recorders' isRecording'] |]; cbn [snd]; [| split; lia].
    destruct (intensityInterval p) as [handle |]; cbn [snd intervals]; [| split; lia].
    rewrite clearInterval_length.
    pose proof (clearInterval_running (intervals p) handle). split; lia.
  - unfold microphoneGranted. destruct (microphoneRequests p); [split; lia |].
    cbn [intervals]. rewrite filter_app, !length_app. cbn. split; lia.
Qed.

(** X23. Every call of [stopRecording] clears at most one interval: of the
    intervals that were ever created, all but one per call still run. *)
Theorem each_stop_clears_at_most_one_interval (p : Processor)
  (events : list SimpleEvent) :
  (List.length (intervals p) <= List.length (intervals (simpleRun p events)))%nat
  /\ (runningIntervals p + List.length (intervals (simpleRun p events))
      <= runningIntervals (simpleRun p events) + stopCalls events
         + List.length (intervals p))%nat.
Proof.
  revert p. induction events as [| e rest IH]; intros p.
  - cbn. split; lia.
  - cbn [simpleRun fold_left].
    change (fold_left simpleStep rest (simpleStep p e))
      with (simpleRun (simpleStep p e) rest).
    destruct (simpleStep_intervals p e) as [Hl Hr].
    destruct (IH (simpleStep p e)) as [Hl' Hr'].
    assert (Hs : stopCalls (e :: rest) = (stopCalls [e] + stopCalls rest)%nat).
    { unfold stopCalls. cbn [filter]. destruct e; cbn [List.length]; lia. }
    rewrite Hs. split; lia.
Qed.

(** ** The recording flag *)

Lemma setState_same (rs : list AudioProcessor.RecordingState) :
  forall (r : nat) (st : AudioProcessor.RecordingState),
  (r < List.length rs)%nat ->
  nth_error (AudioProcessor.setState rs r st) r = Some st.
Proof.
  induction rs as [| x rs IH]; intros [| r] st H; cbn [List.length] in H; try lia.
  - reflexivity.
  - cbn [AudioProcessor.setState nth_error]. apply IH. lia.
Qed.

Lemma simpleStep_flag (p : Processor) (e : SimpleEvent) :
  recordingFlagSound p -> recordingFlagSound (simpleStep p e).
Proof.
  unfold recordingFlagSound. intros Hp.
  destruct e as [[error | stream] [error' | recorder] | | | |];
    cbn [simpleStep startRecording snd isRecording mediaRecorder recorders
         startVoiceIntensityMonitoring microphoneDenied]; try exact Hp.
  - intros _. exists (List.length (recorders p)). split; [reflexivity |].
    rewrite nth_error_app2 by lia. rewrite Nat.sub_diag. reflexivity.
  - unfold stopRecording.
    destruct (mediaRecorder p) as [r |] eqn:Em.
    + destruct (isRecording p) eqn:Er.
      * destruct (stopRecorder (recorders p) r) as [rs |]; cbn [option_map snd].
        -- destruct (intensityInterval p); cbn [snd isRecording]; discriminate.
        -- rewrite ?Er, ?Em. intros H. apply Hp. reflexivity.
      * destruct (intensityInterval p); cbn [snd isRecording]; rewrite ?Er; discriminate.
    + destruct (intensityInterval p); cbn [snd isRecording mediaRecorder recorders];
        intros H; destruct (Hp H) as (r & Hr & _); discriminate.
  - unfold microphoneGranted. destruct (microphoneRequests p); exact Hp.
Qed.

(** X24. From the constructor on, whatever is called in whatever order
    (recorders being stopped by this class only), [isRecording] is only
    true while the current recorder records, so [stopRecording] never
    fails on an inactive recorder; it leaves the flag false and no
    interval handle. *)
Theorem stopRecording_never_throws (events : list SimpleEvent) :
  recordingFlagSound (simpleRun newProcessor events)
  /\ fst (stopRecording (simpleRun newProcessor events)) = Returned tt
  /\ isRecording (snd (stopRecording (simpleRun newProcessor events))) = false
  /\ intensityInterval (snd (stopRecording (simpleRun newProcessor events))) = None.
Proof.
  assert (Hinv : recordingFlagSound (simpleRun newProcessor events)).
  { induction events as [| e rest IH] using rev_ind.
    - intros H. discriminate.
    - unfold simpleRun. rewrite fold_left_app. apply simpleStep_flag. exact IH. }
  split; [exact Hinv |].
  set (p := simpleRun newProcessor events) in *.
  unfold recordingFlagSound in Hinv. unfold stopRecording.
  destruct (isRecording p) eqn:Er.
  - destruct (Hinv eq_refl) as (r & Hm & Hr). rewrite Hm.
    unfold stopRecorder. rewrite Hr. cbn [option_map].
    destruct (intensityInterval p); cbn; auto.
  - destruct (mediaRecorder p); destruct (intensityInterval p); cbn; auto.
Qed.

End SimpleFacts.

(* ================================================================== *)
(** * The configuration and the risk levels *)
(* ================================================================== *)

Module ConfigFacts.

Import JS Config Background.

Lemma spread_stored (base config : ExtensionConfig) :
  spread base (stored config) = config.
Proof. destruct config. reflexivity. Qed.

Lemma spread_twice (base : ExtensionConfig) (over : Partial.Config) :
  spread (spread base over) over = spread base over.
Proof.
  destruct over as [[e |] [c |] [r |] [k |] [b |] [w |]]; reflexivity.
Qed.

(** X25. What is saved is what is read back, and an update overlays the new
    properties on what was read: a second identical update changes
    nothing, the overlay is shallow (new thresholds replace the old
    ones as a whole), and when the read fails the update is applied to
    the defaults, whatever the storage held. *)
Theorem config_updates_overlay_what_is_read (storage : Storage)
  (config : ExtensionConfig) (newConfig : Partial.Config) (error : string) :
  getConfig (inr tt) (snd (saveConfig (inr tt) config storage)) = config
  /\ getConfig (inr tt) (snd (updateConfig (inr tt) (inr tt) newConfig storage))
     = spread (getConfig (inr tt) storage) newConfig
  /\ snd (updateConfig (inr tt) (inr tt) newConfig
            (snd (updateConfig (inr tt) (inr tt) newConfig storage)))
     = snd (updateConfig (inr tt) (inr tt) newConfig storage)
  /\ getConfig (inr tt) (snd (updateConfig (inl error) (inr tt) newConfig storage))
     = spread DEFAULT_CONFIG newConfig
  /\ updateConfig (inr tt) (inl error) newConfig storage = (Thrown error, storage)
  /\ (forall threshold : Z,
         riskThresholds
           (getConfig (inr tt)
              (snd (updateConfig (inr tt) (inr tt) (onlyHigh threshold) storage)))
         = {| low := None; medium := None; high := Some threshold |}).
Proof.
  assert (Hsave : forall c st, getConfig (inr tt) (snd (saveConfig (inr tt) c st)) = c).
  { intros c st. unfold saveConfig, getConfig, snd. apply spread_stored. }
  assert (Hupdate : forall get st,
             snd (updateConfig get (inr tt) newConfig st)
             = Some (stored (spread (getConfig get st) newConfig))).
  { intros get st. reflexivity. }
  split; [apply Hsave |]. split; [unfold updateConfig; apply Hsave |].
  split; [| split; [unfold updateConfig; apply Hsave | split; [reflexivity |]]].
  - rewrite !Hupdate. do 2 f_equal.
    change (getConfig (inr tt) (Some (stored (spread (getConfig (inr tt) storage) newConfig))))
      with (spread DEFAULT_CONFIG (stored (spread (getConfig (inr tt) storage) newConfig))).
    rewrite spread_stored. apply spread_twice.
  - intros threshold. unfold updateConfig. rewrite Hsave. reflexivity.
Qed.

(** X26. The background's levels sit one notch below the popup's labels:
    with the default thresholds, [high] is what the popup calls
    CRITICAL and [medium] what it calls HIGH, and scores from 30 to 59
    are [low] although the popup shows MEDIUM.  For every configuration
    the alert shown is the one of the level, and the [low] threshold is
    never read. *)
Theorem background_levels_lag_the_popup (config : ExtensionConfig)
  (riskScore : EarlyRiskScore) (low' : option Z) :
  (getRiskLevel DEFAULT_CONFIG (score riskScore) = "high"%string
   <-> Popup.levelText (Popup.updateRiskScore (score riskScore)) = "CRITICAL"%string)
  /\ (getRiskLevel DEFAULT_CONFIG (score riskScore) = "medium"%string
      <-> Popup.levelText (Popup.updateRiskScore (score riskScore)) = "HIGH"%string)
  /\ (getRiskLevel DEFAULT_CONFIG (score riskScore) = "low"%string
      <-> score riskScore < 60)
  /\ alertedLevels (checkRiskThresholds config riskScore)
     = (if String.eqb (getRiskLevel config (score riskScore)) "low"
        then [] else [getRiskLevel config (score riskScore)])
  /\ getRiskLevel (withLow config low') (score riskScore)
     = getRiskLevel config (score riskScore)
  /\ checkRiskThresholds (withLow config low') riskScore
     = checkRiskThresholds config riskScore.
Proof.
  split; [| split; [| split; [| split; [| split]]]].
  - unfold getRiskLevel, Popup.updateRiskScore, atLeast.
    cbn [DEFAULT_CONFIG riskThresholds high medium].
    destruct (Z.geb_spec (score riskScore) 80); [split; reflexivity |].
    destruct (Z.geb_spec (score riskScore) 60); cbn [Popup.levelText].
    + split; discriminate.
    + destruct (Z.geb_spec (score riskScore) 30); split; discriminate.
  - unfold getRiskLevel, Popup.updateRiskScore, atLeast.
    cbn [DEFAULT_CONFIG riskThresholds high medium].
    destruct (Z.geb_spec (score riskScore) 80); [split; discriminate |].
    destruct (Z.geb_spec (score riskScore) 60); cbn [Popup.levelText].
    + split; reflexivity.
    + destruct (Z.geb_spec (score riskScore) 30); split; discriminate.
  - unfold getRiskLevel, atLeast.
    cbn [DEFAULT_CONFIG riskThresholds high medium].
    destruct (Z.geb_spec (score riskScore) 80); [split; [discriminate | lia] |].
    destruct (Z.geb_spec (score riskScore) 60); [split; [discriminate | lia] |].
    split; [lia | reflexivity].
  - unfold getRiskLevel, checkRiskThresholds.
    destruct (atLeast (score riskScore) (high (riskThresholds config))); [reflexivity |].
    destruct (atLeast (score riskScore) (medium (riskThresholds config))); reflexivity.
  - reflexivity.
  - reflexivity.
Qed.

End ConfigFacts.

(* ================================================================== *)
(** * The background service *)
(* ================================================================== *)

Module BackgroundFacts.

Import JS Channel Background ChannelFacts.

Lemma update_last {A : Type} (f : A -> A) (l : list A) (x : A) :
  update (l ++ [x]) (List.length l) f = l ++ [f x].
Proof.
  induction l as [| y l IH]; [reflexivity |].
  cbn [app List.length update]. rewrite IH. reflexivity.
Qed.


(** ... followed by [disconnect]: the new socket is closed before it
    opens, every other socket is left as it was. *)
Lemma connectResumes_disconnect (r : Runtime) :
  sockets (disconnect (snd (connectResumes r (inr tt))))
  = sockets r ++ [{| readyState := CLOSING; sent := [] |}]
  /\ websocket (this (disconnect (snd (connectResumes r (inr tt))))) = None
  /\ isConnected (this (disconnect (snd (connectResumes r (inr tt))))) = false
  /\ timers (disconnect (snd (connectResumes r (inr tt)))) = timers r.
Proof.
  unfold connectResumes, disconnect.
  cbn [snd this websocket withThis withSockets withConnecting sockets
       Channel.sessionId isConnected reconnectAttempts timers].
  rewrite update_last. repeat split.
Qed.




(** X27. [testBackendConnection] does not wait for the socket to open:
    it reports the value [isConnected] has when [connect] creates the
    socket, after whatever happened while [connect] was suspended (the
    value from before the call when nothing happened; false on a fresh
    service, whatever the backend does).  It closes the socket it has
    just created and leaves the service without a socket: every socket
    that existed when [connect] went on is left as it was, open ones
    included, and the next typed send is refused.  An earlier socket
    that opens while [connect] is suspended makes it report a
    connection although there was none before the call. *)
Theorem test_connection_reports_the_state_at_creation (b : CallGuardBackground)
  (during : list Event) (error : string) (score now : Z) :
  (fst (testBackendConnection b during (inl error)) = Failure error
   /\ sockets (communicationService (snd (testBackendConnection b during (inl error))))
      = sockets (serviceAtResume b during)
   /\ this (communicationService (snd (testBackendConnection b during (inl error))))
      = this (serviceAtResume b during)
   /\ Channel.console
        (communicationService (snd (testBackendConnection b during (inl error))))
      = Channel.console (serviceAtResume b during)
        ++ [console_error "Failed to connect to backend:"])
  /\ fst (testBackendConnection b during (inr tt))
     = Success (isConnected (this (serviceAtResume b during)))
  /\ fst (testBackendConnection b [] (inr tt))
     = Success (isConnected (this (communicationService b)))
  /\ sockets (communicationService (snd (testBackendConnection b during (inr tt))))
     = sockets (serviceAtResume b during) ++ [{| readyState := CLOSING; sent := [] |}]
  /\ sockets (communicationService (snd (testBackendConnection b [] (inr tt))))
     = sockets (communicationService b) ++ [{| readyState := CLOSING; sent := [] |}]
  /\ websocket
       (this (communicationService (snd (testBackendConnection b during (inr tt)))))
     = None
  /\ isBackendConnected
       (communicationService (snd (testBackendConnection b during (inr tt))))
     = false
  /\ timers (communicationService (snd (testBackendConnection b during (inr tt))))
     = timers (serviceAtResume b during)
  /\ isActive (snd (testBackendConnection b during (inr tt))) = isActive b
  /\ fst (sendRiskScore
            (communicationService (snd (testBackendConnection b during (inr tt))))
            score now)
     = Thrown "Not connected to backend"
  /\ isConnected (this (communicationService connectingBackground)) = false
  /\ fst (testBackendConnection connectingBackground
            [SocketOpens 0 1700000000100] (inr tt))
     = Success true.
Proof.
  split; [repeat split |].
  assert (H : forall during',
             testBackendConnection b during' (inr tt)
             = (Success (isConnected (this (serviceAtResume b during'))),
                withService b
                  (disconnect (snd (connectResumes (serviceAtResume b during') (inr tt)))))).
  { intros during'. reflexivity. }
  rewrite !H. cbn [fst snd communicationService withService isActive].
  destruct (connectResumes_disconnect (serviceAtResume b during)) as (Hs & Hw & Hc & Ht).
  destruct (connectResumes_disconnect (serviceAtResume b [])) as (Hs0 & _).
  split; [reflexivity |]. split; [reflexivity |]. split; [exact Hs |].
  split; [exact Hs0 |]. split; [exact Hw |]. split; [exact Hc |]. split; [exact Ht |].
  split; [reflexivity |]. split; [| split; reflexivity].
  unfold sendRiskScore, notConnected. rewrite Hw, Hc. reflexivity.
Qed.





End BackgroundFacts.
